(** * Verification of the authentication service: UserController

    Shallow embedding of [src/controller/UserController.ts] together with
    the store operations it calls ([model/UserModel], [model/SessionModel]).
    The controller is translated from its source; the two models are not
    part of the sources at hand and are modelled from the specification,
    each such definition saying so in its doc comment. *)

From Stdlib Require Import String Ascii List ZArith Bool Arith Lia.
Import ListNotations.
Open Scope string_scope.
Open Scope Z_scope.

(** ** JavaScript string primitives used by the controller *)

Module JsString.

(** [s.startsWith(p)] *)
Fixpoint startsWith (p s : string) : bool :=
  match p, s with
  | EmptyString, _ => true
  | String a p', String b s' => if Ascii.eqb a b then startsWith p' s' else false
  | String _ _, EmptyString => false
  end.

(** [s.includes(p)] *)
Fixpoint includes (p s : string) : bool :=
  if startsWith p s then true
  else match s with
       | EmptyString => false
       | String _ s' => includes p s'
       end.

Fixpoint drop (n : nat) (s : string) : string :=
  match n, s with
  | O, _ => s
  | S n', String _ s' => drop n' s'
  | S _, EmptyString => EmptyString
  end.

(** [s.replace(p, r)] with a string pattern: the first occurrence only. *)
Fixpoint replace (p r s : string) : string :=
  if startsWith p s then r ++ drop (String.length p) s
  else match s with
       | EmptyString => EmptyString
       | String a s' => String a (replace p r s')
       end.

(** Truthiness of an optional string: [undefined] and [''] are falsy. *)
Definition truthy (v : option string) : bool :=
  match v with
  | Some s => negb (String.eqb s "")
  | None => false
  end.

End JsString.

(** ** Errors *)

(** The classes of [error/ErrorTypes] imported by the controller. *)
Inductive ErrorKind : Type :=
| UserNotFound
| WrongPasswordError
| UserValidationError
| UsernameAlreadyExistsError
| EmailAlreadyExistsError
| AlreadyLoggedInError
| UpdatePasswordTooLateError
| EmailAlreadyConfirmedError.

(** Fields of the user collection that carry a unique index. *)
Inductive UniqueField : Type := FUsername | FEmail.

(** What a [catch (err)] can receive.  A domain error is one of the classes
    above with its message.  A persistence failure is what the document
    store throws: its free-text [message] and, for a violated uniqueness
    constraint, the structured identifier of the index ([keyPattern]).  A
    [TypeError] is what reading a property of [undefined] throws. *)
Inductive Exn : Type :=
| Domain (kind : ErrorKind) (msg : string)
| Persistence (keyPattern : option UniqueField) (msg : string)
| TypeError (msg : string).

(** [err.message] *)
Definition message (e : Exn) : string :=
  match e with
  | Domain _ m => m
  | Persistence _ m => m
  | TypeError m => m
  end.

Definition keyPattern (e : Exn) : option UniqueField :=
  match e with
  | Persistence k _ => k
  | _ => None
  end.

(** The [catch] block of [createUser] (UserController.ts, lines 170-178). *)
Definition createUser_catch (err : Exn) : Exn :=
  if JsString.includes "username" (message err) && JsString.includes "duplicate key" (message err)
  then Domain UsernameAlreadyExistsError "Username already exists"
  else if JsString.includes "email" (message err) && JsString.includes "duplicate key" (message err)
  then Domain EmailAlreadyExistsError "Email already exists"
  else Domain UserValidationError
         (JsString.replace "user validation failed: email: Path " "" (message err)).

(** The [catch] block of [updateUser] (UserController.ts, lines 306-314). *)
Definition updateUser_catch (err : Exn) : Exn :=
  if JsString.includes "username" (message err) && JsString.includes "duplicate key" (message err)
  then Domain UsernameAlreadyExistsError "Username already exists"
  else if JsString.includes "email" (message err) && JsString.includes "duplicate key" (message err)
  then Domain EmailAlreadyExistsError "Email already exists"
  else Domain UserValidationError
         (JsString.replace "user validation failed: email: " "" (message err)).

(** ** Data model *)

Definition UserId := nat.

(** A document of the user collection.  [password] holds the stored hash. *)
Record User : Type := mkUser {
  _id : UserId;
  username : string;
  email : string;
  password : string;
  verified : bool;
  verificationToken : option string;
  passwordRecoveryToken : option string;
  passwordRecoveryRequestDate : option Z;
}.

(** The projection of a user without hash and tokens: what a bearer token
    carries ([req.user]) and what [getUserNonInternalFields] returns. *)
Record PublicUser : Type := mkPublicUser {
  pu_id : UserId;
  pu_username : string;
  pu_email : string;
  pu_verified : bool;
}.

(** A document of the session collection; [expiryDate] in milliseconds. *)
Record Session : Type := mkSession {
  userId : UserId;
  refreshToken : string;
  expiryDate : Z;
}.

(** A JavaScript object used as a set of updates.  A key is absent ([None]),
    present with [null] or [undefined] ([Some None]) or present with a value.
    [userUpdates] of [updateUser] has the same shape. *)
Record UserPatch : Type := mkPatch {
  p_username : option string;
  p_email : option string;
  p_password : option string;
  p_previousPassword : option string;
  p_verified : option bool;
  p_verificationToken : option (option string);
  p_passwordRecoveryToken : option (option string);
  p_passwordRecoveryRequestDate : option (option Z);
}.

(** The [user] argument of [createUser]; the controller adds the
    verification token to it. *)
Record RegisterInput : Type := mkRegisterInput {
  r_username : string;
  r_email : string;
  r_password : option string;
  r_verificationToken : option string;
}.

(** Filters handed to the user model. *)
Inductive Filter : Type :=
| ById (i : UserId)
| ByEmail (e : string)
| ByUsername (n : string)
| ByVerificationToken (t : string)
| ByPasswordRecoveryToken (t : string).

Record Notification : Type := mkNotification {
  type : string;
  n_message : string;
}.

(** The [user] local of an email job. *)
Inductive JobUser : Type :=
| JobInput (u : RegisterInput)
| JobPublic (u : PublicUser)
| JobDoc (u : User).

(** The data of an ['email'] job handed to [agenda.now]. *)
Record EmailJob : Type := mkEmailJob {
  clientId : option string;
  link : string;
  locals_user : JobUser;
  recipient : string;
  subject : string;
  template : string;
}.

Record Cookies : Type := mkCookies {
  c_refreshToken : option string;
  c_clientId : option string;
}.

(** The parts of an Express request the controller reads. *)
Record Request : Type := mkRequest {
  user : option PublicUser;
  cookies : Cookies;
  query_token : string;
}.

(** A cookie set on the response: [res.cookie(name, value, \{httpOnly, domain\})]. *)
Record SetCookie : Type := mkSetCookie {
  ck_name : string;
  ck_value : string;
  ck_httpOnly : bool;
  ck_domain : string;
}.

(** What a handler does to the Express response. *)
Inductive Body : Type :=
| Rendered (tpl : string) (notifications : list Notification)
| RenderedForm (tpl : string) (host : string) (token : string)
| Json (notifications : list Notification).

Record Response : Type := mkResponse {
  status : option Z;
  setCookies : list SetCookie;
  body : option Body;
}.

Definition freshResponse : Response := mkResponse None [] None.

(** [config] as the controller uses it. *)
Record Config : Type := mkConfig {
  mailTransporter : bool;
  graphiql : bool;
  privateKey : string;
  verifyEmailTemplate : string;
  resetPasswordEmailTemplate : string;
  notificationPageTemplate : string;
  resetPasswordFormTemplate : string;
  getRouterAddress : Request -> string;
  getDomainAddress : string;
}.

(** The state a request handler runs in: the two collections, the job queue,
    the number of random values drawn so far, and the response being built. *)
Record World : Type := mkWorld {
  users : list User;
  sessions : list Session;
  jobs : list EmailJob;
  draws : nat;
  res : Response;
}.

Definition set_users (us : list User) (w : World) : World :=
  mkWorld us (sessions w) (jobs w) (draws w) (res w).
Definition set_sessions (ss : list Session) (w : World) : World :=
  mkWorld (users w) ss (jobs w) (draws w) (res w).
Definition set_jobs (js : list EmailJob) (w : World) : World :=
  mkWorld (users w) (sessions w) js (draws w) (res w).
Definition set_draws (n : nat) (w : World) : World :=
  mkWorld (users w) (sessions w) (jobs w) n (res w).
Definition set_res (r : Response) (w : World) : World :=
  mkWorld (users w) (sessions w) (jobs w) (draws w) r.

(** ** The monad of a request handler: state and exceptions

    A thrown exception keeps the writes made before it, as in JavaScript. *)

Inductive Result (A : Type) : Type :=
| Ok (a : A)
| Throw (e : Exn).
Arguments Ok {A} a.
Arguments Throw {A} e.

Definition M (A : Type) : Type := World -> Result A * World.

Definition ret {A} (a : A) : M A := fun w => (Ok a, w).
Definition throw {A} (e : Exn) : M A := fun w => (Throw e, w).
Definition bind {A B} (c : M A) (k : A -> M B) : M B :=
  fun w => match c w with
           | (Ok a, w') => k a w'
           | (Throw e, w') => (Throw e, w')
           end.
Definition tryCatch {A} (c : M A) (h : Exn -> M A) : M A :=
  fun w => match c w with
           | (Ok a, w') => (Ok a, w')
           | (Throw e, w') => h e w'
           end.
Definition gets {A} (f : World -> A) : M A := fun w => (Ok (f w), w).
Definition modify (f : World -> World) : M unit := fun w => (Ok tt, f w).

Declare Scope m_scope.
Delimit Scope m_scope with M.
Notation "x <- c ;; k" := (bind c (fun x => k))
  (at level 61, c at next level, right associativity) : m_scope.
Notation "c ;;; k" := (bind c (fun _ => k))
  (at level 61, right associativity) : m_scope.
Open Scope m_scope.

(** ** Collaborators outside the controller

    The random source, the password hash, the token signer and the wording
    of the document store are not part of the sources at hand.  They are
    taken as parameters: [random n len] is the [n]-th value drawn from the
    random source, of length [len]; [hashPassword n pw] hashes [pw] with the
    salt of the [n]-th draw. *)
Record Env : Type := mkEnv {
  random : nat -> nat -> string;
  hashPassword : nat -> string -> string;
  verifyPassword : string -> string -> bool;
  jwtSign : PublicUser -> string -> Z -> string;
  TOKEN_LIFETIME : Z;
  SESSION_LIFETIME : Z;
  REFRESH_TOKEN_LENGTH : nat;
  duplicateKeyMessage : UniqueField -> string -> string;
  usernameTooShortMessage : string;
  notFoundMessage : string;
}.

(** The result of [User.sign]. *)
Record LoginPayload : Type := mkLoginPayload {
  lp_token : string;
  lp_expiryDate : Z;
  lp_user : PublicUser;
}.

(** The result of [User.refreshAuthToken]. *)
Record TokenPayload : Type := mkTokenPayload {
  tp_token : string;
  tp_expiryDate : Z;
}.

(** Modelled from the spec: the public projection of a user, without hash
    and tokens (§4.2, glossary). *)
Definition publicFields (u : User) : PublicUser :=
  mkPublicUser (_id u) (username u) (email u) (verified u).

Definition optionEqb (v : option string) (t : string) : bool :=
  match v with
  | Some x => String.eqb x t
  | None => false
  end.

(** Modelled from the spec: a filter is a partial-field matcher, by id,
    email, username or token value (§4.2). *)
Definition matches (f : Filter) (u : User) : bool :=
  match f with
  | ById i => Nat.eqb (_id u) i
  | ByEmail e => String.eqb (email u) e
  | ByUsername n => String.eqb (username u) n
  | ByVerificationToken t => optionEqb (verificationToken u) t
  | ByPasswordRecoveryToken t => optionEqb (passwordRecoveryToken u) t
  end.

(** [updateOne]: the first matching document is rewritten. *)
Fixpoint updateOne {A} (p : A -> bool) (g : A -> A) (l : list A) : list A :=
  match l with
  | [] => []
  | x :: r => if p x then g x :: r else x :: updateOne p g r
  end.

(** [deleteOne]: the first matching document is removed. *)
Fixpoint deleteOne {A} (p : A -> bool) (l : list A) : list A :=
  match l with
  | [] => []
  | x :: r => if p x then r else x :: deleteOne p r
  end.

(** [a === b] on values that are a string or [undefined]. *)
Definition strictEq (a b : option string) : bool :=
  match a, b with
  | Some x, Some y => String.eqb x y
  | None, None => true
  | _, _ => false
  end.

Definition orElse {A} (v : option A) (d : A) : A :=
  match v with
  | Some a => a
  | None => d
  end.

(** Modelled from the spec: the document after a patch (§4.2); [hashed] is
    the hash of the patch's password when it has one.  [previousPassword]
    is no field of a user (§3). *)
Definition applyPatch (hashed : option string) (p : UserPatch) (u : User) : User :=
  mkUser (_id u)
         (orElse (p_username p) (username u))
         (orElse (p_email p) (email u))
         (orElse hashed (password u))
         (orElse (p_verified p) (verified u))
         (orElse (p_verificationToken p) (verificationToken u))
         (orElse (p_passwordRecoveryToken p) (passwordRecoveryToken u))
         (orElse (p_passwordRecoveryRequestDate p) (passwordRecoveryRequestDate u)).

(** Modelled from the spec: another document than [self] already holds [v]
    in the unique field [sel] (§3). *)
Definition taken (sel : User -> string) (v : string) (self : option UserId) (us : list User) : bool :=
  existsb (fun u => String.eqb (sel u) v
                    && match self with
                       | Some i => negb (Nat.eqb (_id u) i)
                       | None => true
                       end) us.

(** Modelled from the spec: the id of a new document, opaque and unique
    (§3): one more than the ids in use. *)
Definition nextId (us : list User) : UserId :=
  S (fold_right (fun u m => Nat.max (_id u) m) O us).

(** Constants of the controller. *)
Definition TOKEN_LENGTH : nat := 64.
Definition DELAY_TO_CHANGE_PASSWORD_IN_MINUTS : Z := 60.

Section Service.

Variable env : Env.
Variable config : Config.

(** *** The user model ([model/UserModel]) *)

(** Modelled from the spec: field-level validation and the uniqueness
    constraints of the user collection (§3: username unique and of at
    least 5 characters, email unique).  [model/UserSchema] is missing.  A
    violated constraint surfaces as the raw persistence failure, which
    names the colliding field. *)
Definition validate (n e : option string) (self : option UserId) (us : list User) : option Exn :=
  match n with
  | Some n' =>
      if (String.length n' <? 5)%nat
      then Some (Persistence None (usernameTooShortMessage env))
      else if taken username n' self us
      then Some (Persistence (Some FUsername) (duplicateKeyMessage env FUsername n'))
      else match e with
           | Some e' =>
               if taken email e' self us
               then Some (Persistence (Some FEmail) (duplicateKeyMessage env FEmail e'))
               else None
           | None => None
           end
  | None =>
      match e with
      | Some e' =>
          if taken email e' self us
          then Some (Persistence (Some FEmail) (duplicateKeyMessage env FEmail e'))
          else None
      | None => None
      end
  end.

(** Modelled from the spec: [User.userExists(filter) -> bool] (§4.2);
    [model/UserModel] is missing. *)
Definition User_userExists (f : Filter) : M bool :=
  gets (fun w => existsb (matches f) (users w)).

(** Modelled from the spec: [User.getUser(filter) -> User | fails with
    NotFoundError] (§4.2); [model/UserModel] is missing. *)
Definition User_getUser (f : Filter) : M User :=
  fun w => match find (matches f) (users w) with
           | Some u => (Ok u, w)
           | None => (Throw (Domain UserNotFound (notFoundMessage env)), w)
           end.

(** Modelled from the spec: [User.findById], the lookup by id of the
    document store (§1): the document or [null]. *)
Definition User_findById (i : UserId) : M (option User) :=
  gets (fun w => find (matches (ById i)) (users w)).

(** Modelled from the spec: [User.getUserNonInternalFields(filter) ->
    PublicUser], which projects out hash and tokens (§4.2);
    [model/UserModel] is missing.  The lookup is that of [getUser]. *)
Definition User_getUserNonInternalFields (f : Filter) : M PublicUser :=
  u <- User_getUser f ;; ret (publicFields u).

(** Modelled from the spec: [User.createUser(fields)] hashes the password
    before persistence, persists the remaining fields verbatim and
    surfaces the raw constraint failure (§4.2); [verified] defaults to
    false (§3).  [model/UserModel] is missing. *)
Definition User_createUser (u : RegisterInput) : M unit :=
  fun w =>
    match validate (Some (r_username u)) (Some (r_email u)) None (users w) with
    | Some e => (Throw e, w)
    | None =>
        let doc := mkUser (nextId (users w)) (r_username u) (r_email u)
                          (hashPassword env (draws w) (orElse (r_password u) ""))
                          false (r_verificationToken u) None None in
        (Ok tt, set_draws (S (draws w)) (set_users (users w ++ [doc]) w))
    end.

(** Modelled from the spec: the collection after a patch was written to
    the first document the filter matches; hashing a password takes one
    random draw, the fresh salt of §4.2. *)
Definition stored (f : Filter) (p : UserPatch) (w : World) : World :=
  match p_password p with
  | Some pw =>
      set_draws (S (draws w))
        (set_users (updateOne (matches f)
                      (applyPatch (Some (hashPassword env (draws w) pw)) p)
                      (users w)) w)
  | None => set_users (updateOne (matches f) (applyPatch None p) (users w)) w
  end.

(** Modelled from the spec: [User.updateUser(filter, patch) -> void]
    (§4.2) on the first document the filter matches; a password of the
    patch is stored as a salted hash (§3, §4.2), a key present with no
    value clears the field.  No match is no failure.  [model/UserModel]
    is missing. *)
Definition User_updateUser (f : Filter) (p : UserPatch) : M unit :=
  fun w =>
    match find (matches f) (users w) with
    | None => (Ok tt, w)
    | Some u =>
        match validate (p_username p) (p_email p) (Some (_id u)) (users w) with
        | Some e => (Throw e, w)
        | None => (Ok tt, stored f p w)
        end
    end.

(** Modelled from the spec: [User.removeUser(filter) -> void] (§4.2); the
    sessions of a deleted account are removed with it (§3).
    [model/UserModel] is missing. *)
Definition User_removeUser (f : Filter) : M unit :=
  fun w =>
    match find (matches f) (users w) with
    | None => (Ok tt, w)
    | Some u =>
        (Ok tt,
         set_sessions (filter (fun s => negb (Nat.eqb (userId s) (_id u))) (sessions w))
           (set_users (deleteOne (matches f) (users w)) w))
    end.

(** Modelled from the spec: [User.isPasswordValid(filter, candidate) ->
    bool], false both for no such user and for a hash mismatch (§4.2);
    [model/UserModel] is missing. *)
Definition User_isPasswordValid (f : Filter) (candidate : option string) : M bool :=
  gets (fun w =>
          match find (matches f) (users w), candidate with
          | Some u, Some c => verifyPassword env c (password u)
          | _, _ => false
          end).

(** Modelled from the spec: [User.sign(filter, password, privateKey) ->
    \{token, expiryDate, user\} | fails with NotFoundError] (§4.2), with
    the message of §8: a wrong password gives the same error message as
    an unknown login.  [model/UserModel] is missing. *)
Definition User_sign (f : Filter) (pw : string) (key : string) (now : Z) : M LoginPayload :=
  fun w =>
    match find (matches f) (users w) with
    | None => (Throw (Domain UserNotFound "Wrong credentials!"), w)
    | Some u =>
        if verifyPassword env pw (password u)
        then (Ok (mkLoginPayload (jwtSign env (publicFields u) key now)
                                 (now + TOKEN_LIFETIME env)
                                 (publicFields u)), w)
        else (Throw (Domain UserNotFound "Wrong credentials!"), w)
    end.

(** Modelled from the spec: [User.refreshAuthToken(filter, privateKey) ->
    \{token, expiryDate\}], no password check (§4.2); [model/UserModel]
    is missing. *)
Definition User_refreshAuthToken (f : Filter) (key : string) (now : Z) : M TokenPayload :=
  u <- User_getUser f ;;
  ret (mkTokenPayload (jwtSign env (publicFields u) key now) (now + TOKEN_LIFETIME env)).

(** *** The session model ([model/SessionModel]) *)

(** Modelled from the spec: a session is looked up by its (userId,
    refreshToken) pair (§3). *)
Definition sessionMatches (uid : UserId) (t : string) (s : Session) : bool :=
  Nat.eqb (userId s) uid && String.eqb (refreshToken s) t.

(** Modelled from the spec: [Session.createSession(userId)] draws a random
    refresh token, sets expiry = now + the session lifetime and persists
    (§4.3); [model/SessionModel] is missing. *)
Definition Session_createSession (uid : UserId) (now : Z) : M Session :=
  fun w =>
    let s := mkSession uid (random env (draws w) (REFRESH_TOKEN_LENGTH env))
                       (now + SESSION_LIFETIME env) in
    (Ok s, set_draws (S (draws w)) (set_sessions (sessions w ++ [s]) w)).

(** Modelled from the spec: [Session.removeSession(userId, refreshToken)]
    deletes one matching session, no-op if absent (§4.3);
    [model/SessionModel] is missing. *)
Definition Session_removeSession (uid : UserId) (t : string) : M unit :=
  modify (fun w => set_sessions (deleteOne (sessionMatches uid t) (sessions w)) w).

(** Modelled from the spec: [Session.removeOutdatedSessions(userId)]
    purges the user's sessions with expiry <= now (§4.3);
    [model/SessionModel] is missing. *)
Definition Session_removeOutdatedSessions (uid : UserId) (now : Z) : M unit :=
  modify (fun w =>
            set_sessions
              (filter (fun s => negb (Nat.eqb (userId s) uid && (expiryDate s <=? now)))
                      (sessions w)) w).

(** Modelled from the spec: [Session.isValid(userId, refreshToken)] is
    true iff a session exists for that pair and has not expired (§4.3);
    [model/SessionModel] is missing.  An absent cookie matches nothing. *)
Definition Session_isValid (uid : UserId) (t : option string) (now : Z) : M bool :=
  gets (fun w =>
          match t with
          | Some t' =>
              existsb (fun s => sessionMatches uid t' s && (now <? expiryDate s)) (sessions w)
          | None => false
          end).

(** Modelled from the spec: [Session.updateSession(userId, refreshToken)
    -> Session | fails with NotFoundError] replaces the matched session's
    token and expiry in one step (§4.3); [model/SessionModel] is
    missing. *)
Definition Session_updateSession (uid : UserId) (t : string) (now : Z) : M Session :=
  fun w =>
    match find (sessionMatches uid t) (sessions w) with
    | None => (Throw (Domain UserNotFound (notFoundMessage env)), w)
    | Some _ =>
        let s := mkSession uid (random env (draws w) (REFRESH_TOKEN_LENGTH env))
                           (now + SESSION_LIFETIME env) in
        (Ok s,
         set_draws (S (draws w))
           (set_sessions (updateOne (sessionMatches uid t) (fun _ => s) (sessions w)) w))
    end.

(** Modelled from the spec: [Session.getUserAndSessionFromRefreshToken
    (refreshToken) -> \{user, session\} | \{null, null\}], empty when the
    token is unknown or expired (§4.3); [model/SessionModel] is missing. *)
Definition Session_getUserAndSessionFromRefreshToken (t : option string) (now : Z)
  : M (option User * option Session) :=
  gets (fun w =>
          match t with
          | None => (None, None)
          | Some t' =>
              match find (fun s => String.eqb (refreshToken s) t') (sessions w) with
              | None => (None, None)
              | Some s =>
                  if now <? expiryDate s
                  then match find (matches (ById (userId s))) (users w) with
                       | Some u => (Some u, Some s)
                       | None => (None, None)
                       end
                  else (None, None)
              end
          end).

(** *** The controller ([controller/UserController.ts])

    Every handler reads the clock once: [now] is that reading, in
    milliseconds.  String lengths are those of ASCII text. *)

(** [generateToken] of [crypto/TokenGenerator]: the next random draw. *)
Definition generateToken (len : nat) : M string :=
  fun w => (Ok (random env (draws w) len), set_draws (S (draws w)) w).

(** [agenda.now('email', data)] *)
Definition agenda_now (j : EmailJob) : M unit :=
  modify (fun w => set_jobs (jobs w ++ [j]) w).

Definition res_status (code : Z) : M unit :=
  modify (fun w => set_res (mkResponse (Some code) (setCookies (res w)) (body (res w))) w).

Definition res_cookie (name value : string) : M unit :=
  modify (fun w =>
            set_res (mkResponse (status (res w))
                       (setCookies (res w)
                          ++ [mkSetCookie name value true ("." ++ getDomainAddress config)])
                       (body (res w))) w).

Definition res_body (b : Body) : M unit :=
  modify (fun w => set_res (mkResponse (status (res w)) (setCookies (res w)) (Some b)) w).

Definition isUserLoggedIn (req : Request) : bool :=
  match user req with
  | Some _ => true
  | None => false
  end.

Definition isMockEmailAndClientCanReceivePreview (req : Request) : bool :=
  negb (mailTransporter config) && graphiql config
  && JsString.truthy (c_clientId (cookies req)).

Definition previewClient (req : Request) : option string :=
  if isMockEmailAndClientCanReceivePreview req then c_clientId (cookies req) else None.

Definition jobUserEmail (u : JobUser) : string :=
  match u with
  | JobInput i => r_email i
  | JobPublic p => pu_email p
  | JobDoc d => email d
  end.

Definition sendConfirmationEmail (u : JobUser) (confirmationToken host : string)
           (cid : option string) : M unit :=
  agenda_now (mkEmailJob cid
                (host ++ "/user/email/confirmation?token=" ++ confirmationToken)
                u (jobUserEmail u) "Activate your account" (verifyEmailTemplate config)).

Definition getUser (req : Request) : M (option User) :=
  tryCatch
    match user req with
    | Some u => User_findById (pu_id u)
    | None => throw (TypeError "Cannot read property '_id' of undefined")
    end
    (fun _ => throw (Domain UserNotFound "User not found, please log in!")).

Definition checkEmailAvailable (e : string) : M bool :=
  emailExists <- User_userExists (ByEmail e) ;;
  ret (negb emailExists).

Definition checkUsernameAvailable (n : string) : M bool :=
  usernameExists <- User_userExists (ByUsername n) ;;
  ret (negb usernameExists).

(** [confirmEmail]: the page is handed to the template renderer with the
    notifications; what the renderer makes of it is outside the
    controller. *)
Definition confirmEmail (req : Request) : M unit :=
  let token := query_token req in
  notifications <-
    tryCatch
      (exists_ <- User_userExists (ByVerificationToken token) ;;
       (if negb exists_
        then throw (Domain UserNotFound "This link is no longer valid.")
        else ret tt) ;;;
       u <- User_getUser (ByVerificationToken token) ;;
       User_updateUser (ByEmail (email u))
         (mkPatch None None None None (Some true) (Some None) None None) ;;;
       ret [mkNotification "success" "You are now verified!"])
      (fun _ => ret [mkNotification "error" "This link is not valid!"]) ;;
  res_body (Rendered (notificationPageTemplate config) notifications).

Definition createUser (u0 : RegisterInput) (req : Request)
  : M (list Notification * RegisterInput) :=
  vt <- generateToken TOKEN_LENGTH ;;
  let u := mkRegisterInput (r_username u0) (r_email u0) (r_password u0) (Some vt) in
  if negb (JsString.truthy (r_password u))
  then throw (Domain UserValidationError "Please provide a password!")
  else if (String.length (orElse (r_password u) "") <? 8)%nat
  then throw (Domain UserValidationError "The password must contain at least 8 characters!")
  else
    tryCatch
      (User_createUser u ;;;
       sendConfirmationEmail (JobInput u) vt (getRouterAddress config req)
         (previewClient req) ;;;
       ret ([mkNotification "success" "User created!";
             mkNotification "info"
               "You will receive a confirmation link at your email address in a few minutes."],
            u))
      (fun err => throw (createUser_catch err)).

(** String concatenation with a stored token that may be [null]. *)
Definition tokenToString (t : option string) : string := orElse t "null".

Definition resendConfirmationEmail (req : Request) : M (list Notification) :=
  match user req with
  | None => throw (Domain UserNotFound "Please login!")
  | Some ru =>
      u <- User_getUser (ById (pu_id ru)) ;;
      if verified u
      then throw (Domain EmailAlreadyConfirmedError
                    "Your email adress has already been confirmed.")
      else
        sendConfirmationEmail (JobPublic ru) (tokenToString (verificationToken u))
          (getRouterAddress config req) (previewClient req) ;;;
        ret [mkNotification "success"
               "You will receive a confirmation link at your email address in a few minutes."]
  end.

(** [Math.floor(Math.abs(actual - reset) / 1000 / 60)] on integer
    timestamps.  A user without a recorded date gives an invalid [Date]:
    its time is [NaN] and so is the result ([None]). *)
Definition elapsedMinutes (now : Z) (requestDate : option Z) : option Z :=
  match requestDate with
  | Some resetDate => Some (Z.abs (now - resetDate) / 1000 / 60)
  | None => None
  end.

(** [minutes >= DELAY_TO_CHANGE_PASSWORD_IN_MINUTS]; false on [NaN]. *)
Definition tooLate (minutes : option Z) : bool :=
  match minutes with
  | Some m => DELAY_TO_CHANGE_PASSWORD_IN_MINUTS <=? m
  | None => false
  end.

Definition recoverPassword (pw : string) (token : string) (now : Z)
  : M (list Notification) :=
  if (String.length pw <? 8)%nat
  then throw (Domain UserValidationError "The password must contain at least 8 characters!")
  else
    userExists <- User_userExists (ByPasswordRecoveryToken token) ;;
    if negb userExists
    then throw (Domain UserNotFound "Unvalid token!")
    else
      u <- User_getUser (ByPasswordRecoveryToken token) ;;
      let minutes := elapsedMinutes now (passwordRecoveryRequestDate u) in
      if tooLate minutes
      then throw (Domain UpdatePasswordTooLateError
                    "This link has expired, please ask a new one.")
      else
        User_updateUser (ById (_id u))
          (mkPatch None None (Some pw) None None None (Some None) (Some None)) ;;;
        ret [mkNotification "success" "Your password is updated!"].

(** [delete userUpdates.previousPassword] *)
Definition deletePreviousPassword (p : UserPatch) : UserPatch :=
  mkPatch (p_username p) (p_email p) (p_password p) None (p_verified p)
          (p_verificationToken p) (p_passwordRecoveryToken p)
          (p_passwordRecoveryRequestDate p).

(** [userUpdates.verificationToken = t; userUpdates.verified = false] *)
Definition demote (t : string) (p : UserPatch) : UserPatch :=
  mkPatch (p_username p) (p_email p) (p_password p) (p_previousPassword p) (Some false)
          (Some (Some t)) (p_passwordRecoveryToken p)
          (p_passwordRecoveryRequestDate p).

(** The password guard of [updateUser] (lines 268-277). *)
Definition checkPasswordChange (userUpdates : UserPatch) (ru : PublicUser) : M UserPatch :=
  if JsString.truthy (p_password userUpdates)
     && negb (strictEq (p_password userUpdates) (p_previousPassword userUpdates))
  then
    isValid <- User_isPasswordValid (ByEmail (pu_email ru)) (p_previousPassword userUpdates) ;;
    if negb isValid
    then throw (Domain WrongPasswordError "Your previous password is wrong!")
    else if (String.length (orElse (p_password userUpdates) "") <? 8)%nat
    then throw (Domain UserValidationError
                  "The password must contain at least 8 characters!")
    else ret (deletePreviousPassword userUpdates)
  else ret userUpdates.

(** The [try] block of [updateUser] (lines 279-305). *)
Definition applyUpdates (userUpdates : UserPatch) (ru : PublicUser) (req : Request)
  : M (list Notification * PublicUser) :=
  if pu_verified ru && JsString.truthy (p_email userUpdates)
  then
    t <- generateToken TOKEN_LENGTH ;;
    User_updateUser (ById (pu_id ru)) (demote t userUpdates) ;;;
    ru' <- User_getUserNonInternalFields (ById (pu_id ru)) ;;
    let req' := mkRequest (Some ru') (cookies req) (query_token req) in
    sendConfirmationEmail (JobPublic ru') t (getRouterAddress config req')
      (previewClient req') ;;;
    ret ([mkNotification "success" "User information updated!";
          mkNotification "info"
            "You will receive a confirmation link at your email address in a few minutes."],
         ru')
  else
    User_updateUser (ById (pu_id ru)) userUpdates ;;;
    ru' <- User_getUserNonInternalFields (ById (pu_id ru)) ;;
    ret ([mkNotification "success" "User information updated!"], ru').

Definition updateUser (userUpdates : UserPatch) (req : Request) (now : Z)
  : M (list Notification * PublicUser) :=
  match user req with
  | None =>
      res_status 401 ;;; throw (Domain UserNotFound "Please login!")
  | Some ru =>
      valid <- Session_isValid (pu_id ru) (c_refreshToken (cookies req)) now ;;
      if negb valid
      then res_status 401 ;;; throw (Domain UserNotFound "Please login!")
      else
        userUpdates' <- checkPasswordChange userUpdates ru ;;
        tryCatch (applyUpdates userUpdates' ru req)
                 (fun err => throw (updateUser_catch err))
  end.

Definition deleteUser (pw : string) (req : Request) : M (list Notification) :=
  match user req with
  | None => throw (Domain UserNotFound "Please login!")
  | Some ru =>
      isValid <- User_isPasswordValid (ById (pu_id ru)) (Some pw) ;;
      if negb isValid
      then throw (Domain WrongPasswordError "You entered a wrong password")
      else
        User_removeUser (ById (pu_id ru)) ;;;
        ret [mkNotification "success" "Your account has been deleted."]
  end.

Definition login (loginStr pw : string) (req : Request) (now : Z) : M LoginPayload :=
  emailExists <- User_userExists (ByEmail loginStr) ;;
  usernameExists <- User_userExists (ByUsername loginStr) ;;
  payload <-
    (if emailExists then User_sign (ByEmail loginStr) pw (privateKey config) now
     else if usernameExists then User_sign (ByUsername loginStr) pw (privateKey config) now
     else throw (Domain UserNotFound "Wrong credentials!")) ;;
  (match c_refreshToken (cookies req) with
   | Some t =>
       if JsString.truthy (Some t)
       then Session_removeSession (pu_id (lp_user payload)) t
       else ret tt
   | None => ret tt
   end) ;;;
  Session_removeOutdatedSessions (pu_id (lp_user payload)) now ;;;
  s <- Session_createSession (pu_id (lp_user payload)) now ;;
  res_cookie "refreshToken" (refreshToken s) ;;;
  ret payload.

Definition sendPasswordRecoveryEmail (e : string) (req : Request) (now : Z)
  : M (list Notification) :=
  let notifications :=
    [mkNotification "info"
       "If your email address exists in our database, you will receive a password recovery link at your email address in a few minutes."] in
  match user req with
  | Some _ => throw (Domain AlreadyLoggedInError "Oups, you are already logged in!")
  | None =>
      exists_ <- User_userExists (ByEmail e) ;;
      if negb exists_
      then ret notifications
      else
        passwordRecoveryToken <- generateToken TOKEN_LENGTH ;;
        User_updateUser (ByEmail e)
          (mkPatch None None None None None None
                   (Some (Some passwordRecoveryToken)) (Some (Some now))) ;;;
        u <- User_getUser (ByEmail e) ;;
        let host := getRouterAddress config req in
        agenda_now (mkEmailJob (previewClient req)
                      (host ++ "/form/reset/password?token=" ++ passwordRecoveryToken)
                      (JobDoc u) e "Password Recovery"
                      (resetPasswordEmailTemplate config)) ;;;
        ret notifications
  end.

Definition resetPasswordForm (req : Request) : M unit :=
  match user req with
  | Some _ =>
      res_body (Json [mkNotification "error" "Oups, you are already logged in!"])
  | None =>
      res_body (RenderedForm (resetPasswordFormTemplate config)
                  (getRouterAddress config req) (query_token req))
  end.

Definition refreshTokens (req : Request) (now : Z) : M TokenPayload :=
  us <- Session_getUserAndSessionFromRefreshToken (c_refreshToken (cookies req)) now ;;
  match us with
  | (Some u, Some session) =>
      if now <? expiryDate session
      then
        payload <- User_refreshAuthToken (ById (_id u)) (privateKey config) now ;;
        s <- Session_updateSession (_id u) (refreshToken session) now ;;
        res_cookie "refreshToken" (refreshToken s) ;;;
        ret payload
      else throw (Domain UserNotFound "Please login!")
  | _ => throw (Domain UserNotFound "Please login!")
  end.

End Service.

(** ** The mounting code ([GraphQLAuthService.ts])

    Two parts of [mount] are embedded: the middleware that reads the
    bearer header (lines 77-88) and the loop that copies the options into
    the configuration (lines 57-65). *)

(** [s.split(sep)] with a one-character separator. *)
Fixpoint split (sep : ascii) (s : string) : list string :=
  match s with
  | EmptyString => [EmptyString]
  | String c r =>
      if Ascii.eqb c sep
      then EmptyString :: split sep r
      else match split sep r with
           | h :: t => String c h :: t
           | [] => [String c EmptyString]
           end
  end.

(** [bearerHeader.split(' ')[1]]: [undefined] when the header has no
    space. *)
Definition bearerToken (bearerHeader : string) : option string :=
  nth_error (split " "%char bearerHeader) 1.

(** The middleware: with an authorization header, the bearer token is
    handed to [UserModel.verify] and its result becomes [req.user]; what
    [verify] throws is swallowed.  [verify] stands for [UserModel.verify]
    with the public key, which is not part of the sources at hand: it
    answers [None] when it throws. *)
Definition authenticate (verify : option string -> option PublicUser)
           (authorization : option string) (req : Request) : Request :=
  match authorization with
  | None => req
  | Some bearerHeader =>
      match verify (bearerToken bearerHeader) with
      | Some u => mkRequest (Some u) (cookies req) (query_token req)
      | None => req
      end
  end.

(** The values a configuration holds; arrays are left out.  An object is
    its list of properties, read by key. *)
#[warnings="-register-all"]
Inductive Js : Type :=
| JUndefined
| JNull
| JBoolean (b : bool)
| JNumber (n : Z)
| JString (s : string)
| JFunction (name : string)
| JObject (props : list (string * Js)).

(** [typeof v] *)
Definition typeof (v : Js) : string :=
  match v with
  | JUndefined => "undefined"
  | JNull => "object"
  | JBoolean _ => "boolean"
  | JNumber _ => "number"
  | JString _ => "string"
  | JFunction _ => "function"
  | JObject _ => "object"
  end.

(** [o[k]]: [undefined] for a missing key. *)
Fixpoint getProp (k : string) (o : list (string * Js)) : Js :=
  match o with
  | [] => JUndefined
  | (k', v) :: r => if String.eqb k' k then v else getProp k r
  end.

(** [o[k] = v]: the property is overwritten in place or added. *)
Fixpoint setProp (k : string) (v : Js) (o : list (string * Js)) : list (string * Js) :=
  match o with
  | [] => [(k, v)]
  | (k', v') :: r => if String.eqb k' k then (k, v) :: r else (k', v') :: setProp k v r
  end.

(** The own enumerable properties a spread [...v] copies, for the values
    the loop spreads: those of an object, none for [null], [undefined], a
    boolean, a number or a function.  A string is never spread there: the
    test excludes it on the side of the options, and [typeof] on the side
    of the configuration. *)
Definition spread (v : Js) : list (string * Js) :=
  match v with
  | JObject props => props
  | _ => []
  end.

(** [\{ ...a, ...b \}] *)
Definition spreadBoth (a b : Js) : Js :=
  JObject (fold_left (fun o kv => setProp (fst kv) (snd kv) o) (spread b) (spread a)).

(** The body of the loop for one property of the options. *)
Definition mergeOption (options : list (string * Js)) (config : list (string * Js))
           (prop : string) : list (string * Js) :=
  if String.eqb (typeof (getProp prop config)) "object"
     && negb (String.eqb (typeof (getProp prop options)) "string")
  then setProp prop (spreadBoth (getProp prop config) (getProp prop options)) config
  else setProp prop (getProp prop options) config.

(** [Object.keys(options).map(...)]: the configuration after the loop. *)
Definition mergeOptions (options config : list (string * Js)) : list (string * Js) :=
  fold_left (mergeOption options) (map fst options) config.

(** ** The service as a transition system *)

(** One request to the controller. *)
Inductive Call : Type :=
| CallGetUser
| CallCheckEmailAvailable (e : string)
| CallCheckUsernameAvailable (n : string)
| CallConfirmEmail
| CallCreateUser (u : RegisterInput)
| CallResendConfirmationEmail
| CallRecoverPassword (pw token : string)
| CallUpdateUser (userUpdates : UserPatch)
| CallDeleteUser (pw : string)
| CallLogin (loginStr pw : string)
| CallSendPasswordRecoveryEmail (e : string)
| CallResetPasswordForm
| CallRefreshTokens.

(** The world a handler leaves behind, whether it returned or threw. *)
Definition after {A} (m : M A) (w : World) : World := snd (m w).

(** The outcome of a handler. *)
Definition outcome {A} (m : M A) (w : World) : Result A := fst (m w).

(** Serving one request, on a fresh response. *)
Definition handle (env : Env) (config : Config) (c : Call) (req : Request) (now : Z)
           (w : World) : World :=
  let w0 := set_res freshResponse w in
  match c with
  | CallGetUser => after (getUser req) w0
  | CallCheckEmailAvailable e => after (checkEmailAvailable e) w0
  | CallCheckUsernameAvailable n => after (checkUsernameAvailable n) w0
  | CallConfirmEmail => after (confirmEmail env config req) w0
  | CallCreateUser u => after (createUser env config u req) w0
  | CallResendConfirmationEmail => after (resendConfirmationEmail env config req) w0
  | CallRecoverPassword pw token => after (recoverPassword env pw token now) w0
  | CallUpdateUser p => after (updateUser env config p req now) w0
  | CallDeleteUser pw => after (deleteUser env pw req) w0
  | CallLogin l pw => after (login env config l pw req now) w0
  | CallSendPasswordRecoveryEmail e => after (sendPasswordRecoveryEmail env config e req now) w0
  | CallResetPasswordForm => after (resetPasswordForm config req) w0
  | CallRefreshTokens => after (refreshTokens env config req now) w0
  end.

(** The states the service can be in after any number of requests. *)
Inductive reachable (env : Env) (config : Config) (w : World) : World -> Prop :=
| reach_here : reachable env config w w
| reach_next w1 c req now :
    reachable env config w w1 ->
    reachable env config w (handle env config c req now w1).

(** ** A concrete instance of the collaborators, for examples *)

Module Demo.

Fixpoint tally (n : nat) : string :=
  match n with
  | O => EmptyString
  | S k => String "x" (tally k)
  end.

Fixpoint afterSalt (h : string) : string :=
  match h with
  | EmptyString => EmptyString
  | String c r => if Ascii.eqb c "$" then r else afterSalt r
  end.

Definition env : Env :=
  mkEnv (fun n _ => tally (S n))
        (fun n pw => tally n ++ "$" ++ pw)
        (fun c h => String.eqb (afterSalt h) c)
        (fun u _ _ => "jwt." ++ pu_username u)
        900000
        2592000000
        256%nat
        (fun f v => match f with
                    | FUsername => "E11000 duplicate key error index: username_1 dup key: " ++ v
                    | FEmail => "E11000 duplicate key error index: email_1 dup key: " ++ v
                    end)
        "user validation failed: username: The username must contains more than 4 characters!"
        "User not found".

Definition config : Config :=
  mkConfig false true "private-key" "VerifyEmail.ejs" "ResetPasswordEmail.ejs"
           "Notification.ejs" "ResetPasswordForm.ejs"
           (fun _ => "http://localhost:5000") "localhost".

(** Two registered users; the first is verified and holds a session, the
    second asked for a password recovery at time 1000. *)
Definition alice : User :=
  mkUser 1%nat "alice" "alice@test.com" "$password" true None None None.
Definition bob : User :=
  mkUser 2%nat "bobby" "bob@test.com" "$password2" false (Some "vtok")
         (Some "rtok") (Some 1000).

Definition world : World :=
  mkWorld [alice; bob] [mkSession 1%nat (tally 1) 5000] [] 1%nat freshResponse.

Definition anonymous : Request := mkRequest None (mkCookies None None) "".

Definition aliceRequest : Request :=
  mkRequest (Some (publicFields alice)) (mkCookies (Some (tally 1)) None) "".

End Demo.

(** ** Vocabulary of the properties *)

(** *** Error translation *)

(** Two failures of the unique index on [email], worded differently, and a
    third whose duplicated address contains the word username. *)
Definition dupEmailMongo : Exn :=
  Persistence (Some FEmail)
    "E11000 duplicate key error collection: test.users index: email_1 dup key: { email: test@test.com }".
Definition dupEmailReworded : Exn :=
  Persistence (Some FEmail) "Unique constraint violated on field email".
Definition dupEmailOfUsername : Exn :=
  Persistence (Some FEmail)
    "E11000 duplicate key error collection: test.users index: email_1 dup key: { email: username@test.com }".

(** *** Notifications and errors the handlers answer with *)

Definition recoveryNotice : list Notification :=
  [mkNotification "info"
     "If your email address exists in our database, you will receive a password recovery link at your email address in a few minutes."].

Definition passwordUpdated : list Notification :=
  [mkNotification "success" "Your password is updated!"].

Definition linkExpired : Exn :=
  Domain UpdatePasswordTooLateError "This link has expired, please ask a new one.".

Definition linkNotValid : list Notification :=
  [mkNotification "error" "This link is not valid!"].

Definition nowVerified : list Notification :=
  [mkNotification "success" "You are now verified!"].

Definition wrongPreviousPassword : Exn :=
  Domain WrongPasswordError "Your previous password is wrong!".

Definition pleaseLogin : Exn := Domain UserNotFound "Please login!".

(** *** Login and password recovery *)

(** The user a login string resolves to: by email, else by username. *)
Definition resolveLogin (loginStr : string) (us : list User) : option User :=
  match find (matches (ByEmail loginStr)) us with
  | Some u => Some u
  | None => find (matches (ByUsername loginStr)) us
  end.

(** The update [recoverPassword] hands to the user model. *)
Definition recoverPatch (pw : string) : UserPatch :=
  mkPatch None None (Some pw) None None None (Some None) (Some None).

(** The world after [User.updateUser] stored a new password for [u]. *)
Definition withNewPassword (env : Env) (pw : string) (u : User) (w : World) : World :=
  set_draws (S (draws w))
    (set_users (updateOne (matches (ById (_id u)))
                  (applyPatch (Some (hashPassword env (draws w) pw)) (recoverPatch pw))
                  (users w)) w).

(** *** Well-formed user collections *)

(** The ids of the collection are unique. *)
Definition uniqueIds (us : list User) : Prop := NoDup (map _id us).

(** The email addresses of the collection are unique (§3). *)
Definition uniqueEmails (us : list User) : Prop := NoDup (map email us).

(** A filter matches at most one document. *)
Definition identifiesOneUser (f : Filter) (us : list User) : Prop :=
  forall v v', In v us -> In v' us -> matches f v = true -> matches f v' = true -> v = v'.

(** *** Email confirmation *)

(** The response after the notification page was rendered. *)
Definition rendered (config : Config) (ns : list Notification) (w : World) : World :=
  set_res (mkResponse (status (res w)) (setCookies (res w))
             (Some (Rendered (notificationPageTemplate config) ns))) w.

(** A user whose verification token was consumed. *)
Definition confirmed (u : User) : User :=
  mkUser (_id u) (username u) (email u) (password u) true None
         (passwordRecoveryToken u) (passwordRecoveryRequestDate u).

(** *** UpdateMe *)

(** The hash stored for the password of a patch, salted by draw [n]. *)
Definition hashed (env : Env) (p : UserPatch) (n : nat) : option string :=
  option_map (hashPassword env n) (p_password p).

(** The session check at the head of [updateUser] passes. *)
Definition sessionIsValid (ru : PublicUser) (req : Request) (now : Z) (w : World) : Prop :=
  outcome (Session_isValid (pu_id ru) (c_refreshToken (cookies req)) now) w = Ok true.

(** The draw that salts the password of an update: the verification token
    of a demoted account is drawn before it. *)
Definition saltDraw (upd : UserPatch) (ru : PublicUser) (w : World) : nat :=
  if pu_verified ru && JsString.truthy (p_email upd) then S (draws w) else draws w.



(** An update to a new address. *)
Definition newEmail : UserPatch :=
  mkPatch None (Some "alice@new.org") None None None None None None.


(** A registration under the address alice's bearer token claims. *)
Definition mallory : RegisterInput :=
  mkRegisterInput "mallory" "alice@test.com" (Some "password2") None.

(** A bearer token that outlived a change of address: alice moved to
    alice@new.org at time 1500, and the address her token still claims was
    registered by [mallory] at time 1600. *)
Definition staleClaimWorld : World :=
  handle Demo.env Demo.config (CallCreateUser mallory) Demo.anonymous 1600
    (handle Demo.env Demo.config (CallUpdateUser newEmail) Demo.aliceRequest 1500
       Demo.world).

(** A change of password that gives the password of [mallory], not
    alice's, as the previous one. *)
Definition otherAccountsPassword : UserPatch :=
  mkPatch None None (Some "newpassword") (Some "password2") None None None None.

(** Alice's document in [staleClaimWorld]. *)
Definition movedAlice : User :=
  mkUser 1%nat "alice" "alice@new.org" "$password" false (Some "xx") None None.

(** *** The session collection *)

(** The refresh tokens in the collection. *)
Definition tokens (w : World) : list string := map refreshToken (sessions w).

(** [t] is one of the refresh tokens drawn so far. *)
Definition drawn (env : Env) (t : string) (w : World) : Prop :=
  exists i, (i < draws w)%nat /\ t = random env i (REFRESH_TOKEN_LENGTH env).

(** The session collection is well formed: refresh tokens are unique (§3)
    and each was drawn from the random source. *)
Definition sessionsWf (env : Env) (w : World) : Prop :=
  NoDup (tokens w) /\ forall t, In t (tokens w) -> drawn env t w.

(** [t] was a refresh token once and belongs to no session any more. *)
Definition retired (env : Env) (t : string) (w : World) : Prop :=
  sessionsWf env w /\ drawn env t w /\ ~ In t (tokens w).

(** The random source never repeats a refresh token. *)
Definition neverRepeats (env : Env) : Prop :=
  forall i j,
    random env i (REFRESH_TOKEN_LENGTH env) = random env j (REFRESH_TOKEN_LENGTH env) ->
    i = j.

(** A predicate on worlds that only the session model can disturb, and that
    survives each of its writes: a created session and a rotated session
    carry the next draw of the random source. *)
Record closed (env : Env) (P : World -> Prop) : Prop := mkClosed {
  cl_users : forall us w, P w -> P (set_users us w);
  cl_jobs : forall js w, P w -> P (set_jobs js w);
  cl_res : forall r w, P w -> P (set_res r w);
  cl_draw : forall w, P w -> P (set_draws (S (draws w)) w);
  cl_create : forall uid exp w,
      P w ->
      P (set_draws (S (draws w))
           (set_sessions
              (sessions w
                 ++ [mkSession uid (random env (draws w) (REFRESH_TOKEN_LENGTH env)) exp])
              w));
  cl_delete : forall p w, P w -> P (set_sessions (deleteOne p (sessions w)) w);
  cl_filter : forall p w, P w -> P (set_sessions (filter p (sessions w)) w);
  cl_rotate : forall p uid exp w,
      P w ->
      P (set_draws (S (draws w))
           (set_sessions
              (updateOne p
                 (fun _ => mkSession uid (random env (draws w) (REFRESH_TOKEN_LENGTH env)) exp)
                 (sessions w))
              w));
}.

(** A computation keeps [P], whether it returns or throws. *)
Definition preserves (P : World -> Prop) {A} (m : M A) : Prop :=
  forall w, P w -> P (after m w).

(** *** Further vocabulary: answers, error kinds and frames *)

(** The response after [res.status(401)]. *)
Definition unauthorized (w : World) : World :=
  set_res (mkResponse (Some 401) (setCookies (res w)) (body (res w))) w.

Definition passwordMissing : Exn :=
  Domain UserValidationError "Please provide a password!".

Definition passwordTooShort : Exn :=
  Domain UserValidationError "The password must contain at least 8 characters!".

Definition unvalidToken : Exn := Domain UserNotFound "Unvalid token!".

Definition wrongPassword : Exn :=
  Domain WrongPasswordError "You entered a wrong password".

Definition emailAlreadyConfirmed : Exn :=
  Domain EmailAlreadyConfirmedError "Your email adress has already been confirmed.".

Definition accountDeleted : list Notification :=
  [mkNotification "success" "Your account has been deleted."].

Definition confirmationOnItsWay : list Notification :=
  [mkNotification "success"
     "You will receive a confirmation link at your email address in a few minutes."].

Definition userCreated : list Notification :=
  [mkNotification "success" "User created!";
   mkNotification "info"
     "You will receive a confirmation link at your email address in a few minutes."].

(** A result that is a value or a domain error of an allowed class: never a
    raw persistence failure nor a [TypeError]. *)
Definition raisesOnly {A} (allowed : ErrorKind -> bool) (r : Result A) : Prop :=
  match r with
  | Ok _ => True
  | Throw (Domain k _) => allowed k = true
  | Throw _ => False
  end.

(** The classes the documentation of [createUser] lists. *)
Definition createUserThrows (k : ErrorKind) : bool :=
  match k with
  | UsernameAlreadyExistsError | EmailAlreadyExistsError | UserValidationError => true
  | _ => false
  end.

(** The classes the documentation of [updateUser] lists. *)
Definition updateUserThrows (k : ErrorKind) : bool :=
  match k with
  | UserNotFound | WrongPasswordError | UsernameAlreadyExistsError
  | EmailAlreadyExistsError | UserValidationError => true
  | _ => false
  end.

(** The password hash accepts the password it was made from. *)
Definition hashVerifies (env : Env) (pw : string) : Prop :=
  forall n, verifyPassword env pw (hashPassword env n pw) = true.

(** The recovery job [sendPasswordRecoveryEmail] enqueues. *)
Definition recoveryJob (config : Config) (req : Request) (u : User) (e t : string)
  : EmailJob :=
  mkEmailJob (previewClient config req)
             (getRouterAddress config req ++ "/form/reset/password?token=" ++ t)
             (JobDoc u) e "Password Recovery" (resetPasswordEmailTemplate config).

(** The job [resendConfirmationEmail] and [createUser] enqueue. *)
Definition confirmationJob (config : Config) (req : Request) (u : JobUser) (t : string)
  : EmailJob :=
  mkEmailJob (previewClient config req)
             (getRouterAddress config req ++ "/user/email/confirmation?token=" ++ t)
             u (jobUserEmail u) "Activate your account" (verifyEmailTemplate config).

(** The requests that never write to the user collection. *)
Definition readsUsersOnly (c : Call) : bool :=
  match c with
  | CallGetUser | CallCheckEmailAvailable _ | CallCheckUsernameAvailable _
  | CallResendConfirmationEmail | CallLogin _ _ | CallResetPasswordForm
  | CallRefreshTokens => true
  | _ => false
  end.

(** The requests that never write to the session collection. *)
Definition readsSessionsOnly (c : Call) : bool :=
  match c with
  | CallLogin _ _ | CallRefreshTokens | CallDeleteUser _ => false
  | _ => true
  end.

(** *** Further vocabulary: the worlds login and refresh leave behind *)

(** The session [createSession] and [updateSession] write at time [now]. *)
Definition issuedSession (env : Env) (uid : UserId) (now : Z) (w : World) : Session :=
  mkSession uid (random env (draws w) (REFRESH_TOKEN_LENGTH env))
            (now + SESSION_LIFETIME env).

(** The refresh-token cookie [login] and [refreshTokens] set. *)
Definition refreshCookie (config : Config) (value : string) : SetCookie :=
  mkSetCookie "refreshToken" value true ("." ++ getDomainAddress config).

(** The response with the cookie of the session issued in [w] added. *)
Definition withRefreshCookie (env : Env) (config : Config) (w : World) : Response :=
  mkResponse (status (res w))
             (setCookies (res w)
                ++ [refreshCookie config (random env (draws w) (REFRESH_TOKEN_LENGTH env))])
             (body (res w)).

(** The world after [refreshTokens] rotated the session [s]. *)
Definition afterRefresh (env : Env) (config : Config) (s : Session) (now : Z) (w : World)
  : World :=
  mkWorld (users w)
          (updateOne (sessionMatches (userId s) (refreshToken s))
                     (fun _ => issuedSession env (userId s) now w) (sessions w))
          (jobs w) (S (draws w)) (withRefreshCookie env config w).

(** The sessions [login] keeps: the one of the presented cookie and the
    outdated ones of the user are removed. *)
Definition keptSessions (uid : UserId) (cookie : option string) (now : Z) (w : World)
  : list Session :=
  filter (fun s => negb (Nat.eqb (userId s) uid && (expiryDate s <=? now)))
         (if JsString.truthy cookie
          then deleteOne (sessionMatches uid (orElse cookie "")) (sessions w)
          else sessions w).

(** The world after a successful [login] of user [uid]. *)
Definition afterLogin (env : Env) (config : Config) (uid : UserId) (cookie : option string)
           (now : Z) (w : World) : World :=
  mkWorld (users w)
          (keptSessions uid cookie now w ++ [issuedSession env uid now w])
          (jobs w) (S (draws w)) (withRefreshCookie env config w).

(** The payload [User.sign] and [User.refreshAuthToken] build for [u]. *)
Definition loginPayload (env : Env) (config : Config) (u : User) (now : Z) : LoginPayload :=
  mkLoginPayload (jwtSign env (publicFields u) (privateKey config) now)
                 (now + TOKEN_LIFETIME env) (publicFields u).

Definition tokenPayload (env : Env) (config : Config) (u : User) (now : Z) : TokenPayload :=
  mkTokenPayload (jwtSign env (publicFields u) (privateKey config) now)
                 (now + TOKEN_LIFETIME env).

(** The session a refresh cookie names: the first with that token. *)
Definition sessionOfCookie (cookie : option string) (w : World) : option Session :=
  match cookie with
  | Some t => find (fun s => String.eqb (refreshToken s) t) (sessions w)
  | None => None
  end.

(** A computation leaves the part [f] of the world as it was, whether it
    returns or throws. *)
Definition keeps {X A} (f : World -> X) (m : M A) : Prop :=
  forall w, f (after m w) = f w.

(** The requests that never queue an email job. *)
Definition queuesNoJob (c : Call) : bool :=
  match c with
  | CallCreateUser _ | CallResendConfirmationEmail | CallUpdateUser _
  | CallSendPasswordRecoveryEmail _ => false
  | _ => true
  end.

(** A string without a space. *)
Fixpoint spaceless (s : string) : bool :=
  match s with
  | EmptyString => true
  | String c r => negb (Ascii.eqb c " "%char) && spaceless r
  end.

(** [k in o] *)
Definition hasProp (k : string) (o : list (string * Js)) : bool :=
  existsb (fun kv => String.eqb (fst kv) k) o.

(** The test of the loop: the configured value is an object (or [null])
    and the option is no string. *)
Definition mergesInto (configured option : Js) : bool :=
  String.eqb (typeof configured) "object" && negb (String.eqb (typeof option) "string").

(** * Properties *)

Lemma Demo_tally_inj n m : Demo.tally n = Demo.tally m -> n = m.
Proof.
  revert m; induction n as [|n IH]; intros [|m] H; simpl in H;
    try discriminate; auto.
  injection H as H. f_equal. auto.
Qed.

(** ** Lemmas on the collections *)

Section Collections.

Context {A : Type}.
Variable p : A -> bool.

Lemma existsb_by_find (l : list A) :
  existsb p l = match find p l with Some _ => true | None => false end.
Proof.
  induction l as [|x l IH]; simpl; [reflexivity|].
  destruct (p x); simpl; auto.
Qed.

Lemma find_In (l : list A) (x : A) : find p l = Some x -> In x l /\ p x = true.
Proof.
  induction l as [|y l IH]; simpl; [discriminate|].
  destruct (p y) eqn:Hy.
  - intros [= ->]. auto.
  - intros H. destruct (IH H). auto.
Qed.

Lemma find_none_all (l : list A) : find p l = None -> forall x, In x l -> p x = false.
Proof.
  induction l as [|y l IH]; simpl; [tauto|].
  destruct (p y) eqn:Hy; [discriminate|].
  intros H x [<-|Hin]; auto.
Qed.

Lemma In_deleteOne (l : list A) (x : A) : In x (deleteOne p l) -> In x l.
Proof.
  induction l as [|y l IH]; simpl; [tauto|].
  destruct (p y); simpl; [auto|].
  intros [<-|Hin]; auto.
Qed.

End Collections.

Section Updates.

Context {A : Type}.
Variables (p : A -> bool) (g : A -> A).

Lemma find_updateOne (l : list A) :
  (forall x, p x = true -> p (g x) = true) ->
  find p (updateOne p g l) = option_map g (find p l).
Proof.
  intros Hg. induction l as [|x l IH]; simpl; [reflexivity|].
  destruct (p x) eqn:Hx; simpl.
  - rewrite (Hg x Hx). reflexivity.
  - rewrite Hx. exact IH.
Qed.

End Updates.

(** ** Error translation (C5) *)

(** C5, counterexample: three failures of the same uniqueness constraint
    (the colliding field is email in each) are translated into three
    different domain errors, by [createUser] and by [updateUser] alike; the
    third, a collision on email, is reported as a username collision. *)
Lemma C5_same_field_different_errors :
  keyPattern dupEmailMongo = Some FEmail
  /\ keyPattern dupEmailReworded = Some FEmail
  /\ keyPattern dupEmailOfUsername = Some FEmail
  /\ createUser_catch dupEmailMongo = Domain EmailAlreadyExistsError "Email already exists"
  /\ createUser_catch dupEmailReworded
     = Domain UserValidationError "Unique constraint violated on field email"
  /\ createUser_catch dupEmailOfUsername
     = Domain UsernameAlreadyExistsError "Username already exists"
  /\ updateUser_catch dupEmailMongo = Domain EmailAlreadyExistsError "Email already exists"
  /\ updateUser_catch dupEmailReworded
     = Domain UserValidationError "Unique constraint violated on field email"
  /\ updateUser_catch dupEmailOfUsername
     = Domain UsernameAlreadyExistsError "Username already exists".
Proof. repeat split; vm_compute; reflexivity. Qed.

(** C5, as amended: the translation of a failure caught during Register or
    UpdateMe is determined by the text of its message.  It is
    UsernameAlreadyExistsError exactly when the message contains both
    "username" and "duplicate key"; it is EmailAlreadyExistsError exactly
    when that is not the case and the message contains both "email" and
    "duplicate key"; two failures with the same message are translated
    alike, whatever their structured constraint identifier. *)
Theorem C5_translation_follows_message_text (err : Exn) :
  let m := message err in
  let byUsername := JsString.includes "username" m && JsString.includes "duplicate key" m in
  let byEmail := JsString.includes "email" m && JsString.includes "duplicate key" m in
  (createUser_catch err = Domain UsernameAlreadyExistsError "Username already exists"
   <-> byUsername = true)
  /\ (createUser_catch err = Domain EmailAlreadyExistsError "Email already exists"
      <-> byUsername = false /\ byEmail = true)
  /\ (updateUser_catch err = Domain UsernameAlreadyExistsError "Username already exists"
      <-> byUsername = true)
  /\ (updateUser_catch err = Domain EmailAlreadyExistsError "Email already exists"
      <-> byUsername = false /\ byEmail = true)
  /\ (forall err', message err' = m ->
                   createUser_catch err' = createUser_catch err
                   /\ updateUser_catch err' = updateUser_catch err).
Proof.
  intros m byUsername byEmail. unfold createUser_catch, updateUser_catch.
  fold m. fold byUsername. fold byEmail.
  repeat split; try (destruct byUsername, byEmail; intuition congruence).
  - intros. subst m. unfold createUser_catch.
    match goal with H : message _ = message _ |- _ => rewrite H end. reflexivity.
  - intros. subst m. unfold updateUser_catch.
    match goal with H : message _ = message _ |- _ => rewrite H end. reflexivity.
Qed.

(** Register raises the translation of whatever the user model throws. *)
Lemma createUser_raises_translation env config u0 req w e w' :
  JsString.truthy (r_password u0) = true ->
  (8 <= String.length (orElse (r_password u0) ""))%nat ->
  User_createUser env
    (mkRegisterInput (r_username u0) (r_email u0) (r_password u0)
                     (Some (random env (draws w) TOKEN_LENGTH)))
    (set_draws (S (draws w)) w)
  = (Throw e, w') ->
  createUser env config u0 req w = (Throw (createUser_catch e), w').
Proof.
  intros Hpw Hlen Hstore. unfold createUser, bind at 1, generateToken. simpl.
  rewrite Hpw. simpl.
  destruct (Nat.ltb_spec (String.length (orElse (r_password u0) "")) 8) as [Hlt|_]; [lia|].
  unfold tryCatch, bind at 1. rewrite Hstore. reflexivity.
Qed.

(** Register end to end, with the wording of the demo store: carol registers
    with the address username@test.com, which dave already holds; the
    collision on email is reported as a collision on username. *)
Lemma register_email_collision_reported_as_username :
  outcome (createUser Demo.env Demo.config
             (mkRegisterInput "carol" "username@test.com" (Some "password") None)
             Demo.anonymous)
          (mkWorld [mkUser 1%nat "dave1" "username@test.com" "$password" false None None None]
                   [] [] 0%nat freshResponse)
  = Throw (Domain UsernameAlreadyExistsError "Username already exists").
Proof. vm_compute. reflexivity. Qed.

(** ** Password recovery request (C8) *)

Lemma sendPasswordRecoveryEmail_anonymous env config e ck q now w :
  outcome (sendPasswordRecoveryEmail env config e (mkRequest None ck q) now) w
  = Ok recoveryNotice.
Proof.
  unfold outcome, sendPasswordRecoveryEmail, bind, User_userExists, gets; simpl.
  rewrite existsb_by_find.
  destruct (find (matches (ByEmail e)) (users w)) as [u|] eqn:Hfind; simpl; [|reflexivity].
  unfold User_updateUser, User_getUser; simpl. rewrite Hfind; simpl.
  rewrite find_updateOne by (intros x Hx; exact Hx).
  rewrite Hfind; simpl. reflexivity.
Qed.

(** C8: an unauthenticated [sendPasswordRecoveryEmail] answers with the one
    generic notification, in every state and for every address, so two runs
    that differ only in whether the address exists answer alike; an
    authenticated caller gets AlreadyLoggedInError. *)
Theorem C8_recovery_request_is_no_existence_oracle env config e ck q now w :
  outcome (sendPasswordRecoveryEmail env config e (mkRequest None ck q) now) w
  = Ok recoveryNotice
  /\ (forall e' w',
         outcome (sendPasswordRecoveryEmail env config e' (mkRequest None ck q) now) w'
         = outcome (sendPasswordRecoveryEmail env config e (mkRequest None ck q) now) w)
  /\ (forall ru,
         sendPasswordRecoveryEmail env config e (mkRequest (Some ru) ck q) now w
         = (Throw (Domain AlreadyLoggedInError "Oups, you are already logged in!"), w)).
Proof.
  repeat split.
  - apply sendPasswordRecoveryEmail_anonymous.
  - intros. now rewrite !sendPasswordRecoveryEmail_anonymous.
Qed.

(** ** Login (C4) *)

(** C4: a login string that matches no user, and a login string that
    matches a user but comes with a password that does not verify, both
    fail with the same error, UserNotFound "Wrong credentials!", and leave
    the state as it was. *)
Theorem C4_login_failures_indistinguishable env config loginStr pw req now w :
  resolveLogin loginStr (users w) = None
  \/ (exists u, resolveLogin loginStr (users w) = Some u
                /\ verifyPassword env pw (password u) = false) ->
  login env config loginStr pw req now w
  = (Throw (Domain UserNotFound "Wrong credentials!"), w).
Proof.
  unfold resolveLogin, login, bind, User_userExists, gets, User_sign; simpl.
  rewrite !existsb_by_find.
  destruct (find (matches (ByEmail loginStr)) (users w)) as [u|] eqn:He.
  - intros [H|(u' & [= <-] & Hpw)]; [discriminate|].
    simpl. rewrite He, Hpw. reflexivity.
  - destruct (find (matches (ByUsername loginStr)) (users w)) as [u|] eqn:Hu.
    + intros [H|(u' & [= <-] & Hpw)]; [discriminate|].
      simpl. rewrite Hu, Hpw. reflexivity.
    + reflexivity.
Qed.

(** C4, witness: in the demo world nobody is called mallory, and alice's
    password is not the word wrong. *)
Lemma C4_login_failures_witness :
  login Demo.env Demo.config "mallory" "password" Demo.anonymous 0 Demo.world
  = (Throw (Domain UserNotFound "Wrong credentials!"), Demo.world)
  /\ login Demo.env Demo.config "alice" "wrong" Demo.anonymous 0 Demo.world
     = (Throw (Domain UserNotFound "Wrong credentials!"), Demo.world).
Proof.
  split.
  - apply (C4_login_failures_indistinguishable Demo.env Demo.config "mallory" "password"
             Demo.anonymous 0 Demo.world).
    left. reflexivity.
  - apply (C4_login_failures_indistinguishable Demo.env Demo.config "alice" "wrong"
             Demo.anonymous 0 Demo.world).
    right. exists Demo.alice. split; reflexivity.
Defined.

(** ** Password recovery (C2, C3) *)

Lemma find_by_own_id (us : list User) (u : User) :
  In u us -> exists u0, find (matches (ById (_id u))) us = Some u0.
Proof.
  intros Hin. destruct (find (matches (ById (_id u))) us) as [u0|] eqn:Hf; [eauto|].
  pose proof (find_none_all _ _ Hf u Hin) as H. simpl in H.
  rewrite Nat.eqb_refl in H. discriminate.
Qed.

Lemma recoverPassword_known env pw token now w u :
  (8 <= String.length pw)%nat ->
  find (matches (ByPasswordRecoveryToken token)) (users w) = Some u ->
  recoverPassword env pw token now w
  = if tooLate (elapsedMinutes now (passwordRecoveryRequestDate u))
    then (Throw linkExpired, w)
    else (Ok passwordUpdated, withNewPassword env pw u w).
Proof.
  intros Hlen Hfind. unfold recoverPassword.
  destruct (Nat.ltb_spec (String.length pw) 8) as [Hlt|_]; [lia|].
  unfold bind, User_userExists, gets, User_getUser; simpl.
  rewrite existsb_by_find, Hfind; simpl. rewrite Hfind; simpl.
  destruct (tooLate _); [reflexivity|].
  unfold User_updateUser; simpl.
  destruct (find_by_own_id (users w) u) as [u0 Hu0]; [apply (find_In _ _ _ Hfind)|].
  rewrite Hu0; simpl. reflexivity.
Qed.

Lemma recoverPassword_unknown env pw token now w :
  find (matches (ByPasswordRecoveryToken token)) (users w) = None ->
  exists e, recoverPassword env pw token now w = (Throw e, w)
            /\ ((8 <= String.length pw)%nat -> e = Domain UserNotFound "Unvalid token!").
Proof.
  intros Hfind. unfold recoverPassword.
  destruct (Nat.ltb_spec (String.length pw) 8) as [Hlt|Hge].
  - eexists. split; [reflexivity|]. lia.
  - unfold bind, User_userExists, gets; simpl.
    rewrite existsb_by_find, Hfind; simpl. eexists. split; reflexivity.
Qed.

(** The delay test on integer timestamps: sixty minutes in milliseconds. *)
Lemma tooLate_threshold now d :
  tooLate (elapsedMinutes now (Some d)) = (3600000 <=? Z.abs (now - d)).
Proof.
  unfold tooLate, elapsedMinutes, DELAY_TO_CHANGE_PASSWORD_IN_MINUTS.
  rewrite Z.div_div by lia. change (1000 * 60) with 60000.
  pose proof (Z.abs_nonneg (now - d)) as Hpos.
  destruct (Z.leb_spec 3600000 (Z.abs (now - d))) as [H|H].
  - apply Z.leb_le. apply Z.div_le_lower_bound; lia.
  - apply Z.leb_gt. apply Z.div_lt_upper_bound; lia.
Qed.

(** C2: with a known recovery token, a recorded request date not after the
    current time and a new password of at least 8 characters,
    [recoverPassword] updates the password and returns the success
    notification if and only if strictly less than 60 minutes (3600000 ms)
    have elapsed since the request; at or after 60 minutes it fails with
    UpdatePasswordTooLateError and changes nothing. *)
Theorem C2_recovery_accepted_iff_within_60_minutes env pw token now w u d :
  (8 <= String.length pw)%nat ->
  find (matches (ByPasswordRecoveryToken token)) (users w) = Some u ->
  passwordRecoveryRequestDate u = Some d ->
  d <= now ->
  (now - d < 60 * 60 * 1000 ->
   recoverPassword env pw token now w = (Ok passwordUpdated, withNewPassword env pw u w))
  /\ (60 * 60 * 1000 <= now - d ->
      recoverPassword env pw token now w = (Throw linkExpired, w))
  /\ (outcome (recoverPassword env pw token now) w = Ok passwordUpdated
      <-> now - d < 60 * 60 * 1000).
Proof.
  intros Hlen Hfind Hdate Hle. unfold outcome.
  rewrite (recoverPassword_known env pw token now w u Hlen Hfind), Hdate, tooLate_threshold.
  rewrite Z.abs_eq by lia.
  destruct (Z.leb_spec 3600000 (now - d)) as [H|H]; simpl.
  - repeat split; intros; try lia; try reflexivity.
    simpl in *. discriminate.
  - repeat split; intros; try lia; reflexivity.
Qed.

(** C2, witness: bob asked for a recovery at time 1000; one millisecond
    before the hour it is accepted, at the hour it is refused. *)
Lemma C2_recovery_window_witness :
  outcome (recoverPassword Demo.env "newpassword" "rtok" 3600999) Demo.world
  = Ok passwordUpdated
  /\ recoverPassword Demo.env "newpassword" "rtok" 3601000 Demo.world
     = (Throw linkExpired, Demo.world).
Proof.
  split.
  - apply (C2_recovery_accepted_iff_within_60_minutes Demo.env "newpassword" "rtok"
             3600999 Demo.world Demo.bob 1000);
      [simpl; lia | reflexivity | reflexivity | lia | lia].
  - apply (C2_recovery_accepted_iff_within_60_minutes Demo.env "newpassword" "rtok"
             3601000 Demo.world Demo.bob 1000);
      [simpl; lia | reflexivity | reflexivity | lia | lia].
Defined.

(** ** Documents identified by a unique key *)

Section UniqueKeys.

Context {A K : Type}.
Variables (key : A -> K) (p : A -> bool) (g : A -> A).
Hypothesis p_one_key : forall x y, p x = true -> p y = true -> key x = key y.

Lemma NoDup_key_In (l : list A) (x y : A) :
  NoDup (map key l) -> In x l -> In y l -> key x = key y -> x = y.
Proof using key.
  induction l as [|z l IH]; simpl; [intros _ []|].
  intros Hnd. apply NoDup_cons_iff in Hnd as [Hnotin Hnd'].
  intros [<-|Hx] [<-|Hy] Hk; auto.
  - exfalso. apply Hnotin. rewrite Hk. now apply in_map.
  - exfalso. apply Hnotin. rewrite <- Hk. now apply in_map.
Qed.

(** With unique keys [updateOne] rewrites the matching documents, of
    which there is at most one. *)
Lemma updateOne_unique (l : list A) :
  NoDup (map key l) ->
  updateOne p g l = map (fun x => if p x then g x else x) l.
Proof using key p g p_one_key.
  induction l as [|z l IH]; simpl; [reflexivity|].
  intros Hnd. apply NoDup_cons_iff in Hnd as [Hnotin Hnd'].
  destruct (p z) eqn:Hz.
  - f_equal. rewrite <- (map_id l) at 1. apply map_ext_in.
    intros y Hy. destruct (p y) eqn:Hpy; [|reflexivity].
    exfalso. apply Hnotin. rewrite (p_one_key z y Hz Hpy). now apply in_map.
  - f_equal. auto.
Qed.

Lemma find_unique (l : list A) (x : A) :
  NoDup (map key l) -> In x l -> p x = true -> find p l = Some x.
Proof using key p p_one_key.
  intros Hnd Hin Hpx.
  destruct (find p l) as [y|] eqn:Hf.
  - destruct (find_In _ _ _ Hf) as [Hy Hpy].
    f_equal. apply (NoDup_key_In l y x Hnd Hy Hin). now apply p_one_key.
  - rewrite (find_none_all _ _ Hf x Hin) in Hpx. discriminate.
Qed.

End UniqueKeys.

Lemma ById_one_key i (x y : User) :
  matches (ById i) x = true -> matches (ById i) y = true -> _id x = _id y.
Proof. simpl. intros Hx%Nat.eqb_eq Hy%Nat.eqb_eq. congruence. Qed.

Lemma ByEmail_one_key e (x y : User) :
  matches (ByEmail e) x = true -> matches (ByEmail e) y = true -> email x = email y.
Proof. simpl. intros Hx%String.eqb_eq Hy%String.eqb_eq. congruence. Qed.

(** C3: after a successful [recoverPassword] the user the token belonged to
    has the hash of the new password stored and no recovery token nor
    request date, and every further [recoverPassword] with that token
    fails: with UserNotFound once the password passes the length check.
    The collection has unique ids and the token belongs to one user. *)
Theorem C3_recovery_token_is_single_use env pw token now w ns w' :
  uniqueIds (users w) ->
  identifiesOneUser (ByPasswordRecoveryToken token) (users w) ->
  recoverPassword env pw token now w = (Ok ns, w') ->
  exists u,
    find (matches (ByPasswordRecoveryToken token)) (users w) = Some u
    /\ find (matches (ById (_id u))) (users w')
       = Some (mkUser (_id u) (username u) (email u) (hashPassword env (draws w) pw)
                      (verified u) (verificationToken u) None None)
    /\ (forall pw2 now2,
           exists e, recoverPassword env pw2 token now2 w' = (Throw e, w')
                     /\ ((8 <= String.length pw2)%nat ->
                         e = Domain UserNotFound "Unvalid token!")).
Proof.
  intros Hids Hone Hrun.
  destruct (Nat.ltb_spec (String.length pw) 8) as [Hshort|Hlen].
  { unfold recoverPassword in Hrun. apply Nat.ltb_lt in Hshort.
    rewrite Hshort in Hrun. discriminate. }
  destruct (find (matches (ByPasswordRecoveryToken token)) (users w)) as [u|] eqn:Hfind.
  2:{ destruct (recoverPassword_unknown env pw token now w Hfind) as (e & He & _).
      rewrite He in Hrun. discriminate. }
  rewrite (recoverPassword_known env pw token now w u Hlen Hfind) in Hrun.
  destruct (tooLate _); [discriminate|].
  injection Hrun as _ <-.
  destruct (find_In _ _ _ Hfind) as [Hin Htok].
  assert (Hself : matches (ById (_id u)) u = true) by (simpl; apply Nat.eqb_refl).
  exists u. split; [reflexivity|]. split.
  - simpl. rewrite find_updateOne by (intros x Hx; exact Hx).
    rewrite (find_unique _id _ (ById_one_key _) (users w) u Hids Hin Hself).
    reflexivity.
  - intros pw2 now2. apply recoverPassword_unknown.
    match goal with |- find ?q ?l = None => destruct (find q l) as [x|] eqn:Hx end;
      [|reflexivity].
    exfalso. destruct (find_In _ _ _ Hx) as [Hxin Hxtok].
    simpl in Hxin.
    rewrite (updateOne_unique _id _ _ (ById_one_key _) (users w) Hids) in Hxin.
    apply in_map_iff in Hxin. destruct Hxin as (y & Hy & Hyin).
    destruct (matches (ById (_id u)) y) eqn:Hyid.
    + subst x. simpl in Hxtok. discriminate.
    + subst x. rewrite (Hone y u Hyin Hin Hxtok Htok) in Hyid. congruence.
Qed.

(** C3, witness: bob recovers his password in the demo world. *)
Lemma C3_recovery_token_witness :
  exists u,
    find (matches (ByPasswordRecoveryToken "rtok")) (users Demo.world) = Some u
    /\ find (matches (ById (_id u)))
            (users (withNewPassword Demo.env "newpassword" Demo.bob Demo.world))
       = Some (mkUser (_id u) (username u) (email u)
                      (hashPassword Demo.env (draws Demo.world) "newpassword")
                      (verified u) (verificationToken u) None None)
    /\ (forall pw2 now2,
           exists e,
             recoverPassword Demo.env pw2 "rtok" now2
               (withNewPassword Demo.env "newpassword" Demo.bob Demo.world)
             = (Throw e, withNewPassword Demo.env "newpassword" Demo.bob Demo.world)
             /\ ((8 <= String.length pw2)%nat ->
                 e = Domain UserNotFound "Unvalid token!")).
Proof.
  apply (C3_recovery_token_is_single_use Demo.env "newpassword" "rtok" 2000 Demo.world
           passwordUpdated).
  - unfold uniqueIds; simpl. repeat constructor; simpl; intuition discriminate.
  - intros v v' Hv Hv' Hm Hm'. simpl in Hv, Hv'.
    destruct Hv as [<-|[<-|[]]]; destruct Hv' as [<-|[<-|[]]];
      try reflexivity; discriminate.
  - reflexivity.
Defined.

(** ** Email confirmation (C9) *)

(** C9: [confirmEmail] with a token that matches no user throws nothing and
    renders the notification page with the error "This link is not valid!",
    leaving the collections as they were; with a token that matches a user
    (of a collection with unique emails) it clears that user's verification
    token, sets verified to true and renders the success notification. *)
Theorem C9_confirm_email_outcomes env config req w :
  (find (matches (ByVerificationToken (query_token req))) (users w) = None ->
   confirmEmail env config req w = (Ok tt, rendered config linkNotValid w))
  /\ (forall u,
         uniqueEmails (users w) ->
         find (matches (ByVerificationToken (query_token req))) (users w) = Some u ->
         exists w',
           confirmEmail env config req w = (Ok tt, rendered config nowVerified w')
           /\ find (matches (ByEmail (email u))) (users w') = Some (confirmed u)
           /\ verified (confirmed u) = true
           /\ verificationToken (confirmed u) = None).
Proof.
  split.
  - intros Hfind. unfold confirmEmail, bind, tryCatch, User_userExists, gets; simpl.
    rewrite existsb_by_find, Hfind. reflexivity.
  - intros u Hemails Hfind.
    destruct (find_In _ _ _ Hfind) as [Hin _].
    assert (Hself : matches (ByEmail (email u)) u = true) by (simpl; apply String.eqb_refl).
    pose proof (find_unique email _ (ByEmail_one_key _) (users w) u Hemails Hin Hself)
      as Hbyemail.
    exists (set_users (updateOne (matches (ByEmail (email u)))
                         (applyPatch None
                            (mkPatch None None None None (Some true) (Some None) None None))
                         (users w)) w).
    split; [|split; [|split; reflexivity]].
    + unfold confirmEmail, bind, tryCatch, User_userExists, gets, User_getUser,
        User_updateUser; simpl.
      rewrite existsb_by_find, Hfind; simpl. rewrite Hfind; simpl.
      rewrite Hbyemail; simpl. reflexivity.
    + simpl. rewrite find_updateOne by (intros x Hx; exact Hx).
      rewrite Hbyemail. reflexivity.
Qed.

(** C9, witness: in the demo world the token WRONGTOKEN matches nobody and
    the token vtok is bob's. *)
Lemma C9_confirm_email_witness :
  confirmEmail Demo.env Demo.config
    (mkRequest None (mkCookies None None) "WRONGTOKEN") Demo.world
  = (Ok tt, rendered Demo.config linkNotValid Demo.world)
  /\ exists w',
      confirmEmail Demo.env Demo.config
        (mkRequest None (mkCookies None None) "vtok") Demo.world
      = (Ok tt, rendered Demo.config nowVerified w')
      /\ find (matches (ByEmail "bob@test.com")) (users w') = Some (confirmed Demo.bob)
      /\ verified (confirmed Demo.bob) = true
      /\ verificationToken (confirmed Demo.bob) = None.
Proof.
  split.
  - apply (C9_confirm_email_outcomes Demo.env Demo.config
             (mkRequest None (mkCookies None None) "WRONGTOKEN") Demo.world).
    reflexivity.
  - apply (proj2 (C9_confirm_email_outcomes Demo.env Demo.config
                    (mkRequest None (mkCookies None None) "vtok") Demo.world) Demo.bob).
    + unfold uniqueEmails; simpl. repeat constructor; simpl; intuition discriminate.
    + reflexivity.
Defined.

(** ** UpdateMe (C6, C7, C10) *)

Lemma users_stored env f p w :
  users (stored env f p w)
  = updateOne (matches f) (applyPatch (hashed env p (draws w)) p) (users w).
Proof. unfold stored, hashed. destruct (p_password p); reflexivity. Qed.


Lemma User_updateUser_found env f p w u :
  find (matches f) (users w) = Some u ->
  validate env (p_username p) (p_email p) (Some (_id u)) (users w) = None ->
  User_updateUser env f p w = (Ok tt, stored env f p w).
Proof. intros Hf Hv. unfold User_updateUser. rewrite Hf, Hv. reflexivity. Qed.

Lemma find_stored_by_id env i p w u :
  find (matches (ById i)) (users w) = Some u ->
  find (matches (ById i)) (users (stored env (ById i) p w))
  = Some (applyPatch (hashed env p (draws w)) p u).
Proof.
  intros Hf. rewrite users_stored, find_updateOne by (intros x Hx; exact Hx).
  rewrite Hf. reflexivity.
Qed.

Lemma updateUser_authorized env config upd req now w ru :
  user req = Some ru ->
  sessionIsValid ru req now w ->
  updateUser env config upd req now w
  = bind (checkPasswordChange env upd ru)
         (fun upd' => tryCatch (applyUpdates env config upd' ru req)
                               (fun err => throw (updateUser_catch err))) w.
Proof.
  intros Hu Hs. unfold updateUser. rewrite Hu.
  unfold sessionIsValid, outcome, Session_isValid, gets in Hs. simpl in Hs.
  unfold bind at 1. unfold Session_isValid, gets.
  injection Hs as ->. reflexivity.
Qed.

(** UpdateMe raises the translation of whatever its [try] block throws. *)
Lemma updateUser_raises_translation env config upd upd' req now w ru e w' :
  user req = Some ru ->
  sessionIsValid ru req now w ->
  checkPasswordChange env upd ru w = (Ok upd', w) ->
  applyUpdates env config upd' ru req w = (Throw e, w') ->
  updateUser env config upd req now w = (Throw (updateUser_catch e), w').
Proof.
  intros Hu Hs Hcheck Happly.
  rewrite (updateUser_authorized env config upd req now w ru Hu Hs).
  unfold bind. rewrite Hcheck. unfold tryCatch. rewrite Happly. reflexivity.
Qed.

(** The password guard of UpdateMe as line 269 has it: past the
    authentication and session gate, a request for a new password different
    from the supplied previous password, when the previous password does
    not verify for the user found by the e-mail of the bearer claims, fails
    with WrongPasswordError and leaves the state untouched; every login
    afterwards behaves as it did before. *)
Lemma updateUser_guard_refuses env config upd req now w ru :
  user req = Some ru ->
  sessionIsValid ru req now w ->
  JsString.truthy (p_password upd) = true ->
  strictEq (p_password upd) (p_previousPassword upd) = false ->
  outcome (User_isPasswordValid env (ByEmail (pu_email ru)) (p_previousPassword upd)) w
  = Ok false ->
  updateUser env config upd req now w = (Throw wrongPreviousPassword, w)
  /\ (forall loginStr pw req' now',
         login env config loginStr pw req' now' (after (updateUser env config upd req now) w)
         = login env config loginStr pw req' now' w).
Proof.
  intros Hu Hs Hpw Hneq Hwrong.
  assert (Hrun : updateUser env config upd req now w = (Throw wrongPreviousPassword, w)).
  { rewrite (updateUser_authorized env config upd req now w ru Hu Hs).
    unfold bind at 1. unfold checkPasswordChange. rewrite Hpw, Hneq. simpl.
    unfold outcome, User_isPasswordValid, gets in Hwrong. simpl in Hwrong.
    unfold bind, User_isPasswordValid, gets.
    injection Hwrong as ->. reflexivity. }
  split; [exact Hrun|].
  intros. unfold after. rewrite Hrun. reflexivity.
Qed.

(** The guard where the claims are current: when the e-mail of the bearer
    claims resolves to the caller's own document, a previous password that
    does not verify against the caller's stored hash is refused, nothing
    changes and every login afterwards behaves as it did before. *)
Lemma updateUser_guard_with_current_claims env config upd req now w ru :
  user req = Some ru ->
  sessionIsValid ru req now w ->
  JsString.truthy (p_password upd) = true ->
  strictEq (p_password upd) (p_previousPassword upd) = false ->
  find (matches (ByEmail (pu_email ru))) (users w)
  = find (matches (ById (pu_id ru))) (users w) ->
  outcome (User_isPasswordValid env (ById (pu_id ru)) (p_previousPassword upd)) w
  = Ok false ->
  updateUser env config upd req now w = (Throw wrongPreviousPassword, w)
  /\ (forall loginStr pw req' now',
         login env config loginStr pw req' now' (after (updateUser env config upd req now) w)
         = login env config loginStr pw req' now' w).
Proof.
  intros Hu Hs Hpw Hneq Hcurrent Hwrong.
  apply (updateUser_guard_refuses env config upd req now w ru Hu Hs Hpw Hneq).
  unfold outcome, User_isPasswordValid, gets in *. simpl in *.
  rewrite Hcurrent. exact Hwrong.
Qed.

(** The integration test 'Wrong previous password': alice, logged in with
    her session and a current token, asks for the password newpassword and
    gives wrongpassword as the previous one; she is refused and her old
    password still logs her in. *)
Lemma updateUser_guard_with_current_claims_example :
  updateUser Demo.env Demo.config
    (mkPatch None None (Some "newpassword") (Some "wrongpassword") None None None None)
    Demo.aliceRequest 2000 Demo.world
  = (Throw wrongPreviousPassword, Demo.world)
  /\ outcome (login Demo.env Demo.config "alice@test.com" "password" Demo.anonymous 2000)
       (after (updateUser Demo.env Demo.config
                 (mkPatch None None (Some "newpassword") (Some "wrongpassword")
                          None None None None)
                 Demo.aliceRequest 2000) Demo.world)
     = Ok (mkLoginPayload "jwt.alice" 902000 (publicFields Demo.alice)).
Proof.
  pose proof (updateUser_guard_with_current_claims Demo.env Demo.config
                (mkPatch None None (Some "newpassword") (Some "wrongpassword")
                         None None None None)
                Demo.aliceRequest 2000 Demo.world (publicFields Demo.alice)
                eq_refl eq_refl eq_refl eq_refl eq_refl eq_refl) as [Hrun Hlogin].
  split; [exact Hrun|].
  unfold outcome. rewrite Hlogin. reflexivity.
Qed.

(** C7, failing input: [updateUser] departs from the property.  The guard
    at line 269 verifies the previous password against the user found by the
    e-mail of the bearer claims, while line 287 writes to the user found by
    the _id of the claims.  [staleClaimWorld] is reached from [Demo.world]
    by two requests: alice changes her address, then another account
    registers under the address her token still claims, with the password
    password2.  Alice's session is valid and password2 does not verify
    against her stored hash, yet an UpdateMe with her token and cookie that
    gives password2 as the previous password returns normally and replaces
    her hash: her old password, which logged her in before the call, is
    refused after it.  [deleteUser], which checks by _id (line 329),
    refuses the same request with the same password. *)
Theorem C7_stale_email_claim_replaces_the_hash :
  reachable Demo.env Demo.config Demo.world staleClaimWorld
  /\ user Demo.aliceRequest = Some (mkPublicUser 1%nat "alice" "alice@test.com" true)
  /\ sessionIsValid (mkPublicUser 1%nat "alice" "alice@test.com" true)
                    Demo.aliceRequest 2000 staleClaimWorld
  /\ find (matches (ById 1%nat)) (users staleClaimWorld) = Some movedAlice
  /\ verifyPassword Demo.env "password2" (password movedAlice) = false
  /\ outcome (User_isPasswordValid Demo.env (ById 1%nat) (Some "password2")) staleClaimWorld
     = Ok false
  /\ outcome (login Demo.env Demo.config "alice@new.org" "password" Demo.anonymous 2100)
             staleClaimWorld
     = Ok (mkLoginPayload "jwt.alice" 902100 (publicFields movedAlice))
  /\ outcome (updateUser Demo.env Demo.config otherAccountsPassword Demo.aliceRequest 2000)
             staleClaimWorld
     = Ok ([mkNotification "success" "User information updated!"], publicFields movedAlice)
  /\ find (matches (ById 1%nat))
          (users (after (updateUser Demo.env Demo.config otherAccountsPassword
                           Demo.aliceRequest 2000) staleClaimWorld))
     = Some (mkUser 1%nat "alice" "alice@new.org"
                    (hashPassword Demo.env 4%nat "newpassword")
                    false (Some "xx") None None)
  /\ outcome (login Demo.env Demo.config "alice@new.org" "password" Demo.anonymous 2100)
             (after (updateUser Demo.env Demo.config otherAccountsPassword
                       Demo.aliceRequest 2000) staleClaimWorld)
     = Throw (Domain UserNotFound "Wrong credentials!")
  /\ outcome (login Demo.env Demo.config "alice@new.org" "newpassword" Demo.anonymous 2100)
             (after (updateUser Demo.env Demo.config otherAccountsPassword
                       Demo.aliceRequest 2000) staleClaimWorld)
     = Ok (mkLoginPayload "jwt.alice" 902100 (publicFields movedAlice))
  /\ outcome (deleteUser Demo.env "password2" Demo.aliceRequest) staleClaimWorld
     = Throw (Domain WrongPasswordError "You entered a wrong password").
Proof.
  split.
  { unfold staleClaimWorld. do 2 apply reach_next. apply reach_here. }
  repeat split; vm_compute; reflexivity.
Qed.

Lemma updateUser_catch_not_wrong_password err m :
  updateUser_catch err <> Domain WrongPasswordError m.
Proof.
  unfold updateUser_catch.
  destruct (_ && _); [discriminate|]. destruct (_ && _); discriminate.
Qed.

Lemma checkPasswordChange_same_password env upd ru pw w :
  p_password upd = Some pw ->
  p_previousPassword upd = Some pw ->
  checkPasswordChange env upd ru w = (Ok upd, w).
Proof.
  intros Hp Hq. unfold checkPasswordChange. rewrite Hp, Hq. simpl.
  rewrite String.eqb_refl, andb_false_r. reflexivity.
Qed.

Lemma applyUpdates_found env config upd ru req w u :
  find (matches (ById (pu_id ru))) (users w) = Some u ->
  validate env (p_username upd) (p_email upd) (Some (_id u)) (users w) = None ->
  exists ns ru' w' u',
    applyUpdates env config upd ru req w = (Ok (ns, ru'), w')
    /\ find (matches (ById (pu_id ru))) (users w') = Some u'
    /\ password u' = orElse (hashed env upd (saltDraw upd ru w)) (password u).
Proof.
  intros Hfind Hval. unfold applyUpdates, saltDraw.
  destruct (pu_verified ru && JsString.truthy (p_email upd)).
  - unfold bind at 1. unfold generateToken.
    set (t := random env (draws w) TOKEN_LENGTH).
    set (w1 := set_draws (S (draws w)) w).
    assert (Hfind1 : find (matches (ById (pu_id ru))) (users w1) = Some u) by exact Hfind.
    unfold bind at 1.
    rewrite (User_updateUser_found env _ (demote t upd) w1 u Hfind1 Hval).
    unfold bind at 1. unfold User_getUserNonInternalFields, bind at 1, User_getUser.
    rewrite (find_stored_by_id env _ (demote t upd) w1 u Hfind1).
    unfold ret at 1. unfold bind, sendConfirmationEmail, agenda_now, modify, ret.
    do 4 eexists. split; [reflexivity|]. split.
    + simpl. rewrite (find_stored_by_id env _ (demote t upd) w1 u Hfind1). reflexivity.
    + reflexivity.
  - unfold bind at 1.
    rewrite (User_updateUser_found env _ upd w u Hfind Hval).
    unfold User_getUserNonInternalFields, bind, User_getUser.
    rewrite (find_stored_by_id env _ upd w u Hfind).
    unfold ret. do 4 eexists. split; [reflexivity|]. split.
    + rewrite (find_stored_by_id env _ upd w u Hfind). reflexivity.
    + reflexivity.
Qed.

(** C10: an authenticated UpdateMe with a valid session whose new password
    equals the supplied previous password is applied without any password
    check.  It never fails with WrongPasswordError; and when the user
    exists and the update breaks no constraint of the collection, it
    succeeds and the stored password becomes the hash of the supplied
    value, whatever the user's current password is and however short the
    value. *)
Theorem C10_equal_passwords_skip_the_checks env config upd req now w ru pw :
  user req = Some ru ->
  sessionIsValid ru req now w ->
  p_password upd = Some pw ->
  p_previousPassword upd = Some pw ->
  (forall m, outcome (updateUser env config upd req now) w
             <> Throw (Domain WrongPasswordError m))
  /\ (forall u,
         find (matches (ById (pu_id ru))) (users w) = Some u ->
         validate env (p_username upd) (p_email upd) (Some (_id u)) (users w) = None ->
         exists ns ru' w' u',
           updateUser env config upd req now w = (Ok (ns, ru'), w')
           /\ find (matches (ById (pu_id ru))) (users w') = Some u'
           /\ password u' = hashPassword env (saltDraw upd ru w) pw).
Proof.
  intros Hu Hs Hp Hq.
  assert (Hrun : updateUser env config upd req now w
                 = tryCatch (applyUpdates env config upd ru req)
                            (fun err => throw (updateUser_catch err)) w).
  { rewrite (updateUser_authorized env config upd req now w ru Hu Hs).
    unfold bind at 1.
    rewrite (checkPasswordChange_same_password env upd ru pw w Hp Hq). reflexivity. }
  unfold outcome. rewrite Hrun. clear Hrun.
  unfold tryCatch, throw. split.
  - intros m.
    destruct (applyUpdates env config upd ru req w) as [[a|e] w']; simpl;
      [discriminate|].
    intros [= H]. exact (updateUser_catch_not_wrong_password e m H).
  - intros u Hfind Hval.
    destruct (applyUpdates_found env config upd ru req w u Hfind Hval)
      as (ns & ru' & w' & u' & Hrun & Hfind' & Hpass).
    exists ns, ru', w', u'. rewrite Hrun. split; [reflexivity|]. split; [exact Hfind'|].
    rewrite Hpass. unfold hashed. rewrite Hp. reflexivity.
Qed.

(** C10, witness: alice's password is password; her session updates it to
    the three-letter abc by giving abc as the previous password too. *)
Lemma C10_equal_passwords_witness :
  exists ns ru' w' u',
    updateUser Demo.env Demo.config
      (mkPatch None None (Some "abc") (Some "abc") None None None None)
      Demo.aliceRequest 2000 Demo.world
    = (Ok (ns, ru'), w')
    /\ find (matches (ById 1%nat)) (users w') = Some u'
    /\ password u' = "x$abc".
Proof.
  exact (proj2 (C10_equal_passwords_skip_the_checks Demo.env Demo.config
                  (mkPatch None None (Some "abc") (Some "abc") None None None None)
                  Demo.aliceRequest 2000 Demo.world (publicFields Demo.alice) "abc"
                  eq_refl eq_refl eq_refl eq_refl)
               Demo.alice eq_refl eq_refl).
Defined.







(** ** Invariants of the session collection (C1) *)

Section Preservation.

Variables (env : Env) (config : Config) (P : World -> Prop).
Hypothesis P_closed : closed env P.

Lemma preserves_ret {A} (a : A) : preserves P (ret a).
Proof using Type. intros w H. exact H. Qed.

Lemma preserves_throw {A} (e : Exn) : preserves P (@throw A e).
Proof using Type. intros w H. exact H. Qed.

Lemma preserves_gets {A} (f : World -> A) : preserves P (gets f).
Proof using Type. intros w H. exact H. Qed.

Lemma preserves_bind {A B} (m : M A) (k : A -> M B) :
  preserves P m -> (forall a, preserves P (k a)) -> preserves P (bind m k).
Proof using Type.
  intros Hm Hk w H. specialize (Hm w H). unfold after, bind in *.
  destruct (m w) as [[a|e] w1]; simpl in *; [|exact Hm].
  apply (Hk a w1 Hm).
Qed.

Lemma preserves_tryCatch {A} (m : M A) (h : Exn -> M A) :
  preserves P m -> (forall e, preserves P (h e)) -> preserves P (tryCatch m h).
Proof using Type.
  intros Hm Hh w H. specialize (Hm w H). unfold after, tryCatch in *.
  destruct (m w) as [[a|e] w1]; simpl in *; [exact Hm|].
  apply (Hh e w1 Hm).
Qed.

Lemma preserves_getUser_model f : preserves P (User_getUser env f).
Proof using Type.
  intros w H. unfold after, User_getUser. destruct (find _ _); exact H.
Qed.

Lemma preserves_createUser_model u : preserves P (User_createUser env u).
Proof using P_closed.
  intros w H. unfold after, User_createUser. destruct (validate _ _ _ _ _); [exact H|].
  simpl. apply (cl_draw env P P_closed (set_users _ w)).
  now apply (cl_users env P P_closed).
Qed.

Lemma preserves_stored f p w : P w -> P (stored env f p w).
Proof using P_closed.
  intros H. unfold stored. destruct (p_password p).
  - apply (cl_draw env P P_closed (set_users _ w)). now apply (cl_users env P P_closed).
  - now apply (cl_users env P P_closed).
Qed.

Lemma preserves_updateUser_model f p : preserves P (User_updateUser env f p).
Proof using P_closed.
  intros w H. unfold after, User_updateUser.
  destruct (find _ _); [|exact H].
  destruct (validate _ _ _ _ _); [exact H|]. simpl. now apply preserves_stored.
Qed.

Lemma preserves_removeUser_model f : preserves P (User_removeUser f).
Proof using P_closed.
  intros w H. unfold after, User_removeUser.
  destruct (find _ _); [|exact H]. simpl.
  apply (cl_filter env P P_closed _ (set_users _ w)).
  now apply (cl_users env P P_closed).
Qed.

Lemma preserves_sign f pw key now : preserves P (User_sign env f pw key now).
Proof using Type.
  intros w H. unfold after, User_sign.
  destruct (find _ _); [|exact H]. destruct (verifyPassword _ _ _); exact H.
Qed.

Lemma preserves_createSession uid now : preserves P (Session_createSession env uid now).
Proof using P_closed. intros w H. now apply (cl_create env P P_closed). Qed.

Lemma preserves_removeSession uid t : preserves P (Session_removeSession uid t).
Proof using P_closed. intros w H. now apply (cl_delete env P P_closed). Qed.

Lemma preserves_removeOutdatedSessions uid now :
  preserves P (Session_removeOutdatedSessions uid now).
Proof using P_closed. intros w H. now apply (cl_filter env P P_closed). Qed.

Lemma preserves_updateSession uid t now : preserves P (Session_updateSession env uid t now).
Proof using P_closed.
  intros w H. unfold after, Session_updateSession.
  destruct (find _ _); [|exact H]. now apply (cl_rotate env P P_closed).
Qed.

Lemma preserves_generateToken len : preserves P (generateToken env len).
Proof using P_closed. intros w H. now apply (cl_draw env P P_closed). Qed.

Lemma preserves_agenda_now j : preserves P (agenda_now j).
Proof using P_closed. intros w H. now apply (cl_jobs env P P_closed). Qed.

Lemma preserves_res_status code : preserves P (res_status code).
Proof using P_closed. intros w H. now apply (cl_res env P P_closed). Qed.

Lemma preserves_res_cookie name value : preserves P (res_cookie config name value).
Proof using P_closed. intros w H. now apply (cl_res env P P_closed). Qed.

Lemma preserves_res_body b : preserves P (res_body b).
Proof using P_closed. intros w H. now apply (cl_res env P P_closed). Qed.

End Preservation.

(** Structural proof that a handler keeps a closed predicate: follow the
    binds and branches down to the writes of the models. *)
Ltac preserve HP :=
  repeat first
    [ apply preserves_ret
    | apply preserves_throw
    | apply preserves_gets
    | apply preserves_bind; [|intros ?]
    | apply preserves_tryCatch; [|intros ?]
    | apply preserves_getUser_model
    | apply preserves_sign
    | apply (preserves_createUser_model _ _ HP)
    | apply (preserves_updateUser_model _ _ HP)
    | apply (preserves_removeUser_model _ _ HP)
    | apply (preserves_createSession _ _ HP)
    | apply (preserves_removeSession _ _ HP)
    | apply (preserves_removeOutdatedSessions _ _ HP)
    | apply (preserves_updateSession _ _ HP)
    | apply (preserves_generateToken _ _ HP)
    | apply (preserves_agenda_now _ _ HP)
    | apply (preserves_res_status _ _ HP)
    | apply (preserves_res_cookie _ _ _ HP)
    | apply (preserves_res_body _ _ HP)
    | progress unfold User_userExists, User_findById, User_getUserNonInternalFields,
        User_isPasswordValid, User_refreshAuthToken, Session_isValid,
        Session_getUserAndSessionFromRefreshToken, sendConfirmationEmail,
        checkPasswordChange, applyUpdates
    | progress cbv zeta
    | match goal with
      | |- preserves _ (if ?b then _ else _) => destruct b
      | |- preserves _ (match ?x with _ => _ end) => destruct x
      end ].

Section HandlersPreserve.

Variables (env : Env) (config : Config) (P : World -> Prop).
Hypothesis P_closed : closed env P.

Lemma preserves_getUser req : preserves P (getUser req).
Proof using P_closed. unfold getUser. preserve P_closed. Qed.

Lemma preserves_checkEmailAvailable e : preserves P (checkEmailAvailable e).
Proof using P_closed. unfold checkEmailAvailable. preserve P_closed. Qed.

Lemma preserves_checkUsernameAvailable n : preserves P (checkUsernameAvailable n).
Proof using P_closed. unfold checkUsernameAvailable. preserve P_closed. Qed.

Lemma preserves_confirmEmail req : preserves P (confirmEmail env config req).
Proof using P_closed. unfold confirmEmail. preserve P_closed. Qed.

Lemma preserves_createUser u req : preserves P (createUser env config u req).
Proof using P_closed. unfold createUser. preserve P_closed. Qed.

Lemma preserves_resendConfirmationEmail req :
  preserves P (resendConfirmationEmail env config req).
Proof using P_closed. unfold resendConfirmationEmail. preserve P_closed. Qed.

Lemma preserves_recoverPassword pw token now :
  preserves P (recoverPassword env pw token now).
Proof using P_closed. unfold recoverPassword. preserve P_closed. Qed.

Lemma preserves_updateUser upd req now : preserves P (updateUser env config upd req now).
Proof using P_closed. unfold updateUser. preserve P_closed. Qed.

Lemma preserves_deleteUser pw req : preserves P (deleteUser env pw req).
Proof using P_closed. unfold deleteUser. preserve P_closed. Qed.

Lemma preserves_login loginStr pw req now :
  preserves P (login env config loginStr pw req now).
Proof using P_closed. unfold login. preserve P_closed. Qed.

Lemma preserves_sendPasswordRecoveryEmail e req now :
  preserves P (sendPasswordRecoveryEmail env config e req now).
Proof using P_closed. unfold sendPasswordRecoveryEmail. preserve P_closed. Qed.

Lemma preserves_resetPasswordForm req : preserves P (resetPasswordForm config req).
Proof using P_closed. unfold resetPasswordForm. preserve P_closed. Qed.

Lemma preserves_refreshTokens req now : preserves P (refreshTokens env config req now).
Proof using P_closed. unfold refreshTokens. preserve P_closed. Qed.

(** Every request keeps a closed predicate. *)
Lemma handle_preserves c req now w : P w -> P (handle env config c req now w).
Proof using P_closed.
  intros H. apply (cl_res env P P_closed freshResponse) in H.
  destruct c; simpl.
  - now apply preserves_getUser.
  - now apply preserves_checkEmailAvailable.
  - now apply preserves_checkUsernameAvailable.
  - now apply preserves_confirmEmail.
  - now apply preserves_createUser.
  - now apply preserves_resendConfirmationEmail.
  - now apply preserves_recoverPassword.
  - now apply preserves_updateUser.
  - now apply preserves_deleteUser.
  - now apply preserves_login.
  - now apply preserves_sendPasswordRecoveryEmail.
  - now apply preserves_resetPasswordForm.
  - now apply preserves_refreshTokens.
Qed.

(** And so does every run of the service. *)
Lemma reachable_preserves w w' : reachable env config w w' -> P w -> P w'.
Proof using P_closed.
  induction 1 as [|w1 c req now _ IH]; intros H; [exact H|].
  apply handle_preserves. auto.
Qed.

End HandlersPreserve.

Section Lists.

Context {A B : Type}.
Variables (f : A -> B) (p : A -> bool).

Lemma In_map_deleteOne (l : list A) (b : B) :
  In b (map f (deleteOne p l)) -> In b (map f l).
Proof using Type.
  intros H. apply in_map_iff in H as (x & <- & Hx).
  apply in_map. exact (In_deleteOne p l x Hx).
Qed.

Lemma NoDup_map_deleteOne (l : list A) :
  NoDup (map f l) -> NoDup (map f (deleteOne p l)).
Proof using Type.
  induction l as [|x l IH]; simpl; [intros H; exact H|].
  intros H. apply NoDup_cons_iff in H as [Hx Hl].
  destruct (p x); [exact Hl|]. simpl. apply NoDup_cons.
  - intros Hin. apply Hx. now apply In_map_deleteOne.
  - auto.
Qed.

Lemma In_map_filter (l : list A) (b : B) :
  In b (map f (filter p l)) -> In b (map f l).
Proof using Type.
  intros H. apply in_map_iff in H as (x & <- & Hx).
  apply in_map. apply filter_In in Hx. apply Hx.
Qed.

Lemma NoDup_map_filter (l : list A) :
  NoDup (map f l) -> NoDup (map f (filter p l)).
Proof using Type.
  induction l as [|x l IH]; simpl; [intros H; exact H|].
  intros H. apply NoDup_cons_iff in H as [Hx Hl].
  destruct (p x); [|auto]. simpl. apply NoDup_cons.
  - intros Hin. apply Hx. now apply In_map_filter.
  - auto.
Qed.

Lemma In_map_replace (l : list A) (y : A) (b : B) :
  In b (map f (updateOne p (fun _ => y) l)) -> b = f y \/ In b (map f l).
Proof using Type.
  induction l as [|x l IH]; simpl; [intros []|].
  destruct (p x); simpl.
  - intros [<-|H]; auto.
  - intros [<-|H]; [auto|]. destruct (IH H); auto.
Qed.

Lemma NoDup_map_replace (l : list A) (y : A) :
  NoDup (map f l) -> ~ In (f y) (map f l) ->
  NoDup (map f (updateOne p (fun _ => y) l)).
Proof using Type.
  induction l as [|x l IH]; simpl; [intros H _; exact H|].
  intros H Hy. apply NoDup_cons_iff in H as [Hx Hl].
  destruct (p x); simpl; apply NoDup_cons.
  - intros Hin. apply Hy. auto.
  - exact Hl.
  - intros Hin. apply In_map_replace in Hin as [Heq|Hin]; [|auto].
    apply Hy. left. exact Heq.
  - apply IH; [exact Hl|]. intros Hin. apply Hy. auto.
Qed.

End Lists.

Section SessionInvariant.

Variable env : Env.
Hypothesis fresh : neverRepeats env.

Lemma drawn_later t w w' :
  (draws w <= draws w')%nat -> drawn env t w -> drawn env t w'.
Proof using Type. intros Hle (i & Hi & ->). exists i. split; [lia|reflexivity]. Qed.

(** The next draw is none of the tokens drawn so far. *)
Lemma next_draw_is_new t w :
  drawn env t w -> t <> random env (draws w) (REFRESH_TOKEN_LENGTH env).
Proof using fresh.
  intros (i & Hi & ->) Heq. apply fresh in Heq. lia.
Qed.

Lemma next_draw_not_stored w :
  sessionsWf env w -> ~ In (random env (draws w) (REFRESH_TOKEN_LENGTH env)) (tokens w).
Proof using fresh.
  intros [_ Hdrawn] Hin. exact (next_draw_is_new _ w (Hdrawn _ Hin) eq_refl).
Qed.

Lemma sessionsWf_closed : closed env (sessionsWf env).
Proof using fresh.
  constructor.
  - intros us w H. exact H.
  - intros js w H. exact H.
  - intros r w H. exact H.
  - intros w [Hnd Hdr]. split; [exact Hnd|].
    intros t Ht. apply (drawn_later t w); [simpl; lia|auto].
  - intros uid exp w Hwf. pose proof (next_draw_not_stored w Hwf) as Hnew.
    destruct Hwf as [Hnd Hdr]. unfold sessionsWf, tokens in *. simpl.
    rewrite map_app. simpl. split.
    + apply NoDup_app; [exact Hnd|repeat constructor; intros []|].
      intros t Ht [<-|[]]. exact (Hnew Ht).
    + intros t Ht. apply in_app_or in Ht as [Ht|[<-|[]]].
      * apply (drawn_later t w); [simpl; lia|auto].
      * exists (draws w). split; [simpl; lia|reflexivity].
  - intros p w [Hnd Hdr]. unfold sessionsWf, tokens in *. simpl. split.
    + now apply NoDup_map_deleteOne.
    + intros t Ht. apply In_map_deleteOne in Ht. exact (Hdr t Ht).
  - intros p w [Hnd Hdr]. unfold sessionsWf, tokens in *. simpl. split.
    + now apply NoDup_map_filter.
    + intros t Ht. apply In_map_filter in Ht. exact (Hdr t Ht).
  - intros p uid exp w Hwf. pose proof (next_draw_not_stored w Hwf) as Hnew.
    destruct Hwf as [Hnd Hdr]. unfold sessionsWf, tokens in *. simpl. split.
    + apply NoDup_map_replace; [exact Hnd|exact Hnew].
    + intros t Ht. apply In_map_replace in Ht as [->|Ht].
      * exists (draws w). split; [simpl; lia|reflexivity].
      * apply (drawn_later t w); [simpl; lia|auto].
Qed.

Lemma retired_closed t : closed env (retired env t).
Proof using fresh.
  pose proof sessionsWf_closed as C.
  constructor.
  - intros us w H. exact H.
  - intros js w H. exact H.
  - intros r w H. exact H.
  - intros w (Hwf & Ht & Hout). split; [now apply (cl_draw env _ C)|].
    split; [|exact Hout]. apply (drawn_later t w); [simpl; lia|auto].
  - intros uid exp w (Hwf & Ht & Hout). split; [now apply (cl_create env _ C)|].
    split; [apply (drawn_later t w); [simpl; lia|auto]|].
    unfold tokens in *. simpl. rewrite map_app. simpl.
    intros Hin. apply in_app_or in Hin as [Hin|[Heq|[]]]; [auto|].
    exact (next_draw_is_new t w Ht (eq_sym Heq)).
  - intros p w (Hwf & Ht & Hout). split; [now apply (cl_delete env _ C)|].
    split; [exact Ht|]. unfold tokens in *. simpl.
    intros Hin. apply In_map_deleteOne in Hin. auto.
  - intros p w (Hwf & Ht & Hout). split; [now apply (cl_filter env _ C)|].
    split; [exact Ht|]. unfold tokens in *. simpl.
    intros Hin. apply In_map_filter in Hin. auto.
  - intros p uid exp w (Hwf & Ht & Hout). split; [now apply (cl_rotate env _ C)|].
    split; [apply (drawn_later t w); [simpl; lia|auto]|].
    unfold tokens in *. simpl.
    intros Hin. apply In_map_replace in Hin as [Heq|Hin]; [|auto].
    exact (next_draw_is_new t w Ht Heq).
Qed.

End SessionInvariant.

(** ** Refresh-token rotation (C1) *)

(** Rotating the session of [uid] that holds [t] leaves no session with
    [t], when tokens are unique and the new token is another one. *)
Lemma rotate_removes (l : list Session) (uid : UserId) (t : string) (s y : Session) :
  NoDup (map refreshToken l) ->
  In s l -> refreshToken s = t -> userId s = uid ->
  refreshToken y <> t ->
  ~ In t (map refreshToken (updateOne (sessionMatches uid t) (fun _ => y) l)).
Proof.
  intros Hnd Hin Ht Hu Hy. induction l as [|x l IH]; simpl; [intros []|].
  simpl in Hnd. apply NoDup_cons_iff in Hnd as [Hx Hl].
  destruct (sessionMatches uid t x) eqn:Hm; simpl.
  - apply andb_true_iff in Hm as [_ Hxt%String.eqb_eq].
    intros [Heq|Hin']; [exact (Hy Heq)|].
    apply Hx. rewrite Hxt. exact Hin'.
  - destruct Hin as [->|Hin].
    + unfold sessionMatches in Hm. rewrite Hu, Ht, Nat.eqb_refl, String.eqb_refl in Hm.
      discriminate.
    + intros [Heq|Hin']; [|exact (IH Hl Hin Hin')].
      apply Hx. rewrite Heq, <- Ht. now apply in_map.
Qed.

Lemma refreshTokens_ok env config req now w t payload w1 :
  c_refreshToken (cookies req) = Some t ->
  refreshTokens env config req now w = (Ok payload, w1) ->
  exists s,
    In s (sessions w) /\ refreshToken s = t
    /\ sessions w1
       = updateOne (sessionMatches (userId s) t)
           (fun _ => mkSession (userId s)
                       (random env (draws w) (REFRESH_TOKEN_LENGTH env))
                       (now + SESSION_LIFETIME env))
           (sessions w)
    /\ draws w1 = S (draws w).
Proof.
  intros Hc. unfold refreshTokens. unfold bind at 1.
  unfold Session_getUserAndSessionFromRefreshToken, gets. rewrite Hc.
  destruct (find (fun s => String.eqb (refreshToken s) t) (sessions w)) as [s|] eqn:Hs;
    [|discriminate].
  destruct (find_In _ _ _ Hs) as [Hin Ht%String.eqb_eq].
  destruct (now <? expiryDate s) eqn:Hlive; [|discriminate].
  destruct (find (matches (ById (userId s))) (users w)) as [u|] eqn:Hu; [|discriminate].
  destruct (find_In _ _ _ Hu) as [_ Hid]. simpl in Hid. apply Nat.eqb_eq in Hid.
  rewrite Hlive.
  unfold bind at 1. unfold User_refreshAuthToken, bind at 1, User_getUser.
  destruct (find (matches (ById (_id u))) (users w)); [|discriminate].
  unfold ret at 1. unfold bind at 1. unfold Session_updateSession.
  rewrite Hid, Ht.
  destruct (find (sessionMatches (userId s) t) (sessions w)); [|discriminate].
  unfold bind, res_cookie, modify, ret. intros [= _ <-].
  exists s. repeat split; assumption.
Qed.

Lemma rotation_retires env config req now w t payload w1 :
  neverRepeats env ->
  sessionsWf env w ->
  c_refreshToken (cookies req) = Some t ->
  refreshTokens env config req now w = (Ok payload, w1) ->
  retired env t w1.
Proof.
  intros Hfresh Hwf Hc Hrun.
  destruct (refreshTokens_ok env config req now w t payload w1 Hc Hrun)
    as (s & Hin & Ht & Hsess & Hdraws).
  assert (Hwf1 : sessionsWf env w1).
  { pose proof (preserves_refreshTokens env config _ (sessionsWf_closed env Hfresh)
                  req now w Hwf) as H.
    unfold after in H. rewrite Hrun in H. exact H. }
  assert (Hdrawn : drawn env t w).
  { apply Hwf. unfold tokens. rewrite <- Ht. now apply in_map. }
  split; [exact Hwf1|]. split.
  - apply (drawn_later env t w); [lia|exact Hdrawn].
  - unfold tokens. rewrite Hsess.
    apply (rotate_removes (sessions w) (userId s) t s); auto.
    + apply Hwf.
    + simpl. intros Heq. exact (next_draw_is_new env Hfresh t w Hdrawn (eq_sym Heq)).
Qed.

Lemma retired_rejected env config t w :
  ~ In t (tokens w) ->
  (forall uid now, outcome (Session_isValid uid (Some t) now) w = Ok false)
  /\ (forall req now,
         c_refreshToken (cookies req) = Some t ->
         refreshTokens env config req now w = (Throw pleaseLogin, w)).
Proof.
  intros Hout. split.
  - intros uid now. unfold outcome, Session_isValid, gets. simpl. f_equal.
    rewrite existsb_by_find.
    destruct (find _ (sessions w)) as [s|] eqn:Hs; [|reflexivity].
    exfalso. destruct (find_In _ _ _ Hs) as [Hin Hm].
    apply andb_true_iff in Hm as [Hm _]. apply andb_true_iff in Hm as [_ Hm%String.eqb_eq].
    apply Hout. unfold tokens. rewrite <- Hm. now apply in_map.
  - intros req now Hc. unfold refreshTokens, bind.
    unfold Session_getUserAndSessionFromRefreshToken, gets. rewrite Hc.
    destruct (find _ (sessions w)) as [s|] eqn:Hs; [|reflexivity].
    exfalso. destruct (find_In _ _ _ Hs) as [Hin Hm%String.eqb_eq].
    apply Hout. unfold tokens. rewrite <- Hm. now apply in_map.
Qed.

(** Every state the service reaches from an empty session collection is
    well formed. *)
Lemma reachable_sessionsWf env config w0 w :
  neverRepeats env -> sessions w0 = [] -> reachable env config w0 w -> sessionsWf env w.
Proof.
  intros Hfresh Hempty Hreach.
  apply (reachable_preserves env config _ (sessionsWf_closed env Hfresh) w0 w Hreach).
  unfold sessionsWf, tokens. rewrite Hempty. simpl. split; [constructor|intros t []].
Qed.

(** C1: once the refresh protocol has rotated a session's refresh token,
    the previous token is accepted in no later state of the service:
    [isValid] is false for it with every user, and the refresh protocol
    fails with UserNotFound (the NotFoundError of the spec) when it is
    presented.  The random source issues no refresh token twice and the
    session collection is well formed, as it is in every state reached
    from an empty collection. *)
Theorem C1_rotated_token_never_accepted env config req now w t payload w1 w2 :
  neverRepeats env ->
  sessionsWf env w ->
  c_refreshToken (cookies req) = Some t ->
  refreshTokens env config req now w = (Ok payload, w1) ->
  reachable env config w1 w2 ->
  (forall uid now', outcome (Session_isValid uid (Some t) now') w2 = Ok false)
  /\ (forall req' now',
         c_refreshToken (cookies req') = Some t ->
         refreshTokens env config req' now' w2 = (Throw pleaseLogin, w2)).
Proof.
  intros Hfresh Hwf Hc Hrun Hreach.
  apply retired_rejected.
  pose proof (rotation_retires env config req now w t payload w1 Hfresh Hwf Hc Hrun) as Hret.
  apply (reachable_preserves env config _ (retired_closed env Hfresh t) w1 w2 Hreach Hret).
Qed.

Lemma Demo_neverRepeats : neverRepeats Demo.env.
Proof. intros i j H. simpl in H. injection H as H. now apply Demo_tally_inj. Qed.

Lemma Demo_sessionsWf : sessionsWf Demo.env Demo.world.
Proof.
  split.
  - repeat constructor. intros [].
  - intros t [<-|[]]. exists 0%nat. split; [simpl; lia|reflexivity].
Qed.

(** C1, witness: alice refreshes her session in the demo world, then logs
    in again; her first refresh token is no longer valid and refreshing
    with it fails. *)
Lemma C1_rotated_token_witness :
  let w1 := after (refreshTokens Demo.env Demo.config Demo.aliceRequest 2000) Demo.world in
  let w2 := handle Demo.env Demo.config (CallLogin "alice" "password") Demo.anonymous 3000 w1 in
  outcome (Session_isValid 1%nat (Some "x") 3000) w2 = Ok false
  /\ refreshTokens Demo.env Demo.config Demo.aliceRequest 3000 w2 = (Throw pleaseLogin, w2).
Proof.
  intros w1 w2.
  destruct (C1_rotated_token_never_accepted Demo.env Demo.config Demo.aliceRequest 2000
              Demo.world "x" (mkTokenPayload "jwt.alice" 902000) w1 w2
              Demo_neverRepeats Demo_sessionsWf eq_refl eq_refl
              (reach_next _ _ _ _ _ _ _ (reach_here _ _ _)))
    as [Hvalid Hrefresh].
  split; [apply Hvalid|apply Hrefresh; reflexivity].
Defined.

(** * Further properties of the controller *)

(** ** Register: the password policy *)

(** X1: [createUser] rejects a missing or empty password with "Please
    provide a password!" and a password of fewer than 8 characters with the
    length message; in both cases no user is stored and no job is queued,
    but the verification token has already been drawn. *)
Theorem createUser_rejects_bad_password env config u0 req w :
  (JsString.truthy (r_password u0) = false ->
   createUser env config u0 req w = (Throw passwordMissing, set_draws (S (draws w)) w))
  /\ (JsString.truthy (r_password u0) = true ->
      (String.length (orElse (r_password u0) "") < 8)%nat ->
      createUser env config u0 req w
      = (Throw passwordTooShort, set_draws (S (draws w)) w)).
Proof.
  split.
  - intros Hpw. unfold createUser, bind, generateToken. simpl. rewrite Hpw. reflexivity.
  - intros Hpw Hlen. unfold createUser, bind, generateToken. simpl. rewrite Hpw. simpl.
    apply Nat.ltb_lt in Hlen. rewrite Hlen. reflexivity.
Qed.

(** X1, witness: a registration without password and one with the password
    toto. *)
Lemma createUser_rejects_bad_password_witness :
  createUser Demo.env Demo.config (mkRegisterInput "carol" "carol@test.com" None None)
    Demo.anonymous Demo.world
  = (Throw passwordMissing, set_draws 2 Demo.world)
  /\ createUser Demo.env Demo.config
       (mkRegisterInput "carol" "carol@test.com" (Some "toto") None)
       Demo.anonymous Demo.world
     = (Throw passwordTooShort, set_draws 2 Demo.world).
Proof.
  split.
  - apply (proj1 (createUser_rejects_bad_password Demo.env Demo.config
                    (mkRegisterInput "carol" "carol@test.com" None None)
                    Demo.anonymous Demo.world)).
    reflexivity.
  - apply (proj2 (createUser_rejects_bad_password Demo.env Demo.config
                    (mkRegisterInput "carol" "carol@test.com" (Some "toto") None)
                    Demo.anonymous Demo.world)).
    + reflexivity.
    + simpl. lia.
Defined.

(** ** Register and UpdateMe: the errors that can leave the controller *)

Lemma createUser_catch_kind err : raisesOnly createUserThrows (@Throw unit (createUser_catch err)).
Proof.
  unfold createUser_catch.
  destruct (_ && _); [reflexivity|]. destruct (_ && _); reflexivity.
Qed.

Lemma updateUser_catch_kind err : raisesOnly updateUserThrows (@Throw unit (updateUser_catch err)).
Proof.
  unfold updateUser_catch.
  destruct (_ && _); [reflexivity|]. destruct (_ && _); reflexivity.
Qed.

(** X2: whatever the user model throws, [createUser] returns or raises one
    of UserValidationError, UsernameAlreadyExistsError and
    EmailAlreadyExistsError: no raw persistence failure leaves it. *)
Theorem createUser_raises_documented_errors env config u0 req w :
  raisesOnly createUserThrows (outcome (createUser env config u0 req) w).
Proof.
  unfold outcome, createUser, bind at 1, generateToken. simpl.
  destruct (JsString.truthy (r_password u0)); simpl; [|reflexivity].
  destruct (_ <? _)%nat; [reflexivity|].
  unfold tryCatch.
  match goal with |- context [bind ?m ?k ?w0] => destruct (bind m k w0) as [[a|e] w1] end;
    simpl; [exact I|].
  exact (createUser_catch_kind e).
Qed.

(** X3: [updateUser] returns or raises one of UserNotFound,
    WrongPasswordError, UserValidationError, UsernameAlreadyExistsError and
    EmailAlreadyExistsError, whatever the models throw inside its [try]. *)
Theorem updateUser_raises_documented_errors env config upd req now w :
  raisesOnly updateUserThrows (outcome (updateUser env config upd req now) w).
Proof.
  unfold outcome, updateUser.
  destruct (user req) as [ru|]; [|reflexivity].
  unfold bind at 1. unfold Session_isValid, gets.
  destruct (match c_refreshToken (cookies req) with Some _ => _ | None => _ end);
    simpl; [|reflexivity].
  unfold bind at 1.
  destruct (checkPasswordChange env upd ru w) as [[upd'|e] w1] eqn:Hcheck.
  - unfold tryCatch.
    destruct (applyUpdates env config upd' ru req w1) as [[a|e] w2]; simpl; [exact I|].
    exact (updateUser_catch_kind e).
  - simpl. revert Hcheck. unfold checkPasswordChange.
    destruct (_ && _); [|discriminate].
    unfold bind, User_isPasswordValid, gets. simpl.
    destruct (match find _ _ with Some _ => _ | None => _ end); simpl.
    + destruct (_ <? _)%nat; simpl; [|discriminate]. intros [= <- _]. reflexivity.
    + intros [= <- _]. reflexivity.
Qed.

(** ** UpdateMe: the gate and the length policy *)

(** X4: [updateUser] without an authenticated user, or with a refresh
    cookie that names no unexpired session of that user, fails with
    UserNotFound "Please login!", sets the response status to 401 and
    leaves users, sessions and jobs untouched. *)
Theorem updateUser_requires_valid_session env config upd req now w :
  user req = None
  \/ (exists ru, user req = Some ru
                 /\ outcome (Session_isValid (pu_id ru) (c_refreshToken (cookies req)) now) w
                    = Ok false) ->
  updateUser env config upd req now w = (Throw pleaseLogin, unauthorized w).
Proof.
  unfold updateUser. intros [Hnone|(ru & Hu & Hs)].
  - rewrite Hnone. reflexivity.
  - rewrite Hu. unfold outcome, Session_isValid, gets in Hs. simpl in Hs.
    unfold bind at 1. unfold Session_isValid, gets.
    injection Hs as ->. reflexivity.
Qed.

(** X4, witness: an anonymous UpdateMe, and alice's UpdateMe after her
    session expired at time 5000. *)
Lemma updateUser_requires_valid_session_witness :
  updateUser Demo.env Demo.config newEmail Demo.anonymous 2000 Demo.world
  = (Throw pleaseLogin, unauthorized Demo.world)
  /\ updateUser Demo.env Demo.config newEmail Demo.aliceRequest 5000 Demo.world
     = (Throw pleaseLogin, unauthorized Demo.world).
Proof.
  split.
  - apply (updateUser_requires_valid_session Demo.env Demo.config newEmail
             Demo.anonymous 2000 Demo.world).
    left. reflexivity.
  - apply (updateUser_requires_valid_session Demo.env Demo.config newEmail
             Demo.aliceRequest 5000 Demo.world).
    right. exists (publicFields Demo.alice). split; reflexivity.
Defined.

(** X5: an authenticated UpdateMe with a valid session that asks for a
    new password different from the supplied previous password, where the
    previous password verifies against the hash of the user the guard
    looks up (the first stored user holding the e-mail of the bearer
    claims, line 269) and the new password has fewer than 8 characters,
    fails with the length error and changes nothing. *)
Theorem updateUser_rejects_short_new_password env config upd req now w ru holder prev :
  user req = Some ru ->
  sessionIsValid ru req now w ->
  JsString.truthy (p_password upd) = true ->
  strictEq (p_password upd) (p_previousPassword upd) = false ->
  find (matches (ByEmail (pu_email ru))) (users w) = Some holder ->
  p_previousPassword upd = Some prev ->
  verifyPassword env prev (password holder) = true ->
  (String.length (orElse (p_password upd) "") < 8)%nat ->
  updateUser env config upd req now w = (Throw passwordTooShort, w).
Proof.
  intros Hu Hs Hpw Hneq Hholder Hprev Hvalid Hlen.
  rewrite (updateUser_authorized env config upd req now w ru Hu Hs).
  unfold bind at 1. unfold checkPasswordChange. rewrite Hpw, Hneq. simpl.
  unfold bind, User_isPasswordValid, gets. simpl.
  rewrite Hholder, Hprev, Hvalid. simpl.
  apply Nat.ltb_lt in Hlen. rewrite Hlen. reflexivity.
Qed.

(** X5, witness: the integration test 'Password too short': alice, whose
    token claims her current address, gives her password and asks for the
    new password toto. *)
Lemma updateUser_rejects_short_new_password_witness :
  updateUser Demo.env Demo.config
    (mkPatch None None (Some "toto") (Some "password") None None None None)
    Demo.aliceRequest 2000 Demo.world
  = (Throw passwordTooShort, Demo.world).
Proof.
  apply (updateUser_rejects_short_new_password Demo.env Demo.config
           (mkPatch None None (Some "toto") (Some "password") None None None None)
           Demo.aliceRequest 2000 Demo.world (publicFields Demo.alice)
           Demo.alice "password");
    try reflexivity.
  simpl. lia.
Defined.

(** ** Password recovery: order of the checks and clock skew *)

(** X6: the delay of [recoverPassword] is the absolute difference of the
    two dates: with a known token and a password of at least 8 characters
    the call is accepted exactly when the request date and the current time
    are less than 3600000 ms apart, so a request date an hour or more in
    the future is refused like one an hour or more in the past. *)
Theorem recoverPassword_delay_is_symmetric env pw token now w u d :
  (8 <= String.length pw)%nat ->
  find (matches (ByPasswordRecoveryToken token)) (users w) = Some u ->
  passwordRecoveryRequestDate u = Some d ->
  (Z.abs (now - d) < 3600000 ->
   recoverPassword env pw token now w = (Ok passwordUpdated, withNewPassword env pw u w))
  /\ (3600000 <= Z.abs (now - d) ->
      recoverPassword env pw token now w = (Throw linkExpired, w)).
Proof.
  intros Hlen Hfind Hdate.
  rewrite (recoverPassword_known env pw token now w u Hlen Hfind), Hdate, tooLate_threshold.
  destruct (Z.leb_spec 3600000 (Z.abs (now - d))) as [H|H];
    split; intros; try lia; reflexivity.
Qed.

(** X6, witness: bob's request is dated 1000; at time -3599000 his clock
    is an hour behind it and the link is refused, one millisecond later it
    is accepted. *)
Lemma recoverPassword_delay_is_symmetric_witness :
  recoverPassword Demo.env "newpassword" "rtok" (-3599000) Demo.world
  = (Throw linkExpired, Demo.world)
  /\ outcome (recoverPassword Demo.env "newpassword" "rtok" (-3598999)) Demo.world
     = Ok passwordUpdated.
Proof.
  split.
  - apply (proj2 (recoverPassword_delay_is_symmetric Demo.env "newpassword" "rtok"
                    (-3599000) Demo.world Demo.bob 1000
                    ltac:(simpl; lia) eq_refl eq_refl)).
    simpl. lia.
  - unfold outcome.
    rewrite (proj1 (recoverPassword_delay_is_symmetric Demo.env "newpassword" "rtok"
                      (-3598999) Demo.world Demo.bob 1000
                      ltac:(simpl; lia) eq_refl eq_refl)
               ltac:(simpl; lia)).
    reflexivity.
Defined.

(** X7: [recoverPassword] checks the length of the password before it
    looks the token up: a password of fewer than 8 characters fails with
    the length error whatever the token, and a token no user holds fails
    with UserNotFound "Unvalid token!" whatever the time; neither writes
    anything. *)
Theorem recoverPassword_checks_in_order env pw token now w :
  ((String.length pw < 8)%nat ->
   recoverPassword env pw token now w = (Throw passwordTooShort, w))
  /\ ((8 <= String.length pw)%nat ->
      find (matches (ByPasswordRecoveryToken token)) (users w) = None ->
      recoverPassword env pw token now w = (Throw unvalidToken, w)).
Proof.
  split.
  - intros Hlen. unfold recoverPassword. apply Nat.ltb_lt in Hlen. rewrite Hlen.
    reflexivity.
  - intros Hlen Hfind.
    destruct (recoverPassword_unknown env pw token now w Hfind) as (e & Hrun & He).
    rewrite Hrun, (He Hlen). reflexivity.
Qed.

(** X7, witness: a short password with bob's token, and a token nobody
    holds. *)
Lemma recoverPassword_checks_in_order_witness :
  recoverPassword Demo.env "toto" "rtok" 2000 Demo.world
  = (Throw passwordTooShort, Demo.world)
  /\ recoverPassword Demo.env "newpassword" "nobody" 2000 Demo.world
     = (Throw unvalidToken, Demo.world).
Proof.
  split.
  - apply (proj1 (recoverPassword_checks_in_order Demo.env "toto" "rtok" 2000 Demo.world)).
    simpl. lia.
  - apply (proj2 (recoverPassword_checks_in_order Demo.env "newpassword" "nobody" 2000
                    Demo.world)).
    + simpl. lia.
    + reflexivity.
Defined.

(** ** More lemmas on the collections *)

Section MoreCollections.

Context {A : Type}.
Variable p : A -> bool.

Lemma length_updateOne (g : A -> A) (l : list A) : length (updateOne p g l) = length l.
Proof using Type.
  induction l as [|x l IH]; simpl; [reflexivity|].
  destruct (p x); simpl; [reflexivity|]. now rewrite IH.
Qed.

Lemma In_deleteOne_other (l : list A) (x : A) :
  In x l -> p x = false -> In x (deleteOne p l).
Proof using Type.
  induction l as [|y l IH]; simpl; [intros []|].
  intros [->|Hin] Hpx.
  - rewrite Hpx. now left.
  - destruct (p y); [exact Hin|]. right. auto.
Qed.

Lemma find_app_last (l : list A) (x : A) :
  (forall y, In y l -> p y = false) -> p x = true -> find p (l ++ [x]) = Some x.
Proof using Type.
  intros Hl Hx. induction l as [|y l IH]; simpl.
  - now rewrite Hx.
  - rewrite (Hl y (or_introl eq_refl)). apply IH. intros z Hz. apply Hl. now right.
Qed.

(** The first document another filter [q] finds after an [updateOne], when
    [q] matched nothing before and matches the rewritten document. *)
Lemma find_other_updateOne (q : A -> bool) (g : A -> A) (l : list A) (x : A) :
  find p l = Some x ->
  (forall y, In y l -> q y = false) ->
  q (g x) = true ->
  find q (updateOne p g l) = Some (g x).
Proof using Type.
  intros Hfind Hq Hqx. induction l as [|y l IH]; simpl in *; [discriminate|].
  destruct (p y) eqn:Hy.
  - injection Hfind as ->. simpl. now rewrite Hqx.
  - simpl. rewrite (Hq y (or_introl eq_refl)). apply IH; [exact Hfind|].
    intros z Hz. apply Hq. now right.
Qed.


End MoreCollections.

Section MoreUniqueKeys.

Context {A K : Type}.
Variables (key : A -> K) (p : A -> bool).
Hypothesis p_one_key : forall x y, p x = true -> p y = true -> key x = key y.

(** With unique keys nothing that matches is left after [deleteOne]. *)
Lemma In_deleteOne_unique (l : list A) (x : A) :
  NoDup (map key l) -> In x (deleteOne p l) -> p x = false.
Proof using key p p_one_key.
  induction l as [|y l IH]; simpl; [intros _ []|].
  intros Hnd. apply NoDup_cons_iff in Hnd as [Hy Hl].
  destruct (p y) eqn:Hpy.
  - intros Hin. destruct (p x) eqn:Hpx; [|reflexivity].
    exfalso. apply Hy. rewrite (p_one_key y x Hpy Hpx). now apply in_map.
  - intros [<-|Hin]; auto.
Qed.

End MoreUniqueKeys.

(** ** DeleteMe *)

(** X8: [deleteUser] fails with UserNotFound "Please login!" for an
    anonymous caller and with WrongPasswordError when the password does not
    verify for the caller's id; in both cases nothing is written. *)
Theorem deleteUser_refusals env pw req w :
  (user req = None -> deleteUser env pw req w = (Throw pleaseLogin, w))
  /\ (forall ru,
         user req = Some ru ->
         outcome (User_isPasswordValid env (ById (pu_id ru)) (Some pw)) w = Ok false ->
         deleteUser env pw req w = (Throw wrongPassword, w)).
Proof.
  unfold deleteUser. split.
  - intros ->. reflexivity.
  - intros ru -> Hwrong. unfold outcome, User_isPasswordValid, gets in Hwrong.
    simpl in Hwrong. unfold bind, User_isPasswordValid, gets.
    injection Hwrong as ->. reflexivity.
Qed.

(** X8, witness: an anonymous DeleteMe, and alice's with a wrong password. *)
Lemma deleteUser_refusals_witness :
  deleteUser Demo.env "password" Demo.anonymous Demo.world = (Throw pleaseLogin, Demo.world)
  /\ deleteUser Demo.env "wrong" Demo.aliceRequest Demo.world
     = (Throw wrongPassword, Demo.world).
Proof.
  split.
  - apply (proj1 (deleteUser_refusals Demo.env "password" Demo.anonymous Demo.world)).
    reflexivity.
  - apply (proj2 (deleteUser_refusals Demo.env "wrong" Demo.aliceRequest Demo.world)
                 (publicFields Demo.alice)); reflexivity.
Defined.

(** X9: [deleteUser] of an authenticated caller whose password verifies
    succeeds, with or without a refresh cookie; in a collection with unique
    ids no user with the caller's id is left, and every other user is kept
    as it was. *)
Theorem deleteUser_removes_the_caller env pw req w ru u :
  uniqueIds (users w) ->
  user req = Some ru ->
  find (matches (ById (pu_id ru))) (users w) = Some u ->
  verifyPassword env pw (password u) = true ->
  exists w',
    deleteUser env pw req w = (Ok accountDeleted, w')
    /\ find (matches (ById (pu_id ru))) (users w') = None
    /\ (forall v, In v (users w') <-> In v (users w) /\ _id v <> pu_id ru).
Proof.
  intros Hids Hu Hfind Hpw. unfold deleteUser. rewrite Hu.
  unfold bind, User_isPasswordValid, gets, User_removeUser. simpl.
  rewrite Hfind, Hpw. simpl. rewrite Hfind. eexists. split; [reflexivity|].
  simpl.
  assert (Hgone : forall v, In v (deleteOne (matches (ById (pu_id ru))) (users w)) ->
                            matches (ById (pu_id ru)) v = false).
  { intros v. apply (In_deleteOne_unique _id _ (ById_one_key _) (users w) v Hids). }
  split.
  - destruct (find _ (deleteOne _ _)) as [v|] eqn:Hv; [|reflexivity].
    destruct (find_In _ _ _ Hv) as [Hin Hm]. rewrite (Hgone v Hin) in Hm. discriminate.
  - intros v. split.
    + intros Hin. split; [exact (In_deleteOne _ _ _ Hin)|].
      specialize (Hgone v Hin). simpl in Hgone. now apply Nat.eqb_neq.
    + intros [Hin Hne]. apply In_deleteOne_other; [exact Hin|].
      simpl. now apply Nat.eqb_neq.
Qed.

(** X9, witness: alice deletes her account; bob stays. *)
Lemma deleteUser_removes_the_caller_witness :
  exists w',
    deleteUser Demo.env "password" Demo.aliceRequest Demo.world = (Ok accountDeleted, w')
    /\ find (matches (ById 1%nat)) (users w') = None
    /\ (forall v, In v (users w') <-> In v (users Demo.world) /\ _id v <> 1%nat).
Proof.
  apply (deleteUser_removes_the_caller Demo.env "password" Demo.aliceRequest Demo.world
           (publicFields Demo.alice) Demo.alice).
  - unfold uniqueIds; simpl. repeat constructor; simpl; intuition discriminate.
  - reflexivity.
  - reflexivity.
  - reflexivity.
Defined.

(** ** Refresh: what a run of [refreshTokens] does *)

Lemma find_by_id_of_member (us : list User) (i : UserId) (u : User) :
  find (matches (ById i)) us = Some u -> find (matches (ById (_id u))) us = Some u.
Proof.
  intros Hf. destruct (find_In _ _ _ Hf) as [_ Hm]. simpl in Hm.
  apply Nat.eqb_eq in Hm. rewrite Hm. exact Hf.
Qed.

Lemma refreshTokens_found env config req now w s u :
  sessionOfCookie (c_refreshToken (cookies req)) w = Some s ->
  now < expiryDate s ->
  find (matches (ById (userId s))) (users w) = Some u ->
  refreshTokens env config req now w
  = (Ok (tokenPayload env config u now), afterRefresh env config s now w).
Proof.
  intros Hs Hlive Hu. unfold sessionOfCookie in Hs.
  destruct (c_refreshToken (cookies req)) as [t|] eqn:Hc; [|discriminate].
  destruct (find_In _ _ _ Hs) as [Hin Ht%String.eqb_eq].
  destruct (find_In _ _ _ Hu) as [_ Hid]. simpl in Hid. apply Nat.eqb_eq in Hid.
  apply Z.ltb_lt in Hlive.
  unfold refreshTokens. unfold bind at 1.
  unfold Session_getUserAndSessionFromRefreshToken, gets. rewrite Hc, Hs, Hlive, Hu, Hlive.
  unfold bind at 1. unfold User_refreshAuthToken, bind at 1, User_getUser.
  rewrite (find_by_id_of_member _ _ _ Hu).
  unfold ret at 1. unfold bind at 1. unfold Session_updateSession.
  assert (Hm : sessionMatches (_id u) (refreshToken s) s = true).
  { unfold sessionMatches. now rewrite Hid, Nat.eqb_refl, String.eqb_refl. }
  destruct (find (sessionMatches (_id u) (refreshToken s)) (sessions w)) eqn:Hf.
  - unfold bind, res_cookie, modify, ret. simpl. rewrite Hid. reflexivity.
  - rewrite (find_none_all _ _ Hf s Hin) in Hm. discriminate.
Qed.

Lemma refreshTokens_refused env config req now w :
  match sessionOfCookie (c_refreshToken (cookies req)) w with
  | Some s => expiryDate s <= now \/ find (matches (ById (userId s))) (users w) = None
  | None => True
  end ->
  refreshTokens env config req now w = (Throw pleaseLogin, w).
Proof.
  unfold sessionOfCookie, refreshTokens, bind.
  unfold Session_getUserAndSessionFromRefreshToken, gets.
  destruct (c_refreshToken (cookies req)) as [t|]; [|reflexivity].
  destruct (find _ (sessions w)) as [s|]; [|reflexivity].
  intros [Hdead| ->].
  - apply Z.ltb_ge in Hdead. rewrite Hdead. reflexivity.
  - destruct (now <? expiryDate s); reflexivity.
Qed.



Lemma refreshTokens_inv env config req now w payload w1 :
  refreshTokens env config req now w = (Ok payload, w1) ->
  exists s u,
    sessionOfCookie (c_refreshToken (cookies req)) w = Some s
    /\ now < expiryDate s
    /\ find (matches (ById (userId s))) (users w) = Some u
    /\ payload = tokenPayload env config u now
    /\ w1 = afterRefresh env config s now w.
Proof.
  intros Hrun.
  destruct (sessionOfCookie (c_refreshToken (cookies req)) w) as [s|] eqn:Hs.
  - destruct (Z.lt_ge_cases now (expiryDate s)) as [Hlive|Hdead].
    + destruct (find (matches (ById (userId s))) (users w)) as [u|] eqn:Hu.
      * rewrite (refreshTokens_found env config req now w s u Hs Hlive Hu) in Hrun.
        injection Hrun as <- <-. exists s, u. auto.
      * rewrite refreshTokens_refused in Hrun; [discriminate|]. rewrite Hs. now right.
    + rewrite refreshTokens_refused in Hrun; [discriminate|]. rewrite Hs. now left.
  - rewrite refreshTokens_refused in Hrun; [discriminate|]. now rewrite Hs.
Qed.

Lemma sessionOfCookie_member t w s :
  sessionOfCookie (Some t) w = Some s -> In s (sessions w) /\ refreshToken s = t.
Proof.
  intros Hs. destruct (find_In _ _ _ Hs) as [Hin Ht%String.eqb_eq]. auto.
Qed.

(** The token of the next draw names no session yet. *)
Lemma next_draw_matches_nothing env w :
  neverRepeats env -> sessionsWf env w ->
  forall y, In y (sessions w) ->
            String.eqb (refreshToken y) (random env (draws w) (REFRESH_TOKEN_LENGTH env))
            = false.
Proof.
  intros Hfresh Hwf y Hy. apply String.eqb_neq. intros Heq.
  apply (next_draw_not_stored env Hfresh w Hwf).
  unfold tokens. rewrite <- Heq. now apply in_map.
Qed.

(** X11: after a successful [refreshTokens] the response carries the new
    refresh token in an http-only cookie named refreshToken on the dotted
    domain, and presenting that token before the new expiry refreshes
    again.  The random source repeats no token and the session collection
    is well formed. *)
Theorem rotated_token_refreshes_again env config req now w payload w1 :
  neverRepeats env ->
  sessionsWf env w ->
  refreshTokens env config req now w = (Ok payload, w1) ->
  setCookies (res w1)
  = (setCookies (res w)
       ++ [mkSetCookie "refreshToken" (random env (draws w) (REFRESH_TOKEN_LENGTH env))
                       true ("." ++ getDomainAddress config)])%list
  /\ (forall req' now',
         c_refreshToken (cookies req')
         = Some (random env (draws w) (REFRESH_TOKEN_LENGTH env)) ->
         now' < now + SESSION_LIFETIME env ->
         exists payload' w2, refreshTokens env config req' now' w1 = (Ok payload', w2)).
Proof.
  intros Hfresh Hwf Hrun.
  destruct (refreshTokens_inv env config req now w payload w1 Hrun)
    as (s & u & Hs & Hlive & Hu & -> & ->).
  split; [reflexivity|].
  intros req' now' Hc Hnow'.
  destruct (c_refreshToken (cookies req)) as [t|] eqn:Hct; [|discriminate].
  destruct (sessionOfCookie_member t w s Hs) as [Hin Ht].
  assert (Hfirst : exists s0, find (sessionMatches (userId s) (refreshToken s)) (sessions w)
                              = Some s0).
  { destruct (find (sessionMatches (userId s) (refreshToken s)) (sessions w)) eqn:Hf;
      [eauto|].
    pose proof (find_none_all _ _ Hf s Hin) as Hm. unfold sessionMatches in Hm.
    rewrite Nat.eqb_refl, String.eqb_refl in Hm. discriminate. }
  destruct Hfirst as [s0 Hs0].
  exists (tokenPayload env config u now'),
    (afterRefresh env config (issuedSession env (userId s) now w) now'
       (afterRefresh env config s now w)).
  apply refreshTokens_found.
  - rewrite Hc. unfold sessionOfCookie. simpl.
    apply (find_other_updateOne _ _ (fun _ => issuedSession env (userId s) now w)
             (sessions w) s0 Hs0).
    + apply (next_draw_matches_nothing env w Hfresh Hwf).
    + simpl. apply String.eqb_refl.
  - exact Hnow'.
  - exact Hu.
Qed.

(** X11, witness: alice refreshes at time 2000 and again, with the token
    she was given, at time 3000. *)
Lemma rotated_token_refreshes_again_witness :
  exists payload' w2,
    refreshTokens Demo.env Demo.config
      (mkRequest None (mkCookies (Some "xx") None) "") 3000
      (after (refreshTokens Demo.env Demo.config Demo.aliceRequest 2000) Demo.world)
    = (Ok payload', w2).
Proof.
  apply (proj2 (rotated_token_refreshes_again Demo.env Demo.config Demo.aliceRequest 2000
                  Demo.world (tokenPayload Demo.env Demo.config Demo.alice 2000) _
                  Demo_neverRepeats Demo_sessionsWf eq_refl)).
  - reflexivity.
  - simpl. lia.
Defined.

(** ** Login: what a successful run does *)

Lemma login_found env config loginStr pw req now w u :
  resolveLogin loginStr (users w) = Some u ->
  verifyPassword env pw (password u) = true ->
  login env config loginStr pw req now w
  = (Ok (loginPayload env config u now),
     afterLogin env config (_id u) (c_refreshToken (cookies req)) now w).
Proof.
  intros Hres Hpw. unfold resolveLogin in Hres.
  unfold login. unfold bind at 1. unfold User_userExists at 1, gets.
  unfold bind at 1. unfold User_userExists at 1, gets.
  rewrite !existsb_by_find.
  assert (Hsign : (if match find (matches (ByEmail loginStr)) (users w) with
                      | Some _ => true | None => false end
                   then User_sign env (ByEmail loginStr) pw (privateKey config) now
                   else if match find (matches (ByUsername loginStr)) (users w) with
                           | Some _ => true | None => false end
                        then User_sign env (ByUsername loginStr) pw (privateKey config) now
                        else throw (Domain UserNotFound "Wrong credentials!")) w
                  = (Ok (loginPayload env config u now), w)).
  { unfold User_sign.
    destruct (find (matches (ByEmail loginStr)) (users w)) as [v|] eqn:He.
    - injection Hres as ->. simpl. rewrite He, Hpw. reflexivity.
    - simpl. rewrite Hres. simpl. rewrite Hres, Hpw. reflexivity. }
  unfold bind at 1. rewrite Hsign. clear Hsign.
  unfold afterLogin, keptSessions, loginPayload. simpl.
  destruct (c_refreshToken (cookies req)) as [t|]; simpl.
  - destruct (negb (String.eqb t "")); reflexivity.
  - reflexivity.
Qed.

(** X12: a login that resolves to a user whose password verifies returns
    the signed payload with the user's public fields, leaves users and
    jobs as they were, stores one new session for that user expiring one
    session lifetime after now, and sets its token as an http-only cookie
    named refreshToken on the dotted domain.  With a positive lifetime the
    user is left with no expired session and the new token is valid at
    once. *)
Theorem login_issues_a_session env config loginStr pw req now w u :
  resolveLogin loginStr (users w) = Some u ->
  verifyPassword env pw (password u) = true ->
  exists w',
    login env config loginStr pw req now w
    = (Ok (mkLoginPayload (jwtSign env (publicFields u) (privateKey config) now)
                          (now + TOKEN_LIFETIME env) (publicFields u)), w')
    /\ users w' = users w /\ jobs w' = jobs w
    /\ setCookies (res w')
       = (setCookies (res w)
            ++ [mkSetCookie "refreshToken"
                  (random env (draws w) (REFRESH_TOKEN_LENGTH env)) true
                  ("." ++ getDomainAddress config)])%list
    /\ In (mkSession (_id u) (random env (draws w) (REFRESH_TOKEN_LENGTH env))
                     (now + SESSION_LIFETIME env)) (sessions w')
    /\ (0 < SESSION_LIFETIME env ->
        (forall s, In s (sessions w') -> userId s = _id u -> now < expiryDate s)
        /\ outcome (Session_isValid (_id u)
                      (Some (random env (draws w) (REFRESH_TOKEN_LENGTH env))) now) w'
           = Ok true).
Proof.
  intros Hres Hpw.
  exists (afterLogin env config (_id u) (c_refreshToken (cookies req)) now w).
  split; [exact (login_found env config loginStr pw req now w u Hres Hpw)|].
  split; [reflexivity|]. split; [reflexivity|]. split; [reflexivity|].
  assert (Hnew : In (issuedSession env (_id u) now w)
                    (sessions (afterLogin env config (_id u) (c_refreshToken (cookies req))
                                 now w))).
  { simpl. apply in_or_app. right. now left. }
  split; [exact Hnew|].
  intros Hlife. split.
  - simpl. intros s Hin Hid. apply in_app_or in Hin as [Hin|[<-|[]]].
    + unfold keptSessions in Hin. apply filter_In in Hin as [_ Hkeep].
      rewrite Hid, Nat.eqb_refl in Hkeep. simpl in Hkeep.
      apply negb_true_iff, Z.leb_gt in Hkeep. exact Hkeep.
    + simpl. lia.
  - unfold outcome, Session_isValid, gets. simpl fst. f_equal.
    apply existsb_exists. exists (issuedSession env (_id u) now w). split; [exact Hnew|].
    unfold sessionMatches. simpl. rewrite Nat.eqb_refl, String.eqb_refl. simpl.
    apply Z.ltb_lt. lia.
Qed.

(** X12, witness: alice logs in with her address in the demo world. *)
Lemma login_issues_a_session_witness :
  exists w',
    login Demo.env Demo.config "alice@test.com" "password" Demo.anonymous 2000 Demo.world
    = (Ok (mkLoginPayload "jwt.alice" 902000 (publicFields Demo.alice)), w')
    /\ users w' = users Demo.world /\ jobs w' = jobs Demo.world
    /\ setCookies (res w') = [mkSetCookie "refreshToken" "xx" true ".localhost"]
    /\ In (mkSession 1%nat "xx" 2592002000) (sessions w')
    /\ (0 < 2592000000 ->
        (forall s, In s (sessions w') -> userId s = 1%nat -> 2000 < expiryDate s)
        /\ outcome (Session_isValid 1%nat (Some "xx") 2000) w' = Ok true).
Proof.
  exact (login_issues_a_session Demo.env Demo.config "alice@test.com" "password"
           Demo.anonymous 2000 Demo.world Demo.alice eq_refl eq_refl).
Defined.

(** X13: a login that presents a non-empty refresh cookie issued earlier
    leaves that token invalid for the user who logged in, at every time.
    The random source repeats no token and the session collection is well
    formed. *)
Theorem login_retires_the_presented_cookie env config loginStr pw req now w u t :
  neverRepeats env ->
  sessionsWf env w ->
  resolveLogin loginStr (users w) = Some u ->
  verifyPassword env pw (password u) = true ->
  c_refreshToken (cookies req) = Some t ->
  JsString.truthy (Some t) = true ->
  drawn env t w ->
  forall now',
    outcome (Session_isValid (_id u) (Some t) now')
            (after (login env config loginStr pw req now) w)
    = Ok false.
Proof.
  intros Hfresh Hwf Hres Hpw Hc Htruthy Hdrawn now'.
  unfold after. rewrite (login_found env config loginStr pw req now w u Hres Hpw).
  unfold outcome, Session_isValid, gets. simpl. f_equal.
  rewrite existsb_by_find.
  destruct (find _ _) as [s|] eqn:Hs; [|reflexivity]. exfalso.
  destruct (find_In _ _ _ Hs) as [Hin Hm].
  apply andb_true_iff in Hm as [Hm _].
  apply in_app_or in Hin as [Hin|[<-|[]]].
  - unfold keptSessions in Hin. apply filter_In in Hin as [Hin _].
    rewrite Hc, Htruthy in Hin. simpl in Hin.
    assert (Hone : forall x y, sessionMatches (_id u) t x = true ->
                               sessionMatches (_id u) t y = true ->
                               refreshToken x = refreshToken y).
    { intros x y Hx Hy. apply andb_true_iff in Hx as [_ Hx%String.eqb_eq].
      apply andb_true_iff in Hy as [_ Hy%String.eqb_eq]. congruence. }
    rewrite (In_deleteOne_unique refreshToken _ Hone (sessions w) s (proj1 Hwf) Hin) in Hm.
    discriminate.
  - apply andb_true_iff in Hm as [_ Hm%String.eqb_eq]. simpl in Hm.
    exact (next_draw_is_new env Hfresh t w Hdrawn (eq_sym Hm)).
Qed.

(** X13, witness: alice logs in again while presenting her session's
    cookie x; that token is invalid afterwards. *)
Lemma login_retires_the_presented_cookie_witness :
  outcome (Session_isValid 1%nat (Some "x") 3000)
          (after (login Demo.env Demo.config "alice" "password" Demo.aliceRequest 2000)
                 Demo.world)
  = Ok false.
Proof.
  apply (login_retires_the_presented_cookie Demo.env Demo.config "alice" "password"
           Demo.aliceRequest 2000 Demo.world Demo.alice "x"
           Demo_neverRepeats Demo_sessionsWf eq_refl eq_refl eq_refl eq_refl).
  exists 0%nat. split; [simpl; lia|reflexivity].
Defined.

(** ** Resending the confirmation email *)

(** X14: [resendConfirmationEmail] fails with UserNotFound "Please login!"
    for an anonymous caller; for a caller whose stored user is verified it
    fails with EmailAlreadyConfirmedError and queues nothing; otherwise it
    queues one job, addressed to the email of the bearer-token claims and
    linking to the verification token stored for the user, and writes
    nothing else. *)
Theorem resendConfirmationEmail_outcomes env config req w :
  (user req = None ->
   resendConfirmationEmail env config req w = (Throw pleaseLogin, w))
  /\ (forall ru u,
         user req = Some ru ->
         find (matches (ById (pu_id ru))) (users w) = Some u ->
         (verified u = true ->
          resendConfirmationEmail env config req w = (Throw emailAlreadyConfirmed, w))
         /\ (verified u = false ->
             resendConfirmationEmail env config req w
             = (Ok confirmationOnItsWay,
                set_jobs
                  (jobs w
                     ++ [mkEmailJob (previewClient config req)
                           (getRouterAddress config req
                              ++ "/user/email/confirmation?token="
                              ++ orElse (verificationToken u) "null")
                           (JobPublic ru) (pu_email ru) "Activate your account"
                           (verifyEmailTemplate config)]) w))).
Proof.
  unfold resendConfirmationEmail. split.
  - intros ->. reflexivity.
  - intros ru u -> Hfind.
    split; intros Hv; unfold bind at 1; unfold User_getUser; rewrite Hfind, Hv;
      reflexivity.
Qed.

(** X14, witness: alice is verified; bob, with claims of his own, is not
    and is sent his token vtok. *)
Lemma resendConfirmationEmail_outcomes_witness :
  resendConfirmationEmail Demo.env Demo.config Demo.aliceRequest Demo.world
  = (Throw emailAlreadyConfirmed, Demo.world)
  /\ jobs (after (resendConfirmationEmail Demo.env Demo.config
                    (mkRequest (Some (publicFields Demo.bob)) (mkCookies None None) ""))
                 Demo.world)
     = [mkEmailJob None "http://localhost:5000/user/email/confirmation?token=vtok"
                   (JobPublic (publicFields Demo.bob)) "bob@test.com"
                   "Activate your account" "VerifyEmail.ejs"].
Proof.
  split.
  - apply (proj1 (proj2 (resendConfirmationEmail_outcomes Demo.env Demo.config
                           Demo.aliceRequest Demo.world)
                        (publicFields Demo.alice) Demo.alice eq_refl eq_refl)).
    reflexivity.
  - unfold after.
    rewrite (proj2 (proj2 (resendConfirmationEmail_outcomes Demo.env Demo.config
                             (mkRequest (Some (publicFields Demo.bob))
                                        (mkCookies None None) "")
                             Demo.world)
                          (publicFields Demo.bob) Demo.bob eq_refl eq_refl)
               eq_refl).
    reflexivity.
Defined.

(** ** Password recovery: the request and the round trip *)

(** The user after [sendPasswordRecoveryEmail] stamped a token on it. *)
Lemma sendPasswordRecoveryEmail_run env config e ck q now w u :
  find (matches (ByEmail e)) (users w) = Some u ->
  sendPasswordRecoveryEmail env config e (mkRequest None ck q) now w
  = (Ok recoveryNotice,
     mkWorld
       (updateOne (matches (ByEmail e))
          (applyPatch None
             (mkPatch None None None None None None
                      (Some (Some (random env (draws w) TOKEN_LENGTH))) (Some (Some now))))
          (users w))
       (sessions w)
       (jobs w
          ++ [recoveryJob config (mkRequest None ck q)
                (applyPatch None
                   (mkPatch None None None None None None
                            (Some (Some (random env (draws w) TOKEN_LENGTH)))
                            (Some (Some now))) u)
                e (random env (draws w) TOKEN_LENGTH)])
       (S (draws w)) (res w)).
Proof.
  intros Hfind. unfold sendPasswordRecoveryEmail. simpl.
  unfold bind at 1. unfold User_userExists, gets. rewrite existsb_by_find, Hfind. simpl.
  unfold bind at 1. unfold generateToken.
  unfold bind at 1. unfold User_updateUser. simpl. rewrite Hfind. simpl.
  unfold bind at 1. unfold User_getUser. simpl.
  rewrite find_updateOne by (intros x Hx; exact Hx). rewrite Hfind. simpl.
  reflexivity.
Qed.

(** X15: an anonymous [sendPasswordRecoveryEmail] for an address no user
    has leaves the world untouched: no token is drawn and no job queued.
    For an address a user has, the first such user gets the token drawn in
    this call and the current time as request date, one job to that address
    is queued whose link ends in that token, and sessions are untouched. *)
Theorem sendPasswordRecoveryEmail_effects env config e ck q now w :
  (find (matches (ByEmail e)) (users w) = None ->
   sendPasswordRecoveryEmail env config e (mkRequest None ck q) now w
   = (Ok recoveryNotice, w))
  /\ (forall u,
         find (matches (ByEmail e)) (users w) = Some u ->
         exists w' u',
           sendPasswordRecoveryEmail env config e (mkRequest None ck q) now w
           = (Ok recoveryNotice, w')
           /\ find (matches (ByEmail e)) (users w') = Some u'
           /\ u' = mkUser (_id u) (username u) (email u) (password u) (verified u)
                          (verificationToken u)
                          (Some (random env (draws w) TOKEN_LENGTH)) (Some now)
           /\ jobs w'
              = (jobs w
                   ++ [mkEmailJob (previewClient config (mkRequest None ck q))
                         (getRouterAddress config (mkRequest None ck q)
                            ++ "/form/reset/password?token="
                            ++ random env (draws w) TOKEN_LENGTH)
                         (JobDoc u') e "Password Recovery"
                         (resetPasswordEmailTemplate config)])%list
           /\ sessions w' = sessions w).
Proof.
  split.
  - intros Hfind. unfold sendPasswordRecoveryEmail. simpl.
    unfold bind, User_userExists, gets. rewrite existsb_by_find, Hfind. reflexivity.
  - intros u Hfind. do 2 eexists.
    split; [exact (sendPasswordRecoveryEmail_run env config e ck q now w u Hfind)|].
    simpl. rewrite find_updateOne by (intros x Hx; exact Hx). rewrite Hfind.
    repeat split.
Qed.

(** X15, witness: a request for an unknown address and one for alice's. *)
Lemma sendPasswordRecoveryEmail_effects_witness :
  sendPasswordRecoveryEmail Demo.env Demo.config "nobody@test.com" Demo.anonymous 7000
    Demo.world
  = (Ok recoveryNotice, Demo.world)
  /\ exists w' u',
      sendPasswordRecoveryEmail Demo.env Demo.config "alice@test.com" Demo.anonymous 7000
        Demo.world
      = (Ok recoveryNotice, w')
      /\ find (matches (ByEmail "alice@test.com")) (users w') = Some u'
      /\ u' = mkUser 1%nat "alice" "alice@test.com" "$password" true None
                     (Some "xx") (Some 7000)
      /\ jobs w'
         = [mkEmailJob None "http://localhost:5000/form/reset/password?token=xx"
                       (JobDoc u') "alice@test.com" "Password Recovery"
                       "ResetPasswordEmail.ejs"]
      /\ sessions w' = sessions Demo.world.
Proof.
  split.
  - apply (proj1 (sendPasswordRecoveryEmail_effects Demo.env Demo.config "nobody@test.com"
                    (mkCookies None None) "" 7000 Demo.world)).
    reflexivity.
  - exact (proj2 (sendPasswordRecoveryEmail_effects Demo.env Demo.config "alice@test.com"
                    (mkCookies None None) "" 7000 Demo.world)
                 Demo.alice eq_refl).
Defined.

(** X16: the link mailed by [sendPasswordRecoveryEmail] works: for an
    address a user has, [recoverPassword] with the token of that call and a
    password of at least 8 characters succeeds whenever it comes less than
    3600000 ms from the request, provided no user already held that token
    as recovery token. *)
Theorem mailed_recovery_token_is_accepted env config e ck q t0 t1 pw w u :
  find (matches (ByEmail e)) (users w) = Some u ->
  (forall v, In v (users w) ->
             passwordRecoveryToken v <> Some (random env (draws w) TOKEN_LENGTH)) ->
  (8 <= String.length pw)%nat ->
  Z.abs (t1 - t0) < 3600000 ->
  exists w2,
    recoverPassword env pw (random env (draws w) TOKEN_LENGTH) t1
      (after (sendPasswordRecoveryEmail env config e (mkRequest None ck q) t0) w)
    = (Ok passwordUpdated, w2).
Proof.
  intros Hfind Hnew Hlen Hdelay. unfold after.
  rewrite (sendPasswordRecoveryEmail_run env config e ck q t0 w u Hfind). simpl snd.
  set (t := random env (draws w) TOKEN_LENGTH) in *.
  set (g := applyPatch None
              (mkPatch None None None None None None (Some (Some t)) (Some (Some t0)))).
  match goal with |- context [recoverPassword _ _ _ _ ?w1] => set (w1' := w1) end.
  assert (Htok : find (matches (ByPasswordRecoveryToken t)) (users w1') = Some (g u)).
  { apply (find_other_updateOne _ _ g (users w) u Hfind).
    - intros y Hy. simpl. specialize (Hnew y Hy).
      destruct (passwordRecoveryToken y) as [t'|]; [|reflexivity]. simpl.
      apply String.eqb_neq. congruence.
    - simpl. apply String.eqb_refl. }
  rewrite (recoverPassword_known env pw t t1 w1' (g u) Hlen Htok).
  change (passwordRecoveryRequestDate (g u)) with (Some t0).
  rewrite tooLate_threshold.
  destruct (Z.leb_spec 3600000 (Z.abs (t1 - t0))) as [H|_]; [lia|].
  eexists. reflexivity.
Qed.

(** X16, witness: alice asks for a recovery at time 7000 and uses the
    mailed token xx half an hour later. *)
Lemma mailed_recovery_token_is_accepted_witness :
  exists w2,
    recoverPassword Demo.env "newpassword" "xx" 1807000
      (after (sendPasswordRecoveryEmail Demo.env Demo.config "alice@test.com"
                Demo.anonymous 7000) Demo.world)
    = (Ok passwordUpdated, w2).
Proof.
  apply (mailed_recovery_token_is_accepted Demo.env Demo.config "alice@test.com"
           (mkCookies None None) "" 7000 1807000 "newpassword" Demo.world Demo.alice).
  - reflexivity.
  - intros v [<-|[<-|[]]]; simpl; discriminate.
  - simpl. lia.
  - simpl. lia.
Defined.

Lemma find_map_preserving {A} (q : A -> bool) (h : A -> A) (l : list A) :
  (forall x, q (h x) = q x) -> find q (map h l) = option_map h (find q l).
Proof.
  intros Hq. induction l as [|x l IH]; simpl; [reflexivity|].
  rewrite Hq. destruct (q x); [reflexivity|exact IH].
Qed.

(** X17: after a successful [recoverPassword] the user the token belonged
    to logs in with the address and the new password, in a collection with
    unique ids and emails and with a hash that verifies the password it was
    made from. *)
Theorem recovered_password_authenticates env config pw token now w ns w' u req' now' :
  uniqueIds (users w) ->
  uniqueEmails (users w) ->
  hashVerifies env pw ->
  find (matches (ByPasswordRecoveryToken token)) (users w) = Some u ->
  recoverPassword env pw token now w = (Ok ns, w') ->
  exists payload w'',
    login env config (email u) pw req' now' w' = (Ok payload, w'')
    /\ lp_user payload = publicFields u.
Proof.
  intros Hids Hemails Hhash Hfind Hrun.
  destruct (Nat.ltb_spec (String.length pw) 8) as [Hshort|Hlen].
  { unfold recoverPassword in Hrun. apply Nat.ltb_lt in Hshort.
    rewrite Hshort in Hrun. discriminate. }
  rewrite (recoverPassword_known env pw token now w u Hlen Hfind) in Hrun.
  destruct (tooLate _); [discriminate|]. injection Hrun as _ <-.
  destruct (find_In _ _ _ Hfind) as [Hin _].
  set (g := applyPatch (Some (hashPassword env (draws w) pw)) (recoverPatch pw)).
  assert (Hlogin : resolveLogin (email u) (users (withNewPassword env pw u w)) = Some (g u)).
  { unfold resolveLogin. simpl.
    rewrite (updateOne_unique _id _ _ (ById_one_key _) (users w) Hids).
    rewrite find_map_preserving.
    - rewrite (find_unique email _ (ByEmail_one_key _) (users w) u Hemails Hin)
        by (simpl; apply String.eqb_refl).
      simpl. rewrite Nat.eqb_refl. reflexivity.
    - intros x. destruct (matches (ById (_id u)) x); reflexivity. }
  do 2 eexists. split.
  - apply (login_found env config (email u) pw req' now' _ (g u) Hlogin).
    simpl. apply Hhash.
  - reflexivity.
Qed.

(** X17, witness: bob recovers his password in the demo world and logs in
    with it. *)
Lemma recovered_password_authenticates_witness :
  exists payload w'',
    login Demo.env Demo.config "bob@test.com" "newpassword" Demo.anonymous 3000
      (withNewPassword Demo.env "newpassword" Demo.bob Demo.world)
    = (Ok payload, w'')
    /\ lp_user payload = publicFields Demo.bob.
Proof.
  apply (recovered_password_authenticates Demo.env Demo.config "newpassword" "rtok" 2000
           Demo.world passwordUpdated _ Demo.bob Demo.anonymous 3000).
  - unfold uniqueIds; simpl. repeat constructor; simpl; intuition discriminate.
  - unfold uniqueEmails; simpl. repeat constructor; simpl; intuition discriminate.
  - intros n. simpl. induction n as [|n IH]; simpl; [reflexivity|exact IH].
  - reflexivity.
  - reflexivity.
Defined.

(** ** Register, then confirm *)

Lemma validate_none_email env n e us :
  validate env (Some n) (Some e) None us = None ->
  forall y, In y us -> matches (ByEmail e) y = false.
Proof.
  unfold validate. destruct (_ <? _)%nat; [discriminate|].
  destruct (taken username n None us); [discriminate|].
  destruct (taken email e None us) eqn:Ht; [discriminate|]. intros _ y Hy.
  unfold taken in Ht. rewrite existsb_by_find in Ht.
  destruct (find _ us) eqn:Hf; [discriminate|].
  pose proof (find_none_all _ _ Hf y Hy) as H. simpl in H.
  rewrite andb_true_r in H. exact H.
Qed.

(** The document [createUser] stores and the world it leaves. *)
Lemma createUser_inv env config u0 req w ns u1 w1 :
  createUser env config u0 req w = (Ok (ns, u1), w1) ->
  let t := random env (draws w) TOKEN_LENGTH in
  let doc := mkUser (nextId (users w)) (r_username u0) (r_email u0)
                    (hashPassword env (S (draws w)) (orElse (r_password u0) ""))
                    false (Some t) None None in
  validate env (Some (r_username u0)) (Some (r_email u0)) None (users w) = None
  /\ (8 <= String.length (orElse (r_password u0) ""))%nat
  /\ ns = userCreated
  /\ u1 = mkRegisterInput (r_username u0) (r_email u0) (r_password u0) (Some t)
  /\ w1 = mkWorld (users w ++ [doc]) (sessions w)
                  (jobs w ++ [confirmationJob config req (JobInput u1) t])
                  (S (S (draws w))) (res w).
Proof.
  unfold createUser, bind at 1, generateToken. simpl.
  destruct (JsString.truthy (r_password u0)); simpl; [|discriminate].
  destruct (Nat.ltb_spec (String.length (orElse (r_password u0) "")) 8) as [Hlt|Hge];
    [discriminate|].
  unfold tryCatch, bind at 1, User_createUser. cbn -[validate].
  destruct (validate env _ _ _ _) eqn:Hval; simpl; [discriminate|].
  unfold bind, sendConfirmationEmail, agenda_now, modify, ret. simpl.
  intros [= <- <- <-]. repeat split; assumption.
Qed.

(** X18: a successful [createUser] stores an unverified user holding the
    verification token drawn in the call and queues one job to the new
    address whose link ends in that token; [confirmEmail] with that token
    then renders the success notification and leaves the user found by the
    new address verified with no token left, provided no earlier user held
    that verification token. *)
Theorem registered_user_confirms_with_mailed_token env config u0 req w ns u1 w1 ck :
  createUser env config u0 req w = (Ok (ns, u1), w1) ->
  (forall v, In v (users w) ->
             verificationToken v <> Some (random env (draws w) TOKEN_LENGTH)) ->
  jobs w1
  = (jobs w
       ++ [mkEmailJob (previewClient config req)
             (getRouterAddress config req ++ "/user/email/confirmation?token="
                ++ random env (draws w) TOKEN_LENGTH)
             (JobInput u1) (r_email u0) "Activate your account"
             (verifyEmailTemplate config)])%list
  /\ (exists v, find (matches (ByEmail (r_email u0))) (users w1) = Some v
                /\ verified v = false
                /\ verificationToken v = Some (random env (draws w) TOKEN_LENGTH))
  /\ exists w2 v,
      confirmEmail env config (mkRequest None ck (random env (draws w) TOKEN_LENGTH)) w1
      = (Ok tt, rendered config nowVerified w2)
      /\ find (matches (ByEmail (r_email u0))) (users w2) = Some v
      /\ username v = r_username u0
      /\ verified v = true
      /\ verificationToken v = None.
Proof.
  intros Hrun Hnew.
  destruct (createUser_inv env config u0 req w ns u1 w1 Hrun)
    as (Hval & Hlen & -> & -> & ->).
  set (t := random env (draws w) TOKEN_LENGTH) in *.
  set (doc := mkUser (nextId (users w)) (r_username u0) (r_email u0)
                     (hashPassword env (S (draws w)) (orElse (r_password u0) ""))
                     false (Some t) None None).
  assert (Hbyemail : find (matches (ByEmail (r_email u0))) (users w ++ [doc]) = Some doc).
  { apply find_app_last; [exact (validate_none_email env _ _ _ Hval)|].
    simpl. apply String.eqb_refl. }
  assert (Hbytoken : find (matches (ByVerificationToken t)) (users w ++ [doc]) = Some doc).
  { apply find_app_last; [|simpl; apply String.eqb_refl].
    intros y Hy. simpl. specialize (Hnew y Hy).
    destruct (verificationToken y) as [t'|]; [|reflexivity]. simpl.
    apply String.eqb_neq. congruence. }
  split; [reflexivity|]. split.
  - exists doc. simpl. rewrite Hbyemail. repeat split.
  - exists (set_users (updateOne (matches (ByEmail (r_email u0)))
                         (applyPatch None
                            (mkPatch None None None None (Some true) (Some None) None None))
                         (users w ++ [doc]))
                      (mkWorld (users w ++ [doc]) (sessions w)
                               (jobs w ++ [confirmationJob config req
                                             (JobInput (mkRegisterInput (r_username u0)
                                                          (r_email u0) (r_password u0)
                                                          (Some t))) t])
                               (S (S (draws w))) (res w))).
    exists (confirmed doc). split; [|split; [|repeat split]].
    + unfold confirmEmail, bind, tryCatch, User_userExists, gets, User_getUser,
        User_updateUser; simpl.
      rewrite existsb_by_find, Hbytoken; simpl. rewrite Hbytoken; simpl.
      rewrite Hbyemail; simpl. reflexivity.
    + simpl. rewrite find_updateOne by (intros x Hx; exact Hx).
      rewrite Hbyemail. reflexivity.
Qed.

(** X18, witness: carol registers in the demo world and confirms with the
    token xx of her mail. *)
Lemma registered_user_confirms_witness :
  exists w2 v,
    confirmEmail Demo.env Demo.config (mkRequest None (mkCookies None None) "xx")
      (after (createUser Demo.env Demo.config
                (mkRegisterInput "carol" "carol@test.com" (Some "password") None)
                Demo.anonymous) Demo.world)
    = (Ok tt, rendered Demo.config nowVerified w2)
    /\ find (matches (ByEmail "carol@test.com")) (users w2) = Some v
    /\ username v = "carol"
    /\ verified v = true
    /\ verificationToken v = None.
Proof.
  apply (proj2 (proj2 (registered_user_confirms_with_mailed_token Demo.env Demo.config
                         (mkRegisterInput "carol" "carol@test.com" (Some "password") None)
                         Demo.anonymous Demo.world userCreated _ _
                         (mkCookies None None) eq_refl
                         ltac:(intros v [<-|[<-|[]]]; simpl; discriminate)))).
Defined.

(** ** What the requests never write *)

Section Frames.

Context {X : Type}.
Variable f : World -> X.

Lemma keeps_ret {A} (a : A) : keeps f (ret a).
Proof using Type. intros w. reflexivity. Qed.

Lemma keeps_throw {A} (e : Exn) : keeps f (@throw A e).
Proof using Type. intros w. reflexivity. Qed.

Lemma keeps_gets {A} (g : World -> A) : keeps f (gets g).
Proof using Type. intros w. reflexivity. Qed.

Lemma keeps_bind {A B} (m : M A) (k : A -> M B) :
  keeps f m -> (forall a, keeps f (k a)) -> keeps f (bind m k).
Proof using Type.
  intros Hm Hk w. specialize (Hm w). unfold after, bind in *.
  destruct (m w) as [[a|e] w1]; simpl in *; [|exact Hm].
  rewrite <- Hm. apply (Hk a w1).
Qed.

Lemma keeps_tryCatch {A} (m : M A) (h : Exn -> M A) :
  keeps f m -> (forall e, keeps f (h e)) -> keeps f (tryCatch m h).
Proof using Type.
  intros Hm Hh w. specialize (Hm w). unfold after, tryCatch in *.
  destruct (m w) as [[a|e] w1]; simpl in *; [exact Hm|].
  rewrite <- Hm. apply (Hh e w1).
Qed.

End Frames.

(** A write of one of the models, run on a world. *)
Ltac run_write :=
  intros ?w;
  unfold after, modify, User_getUser, User_createUser, User_updateUser, User_removeUser,
    User_sign, Session_createSession, Session_removeSession,
    Session_removeOutdatedSessions, Session_updateSession, generateToken, agenda_now,
    res_status, res_cookie, res_body, stored;
  repeat match goal with
         | |- context [match ?x with _ => _ end] =>
             lazymatch x with
             | context [match _ with _ => _ end] => fail
             | _ => destruct x
             end
         end;
  reflexivity.

(** Follow the binds and branches of a handler down to the writes. *)
Ltac frame :=
  repeat first
    [ apply keeps_ret
    | apply keeps_throw
    | apply keeps_gets
    | apply keeps_bind; [|intros ?]
    | apply keeps_tryCatch; [|intros ?]
    | progress unfold User_userExists, User_findById, User_getUserNonInternalFields,
        User_isPasswordValid, User_refreshAuthToken, Session_isValid,
        Session_getUserAndSessionFromRefreshToken, sendConfirmationEmail,
        checkPasswordChange, applyUpdates
    | progress cbv zeta
    | match goal with
      | |- keeps _ (if ?b then _ else _) => destruct b
      | |- keeps _ (match ?x with _ => _ end) => destruct x
      end
    | solve [run_write] ].

(** X19: the requests getUser, the two availability checks, resending the
    confirmation, login, the reset-password form and refresh never write to
    the user collection, whatever their outcome. *)
Theorem reading_requests_keep_users env config c req now w :
  readsUsersOnly c = true ->
  users (handle env config c req now w) = users w.
Proof.
  destruct c; try discriminate; intros _; unfold handle;
    match goal with
    | |- users (after ?m ?w0) = _ => enough (H : keeps users m) by exact (H w0)
    end.
  - unfold getUser. frame.
  - unfold checkEmailAvailable. frame.
  - unfold checkUsernameAvailable. frame.
  - unfold resendConfirmationEmail. frame.
  - unfold login. frame.
  - unfold resetPasswordForm. frame.
  - unfold refreshTokens. frame.
Qed.

(** X20: only login, refresh and account deletion write to the session
    collection: every other request leaves it as it was, whatever its
    outcome. *)
Theorem other_requests_keep_sessions env config c req now w :
  readsSessionsOnly c = true ->
  sessions (handle env config c req now w) = sessions w.
Proof.
  destruct c; try discriminate; intros _; unfold handle;
    match goal with
    | |- sessions (after ?m ?w0) = _ => enough (H : keeps sessions m) by exact (H w0)
    end.
  - unfold getUser. frame.
  - unfold checkEmailAvailable. frame.
  - unfold checkUsernameAvailable. frame.
  - unfold confirmEmail. frame.
  - unfold createUser. frame.
  - unfold resendConfirmationEmail. frame.
  - unfold recoverPassword. frame.
  - unfold updateUser. frame.
  - unfold sendPasswordRecoveryEmail. frame.
  - unfold resetPasswordForm. frame.
Qed.

(** X21: only registration, resending the confirmation, UpdateMe and the
    recovery request queue email jobs: every other request, confirming an
    email, recovering a password and deleting an account among them,
    leaves the queue as it was. *)
Theorem other_requests_queue_no_job env config c req now w :
  queuesNoJob c = true ->
  jobs (handle env config c req now w) = jobs w.
Proof.
  destruct c; try discriminate; intros _; unfold handle;
    match goal with
    | |- jobs (after ?m ?w0) = _ => enough (H : keeps jobs m) by exact (H w0)
    end.
  - unfold getUser. frame.
  - unfold checkEmailAvailable. frame.
  - unfold checkUsernameAvailable. frame.
  - unfold confirmEmail. frame.
  - unfold recoverPassword. frame.
  - unfold deleteUser. frame.
  - unfold login. frame.
  - unfold resetPasswordForm. frame.
  - unfold refreshTokens. frame.
Qed.

(** X19 to X21, witnesses: alice's login writes no user and queues no job,
    and bob's password recovery writes no session. *)
Lemma reading_requests_keep_users_witness :
  users (handle Demo.env Demo.config (CallLogin "alice" "password") Demo.anonymous 2000
           Demo.world)
  = users Demo.world.
Proof.
  exact (reading_requests_keep_users Demo.env Demo.config (CallLogin "alice" "password")
           Demo.anonymous 2000 Demo.world eq_refl).
Defined.

Lemma other_requests_keep_sessions_witness :
  sessions (handle Demo.env Demo.config (CallRecoverPassword "newpassword" "rtok")
              Demo.anonymous 2000 Demo.world)
  = sessions Demo.world.
Proof.
  exact (other_requests_keep_sessions Demo.env Demo.config
           (CallRecoverPassword "newpassword" "rtok") Demo.anonymous 2000 Demo.world
           eq_refl).
Defined.

Lemma other_requests_queue_no_job_witness :
  jobs (handle Demo.env Demo.config (CallLogin "alice" "password") Demo.anonymous 2000
          Demo.world)
  = jobs Demo.world.
Proof.
  exact (other_requests_queue_no_job Demo.env Demo.config (CallLogin "alice" "password")
           Demo.anonymous 2000 Demo.world eq_refl).
Defined.

(** * Properties of the mounting code *)

(** ** The bearer header *)

Lemma split_spaceless s : spaceless s = true -> split " "%char s = [s].
Proof.
  induction s as [|c r IH]; simpl; [reflexivity|].
  intros H. apply andb_true_iff in H as [Hc Hr].
  apply negb_true_iff in Hc. rewrite Hc, (IH Hr). reflexivity.
Qed.

Lemma split_first_word s r :
  spaceless s = true -> split " "%char (s ++ String " " r) = s :: split " "%char r.
Proof.
  induction s as [|c s IH]; simpl; [reflexivity|].
  intros H. apply andb_true_iff in H as [Hc Hs].
  apply negb_true_iff in Hc. rewrite Hc, (IH Hs). reflexivity.
Qed.

(** X22: the middleware takes as bearer token the text between the first
    and the second space of the authorization header, whatever the scheme
    word before it and whatever follows it: two headers with the same
    token and different scheme words authenticate alike.  A header without
    a space gives no token ([undefined]) to the verifier. *)
Theorem bearer_token_is_the_second_word verify scheme token rest req :
  spaceless scheme = true ->
  spaceless token = true ->
  bearerToken (scheme ++ " " ++ token) = Some token
  /\ bearerToken (scheme ++ " " ++ token ++ " " ++ rest) = Some token
  /\ authenticate verify (Some (scheme ++ " " ++ token)) req
     = authenticate verify (Some ("Bearer " ++ token)) req
  /\ bearerToken scheme = None.
Proof.
  intros Hs Ht.
  assert (H1 : bearerToken (scheme ++ " " ++ token) = Some token).
  { unfold bearerToken. change (" " ++ token) with (String " " token).
    rewrite (split_first_word scheme token Hs), (split_spaceless token Ht). reflexivity. }
  split; [exact H1|]. split; [|split].
  - unfold bearerToken. change (" " ++ token ++ " " ++ rest)
      with (String " " (token ++ String " " rest)).
    rewrite (split_first_word scheme _ Hs), (split_first_word token rest Ht). reflexivity.
  - unfold authenticate. rewrite H1.
    assert (H2 : bearerToken ("Bearer " ++ token) = Some token).
    { unfold bearerToken. change ("Bearer " ++ token) with ("Bearer" ++ String " " token).
      rewrite (split_first_word "Bearer" token eq_refl), (split_spaceless token Ht).
      reflexivity. }
    rewrite H2. reflexivity.
  - unfold bearerToken. rewrite (split_spaceless scheme Hs). reflexivity.
Qed.

(** X22, witness: the scheme word Basic is accepted like Bearer. *)
Lemma bearer_token_is_the_second_word_witness :
  bearerToken "Basic abc.def" = Some "abc.def"
  /\ bearerToken "Basic abc.def trailing words" = Some "abc.def"
  /\ bearerToken "Basic" = None.
Proof.
  destruct (bearer_token_is_the_second_word (fun _ => None) "Basic" "abc.def"
              "trailing words" Demo.anonymous eq_refl eq_refl) as (H1 & H2 & _ & H3).
  repeat split; assumption.
Defined.

(** ** Copying the options into the configuration *)

Lemma getProp_setProp_same k v o : getProp k (setProp k v o) = v.
Proof.
  induction o as [|[k' v'] r IH]; simpl.
  - now rewrite String.eqb_refl.
  - destruct (String.eqb k' k) eqn:Hk; simpl.
    + now rewrite String.eqb_refl.
    + now rewrite Hk.
Qed.

Lemma getProp_setProp_other k k' v o :
  k <> k' -> getProp k (setProp k' v o) = getProp k o.
Proof.
  intros Hne. induction o as [|[k0 v0] r IH]; simpl.
  - destruct (String.eqb k' k) eqn:Hk; [|reflexivity].
    apply String.eqb_eq in Hk. congruence.
  - destruct (String.eqb k0 k') eqn:Hk0; simpl.
    + apply String.eqb_eq in Hk0. subst k0.
      destruct (String.eqb k' k) eqn:Hk; [|reflexivity].
      apply String.eqb_eq in Hk. congruence.
    + destruct (String.eqb k0 k); [reflexivity|exact IH].
Qed.

(** Reading a key after a run of assignments with distinct keys. *)
Lemma getProp_assignments k (b a : list (string * Js)) :
  NoDup (map fst b) ->
  getProp k (fold_left (fun o kv => setProp (fst kv) (snd kv) o) b a)
  = if hasProp k b then getProp k b else getProp k a.
Proof.
  revert a. induction b as [|[k' v'] b IH]; intros a Hnd; simpl; [reflexivity|].
  simpl in Hnd. apply NoDup_cons_iff in Hnd as [Hk' Hb].
  rewrite (IH _ Hb). unfold hasProp in *. simpl.
  destruct (String.eqb k' k) eqn:Hk; simpl.
  - apply String.eqb_eq in Hk. subst k'.
    assert (Hno : existsb (fun kv => String.eqb (fst kv) k) b = false).
    { destruct (existsb _ b) eqn:He; [|reflexivity]. exfalso.
      apply existsb_exists in He as ([k0 v0] & Hin & Heq). simpl in Heq.
      apply String.eqb_eq in Heq. subst k0. apply Hk'.
      change k with (fst (k, v0)). now apply in_map. }
    rewrite Hno. apply getProp_setProp_same.
  - destruct (existsb _ b); [reflexivity|].
    apply getProp_setProp_other. intros ->. rewrite String.eqb_refl in Hk. discriminate.
Qed.

(** The value the loop leaves under [prop], from the configured value. *)
Lemma mergeOption_same options config prop :
  getProp prop (mergeOption options config prop)
  = if mergesInto (getProp prop config) (getProp prop options)
    then spreadBoth (getProp prop config) (getProp prop options)
    else getProp prop options.
Proof.
  unfold mergeOption, mergesInto.
  destruct (_ && _); apply getProp_setProp_same.
Qed.

Lemma mergeOption_other options config prop k :
  k <> prop -> getProp k (mergeOption options config prop) = getProp k config.
Proof.
  intros Hne. unfold mergeOption.
  destruct (_ && _); now apply getProp_setProp_other.
Qed.

Lemma mergeOptions_over_keys options ks config prop :
  NoDup ks ->
  getProp prop (fold_left (mergeOption options) ks config)
  = if existsb (fun k => String.eqb k prop) ks
    then if mergesInto (getProp prop config) (getProp prop options)
         then spreadBoth (getProp prop config) (getProp prop options)
         else getProp prop options
    else getProp prop config.
Proof.
  revert config. induction ks as [|k ks IH]; intros config Hnd; simpl; [reflexivity|].
  apply NoDup_cons_iff in Hnd as [Hk Hks]. rewrite (IH _ Hks).
  destruct (String.eqb k prop) eqn:Hkp; simpl.
  - apply String.eqb_eq in Hkp. subst k.
    assert (Hno : existsb (fun k => String.eqb k prop) ks = false).
    { destruct (existsb _ ks) eqn:He; [|reflexivity]. exfalso.
      apply existsb_exists in He as (k0 & Hin & Heq).
      apply String.eqb_eq in Heq. now subst k0. }
    rewrite Hno. apply mergeOption_same.
  - assert (Hne : prop <> k).
    { intros ->. rewrite String.eqb_refl in Hkp. discriminate. }
    rewrite (mergeOption_other options config k prop Hne). reflexivity.
Qed.

Lemma hasProp_keys prop (o : list (string * Js)) :
  existsb (fun k => String.eqb k prop) (map fst o) = hasProp prop o.
Proof.
  unfold hasProp. induction o as [|[k v] r IH]; simpl; [reflexivity|]. now rewrite IH.
Qed.

(** X23: after the loop of [mount], a property the options do not have
    keeps its configured value; a property they have holds the option
    itself, unless the configured value is an object or [null] and the
    option is no string, when it holds the spread of both.  The options
    are an object of their own, with distinct keys. *)
Theorem mergeOptions_reads options config prop :
  NoDup (map fst options) ->
  getProp prop (mergeOptions options config)
  = if hasProp prop options
    then if String.eqb (typeof (getProp prop config)) "object"
            && negb (String.eqb (typeof (getProp prop options)) "string")
         then spreadBoth (getProp prop config) (getProp prop options)
         else getProp prop options
    else getProp prop config.
Proof.
  intros Hnd. unfold mergeOptions.
  rewrite (mergeOptions_over_keys options (map fst options) config prop Hnd), hasProp_keys.
  reflexivity.
Qed.

(** X23, witness: a port option replaces the configured port, and an
    untouched setting stays. *)
Lemma mergeOptions_reads_witness :
  getProp "port"
    (mergeOptions [("port", JNumber 80)] [("host", JString "h"); ("port", JNumber 5000)])
  = JNumber 80
  /\ getProp "host"
       (mergeOptions [("port", JNumber 80)] [("host", JString "h"); ("port", JNumber 5000)])
     = JString "h".
Proof.
  assert (Hnd : NoDup (map fst [("port", JNumber 80)])).
  { repeat constructor. intros []. }
  split.
  - rewrite (mergeOptions_reads [("port", JNumber 80)]
               [("host", JString "h"); ("port", JNumber 5000)] "port" Hnd).
    reflexivity.
  - rewrite (mergeOptions_reads [("port", JNumber 80)]
               [("host", JString "h"); ("port", JNumber 5000)] "host" Hnd).
    reflexivity.
Defined.

(** X24: the merge of an object-valued setting is one level deep and
    cannot be undone by a scalar.  When the configured value of a property
    is an object: an object option with distinct keys gives an object in
    which each key reads as in the option if the option has it and as
    configured otherwise; an option that is [undefined], [null], a
    boolean, a number or a function is ignored, the configured properties
    staying as they were; a string option replaces the object.  When the
    configured value is [null], a number option is lost: the property
    becomes the empty object. *)
Theorem mergeOptions_on_objects options config prop configured :
  NoDup (map fst options) ->
  hasProp prop options = true ->
  (getProp prop config = JObject configured ->
   (forall given,
       getProp prop options = JObject given ->
       NoDup (map fst given) ->
       exists merged,
         getProp prop (mergeOptions options config) = JObject merged
         /\ forall k, getProp k merged
                      = if hasProp k given then getProp k given else getProp k configured)
   /\ (typeof (getProp prop options) <> "string" ->
       typeof (getProp prop options) <> "object" ->
       getProp prop (mergeOptions options config) = JObject configured)
   /\ (getProp prop options = JNull ->
       getProp prop (mergeOptions options config) = JObject configured)
   /\ (forall s, getProp prop options = JString s ->
                 getProp prop (mergeOptions options config) = JString s))
  /\ (getProp prop config = JNull ->
      forall n, getProp prop options = JNumber n ->
                getProp prop (mergeOptions options config) = JObject []).
Proof.
  intros Hnd Hhas.
  pose proof (mergeOptions_reads options config prop Hnd) as Hread.
  rewrite Hhas in Hread. split.
  - intros Hc. rewrite Hc in Hread. simpl in Hread. repeat split.
    + intros given Hg Hgnd. rewrite Hg in Hread. simpl in Hread.
      eexists. split; [exact Hread|].
      intros k. apply getProp_assignments. exact Hgnd.
    + intros Hstr Hobj. rewrite Hread.
      destruct (getProp prop options); simpl in *; try reflexivity; congruence.
    + intros Hnull. rewrite Hread, Hnull. reflexivity.
    + intros s Hs. rewrite Hread, Hs. reflexivity.
  - intros Hc n Hn. rewrite Hread, Hc, Hn. reflexivity.
Qed.

(** X24, witness: the mail transporter configured as an object is not
    switched off by the option [false]. *)
Lemma mergeOptions_on_objects_witness :
  getProp "mailTransporter"
    (mergeOptions [("mailTransporter", JBoolean false)]
       [("mailTransporter", JObject [("host", JString "smtp")])])
  = JObject [("host", JString "smtp")].
Proof.
  assert (Hnd : NoDup (map fst [("mailTransporter", JBoolean false)])).
  { repeat constructor. intros []. }
  apply (proj1 (proj2 (proj1 (mergeOptions_on_objects
                                [("mailTransporter", JBoolean false)]
                                [("mailTransporter", JObject [("host", JString "smtp")])]
                                "mailTransporter" [("host", JString "smtp")]
                                Hnd eq_refl) eq_refl)));
    simpl; discriminate.
Defined.

(** * Further properties: confirmation and availability *)

Lemma confirmEmail_found env config req w u :
  uniqueEmails (users w) ->
  find (matches (ByVerificationToken (query_token req))) (users w) = Some u ->
  confirmEmail env config req w
  = (Ok tt,
     rendered config nowVerified
       (set_users (updateOne (matches (ByEmail (email u)))
                     (applyPatch None
                        (mkPatch None None None None (Some true) (Some None) None None))
                     (users w)) w)).
Proof.
  intros Hemails Hfind. destruct (find_In _ _ _ Hfind) as [Hin _].
  assert (Hself : matches (ByEmail (email u)) u = true) by (simpl; apply String.eqb_refl).
  pose proof (find_unique email _ (ByEmail_one_key _) (users w) u Hemails Hin Hself)
    as Hbyemail.
  unfold confirmEmail, bind, tryCatch, User_userExists, gets, User_getUser,
    User_updateUser; simpl.
  rewrite existsb_by_find, Hfind; simpl. rewrite Hfind; simpl.
  rewrite Hbyemail; simpl. reflexivity.
Qed.

Lemma confirmEmail_unknown env config req w :
  find (matches (ByVerificationToken (query_token req))) (users w) = None ->
  confirmEmail env config req w = (Ok tt, rendered config linkNotValid w).
Proof.
  intros Hfind. unfold confirmEmail, bind, tryCatch, User_userExists, gets; simpl.
  rewrite existsb_by_find, Hfind. reflexivity.
Qed.

(** X25: a verification link works once: after [confirmEmail] consumed a
    token, a second [confirmEmail] with the same token renders "This link
    is not valid!" and changes no user.  The collection has unique emails
    and the token belongs to one user. *)
Theorem verification_link_works_once env config req w u :
  uniqueEmails (users w) ->
  identifiesOneUser (ByVerificationToken (query_token req)) (users w) ->
  find (matches (ByVerificationToken (query_token req))) (users w) = Some u ->
  forall req',
    query_token req' = query_token req ->
    confirmEmail env config req' (after (confirmEmail env config req) w)
    = (Ok tt, rendered config linkNotValid (after (confirmEmail env config req) w)).
Proof.
  intros Hemails Hone Hfind req' Hq. unfold after.
  rewrite (confirmEmail_found env config req w u Hemails Hfind). simpl snd.
  apply confirmEmail_unknown. rewrite Hq. simpl.
  destruct (find_In _ _ _ Hfind) as [Hin Htok].
  match goal with |- find ?q ?l = None => destruct (find q l) as [x|] eqn:Hx end;
    [|reflexivity].
  exfalso. destruct (find_In _ _ _ Hx) as [Hxin Hxtok].
  rewrite (updateOne_unique email _ _ (ByEmail_one_key _) (users w) Hemails) in Hxin.
  apply in_map_iff in Hxin as (y & Hy & Hyin).
  destruct (matches (ByEmail (email u)) y) eqn:Hye.
  - subst x. simpl in Hxtok. discriminate.
  - subst x. rewrite (Hone y u Hyin Hin Hxtok Htok) in Hye.
    simpl in Hye. rewrite String.eqb_refl in Hye. discriminate.
Qed.

(** X25, witness: bob confirms with vtok twice. *)
Lemma verification_link_works_once_witness :
  body (res (after (confirmEmail Demo.env Demo.config
                      (mkRequest None (mkCookies None None) "vtok"))
                   (after (confirmEmail Demo.env Demo.config
                             (mkRequest None (mkCookies None None) "vtok"))
                          Demo.world)))
  = Some (Rendered "Notification.ejs" linkNotValid).
Proof.
  unfold after at 1.
  rewrite (verification_link_works_once Demo.env Demo.config
             (mkRequest None (mkCookies None None) "vtok") Demo.world Demo.bob).
  - reflexivity.
  - unfold uniqueEmails; simpl. repeat constructor; simpl; intuition discriminate.
  - intros v v' Hv Hv' Hm Hm'. simpl in Hv, Hv'.
    destruct Hv as [<-|[<-|[]]]; destruct Hv' as [<-|[<-|[]]];
      try reflexivity; discriminate.
  - reflexivity.
  - reflexivity.
Defined.

(** X26: after a successful [createUser] the address and the username of
    the new user are reported as taken by [checkEmailAvailable] and
    [checkUsernameAvailable]. *)
Theorem registered_names_are_taken env config u0 req w ns u1 w1 :
  createUser env config u0 req w = (Ok (ns, u1), w1) ->
  outcome (checkEmailAvailable (r_email u0)) w1 = Ok false
  /\ outcome (checkUsernameAvailable (r_username u0)) w1 = Ok false.
Proof.
  intros Hrun.
  destruct (createUser_inv env config u0 req w ns u1 w1 Hrun) as (_ & _ & _ & _ & ->).
  unfold outcome, checkEmailAvailable, checkUsernameAvailable, bind, User_userExists,
    gets, ret. simpl.
  rewrite !existsb_app. simpl. rewrite !String.eqb_refl, !orb_true_r. split; reflexivity.
Qed.

(** X26, witness: carol's registration in the demo world. *)
Lemma registered_names_are_taken_witness :
  outcome (checkEmailAvailable "carol@test.com")
          (after (createUser Demo.env Demo.config
                    (mkRegisterInput "carol" "carol@test.com" (Some "password") None)
                    Demo.anonymous) Demo.world)
  = Ok false
  /\ outcome (checkUsernameAvailable "carol")
             (after (createUser Demo.env Demo.config
                       (mkRegisterInput "carol" "carol@test.com" (Some "password") None)
                       Demo.anonymous) Demo.world)
     = Ok false.
Proof.
  exact (registered_names_are_taken Demo.env Demo.config
           (mkRegisterInput "carol" "carol@test.com" (Some "password") None)
           Demo.anonymous Demo.world userCreated _ _ eq_refl).
Defined.
